(** * beemeteo: ERA5-Land normaliser and MeteoGalicia client

    A shallow embedding of
    - [src/beemeteo/sources/era5/utils.py] ([ERA5Land_variables],
      [get_hourly_historical_weather_from_ERA5Land], [shift],
      [transformation_pipe], [query_from_grib]) and
    - [src/beemeteo/sources/meteogalicia/__init__.py]
      ([_get_historic_data_day], [_collect_forecasting],
      [_get_historical_data_source], [_get_historic_forecasting_raster],
      [_collect_raster]),
    followed by the properties of these functions.

    Conventions of the embedding.
    - A float64 cell is an [npfloat]: either [NaN] or a finite value carried
      as an exact real number; rounding error, overflow and signed zeros of
      IEEE arithmetic are outside the model.
    - A Python exception is a value of [exn]; code that can raise returns a
      [result].
    - The cells of ts and timestamp are UTC epoch seconds in [Z]; a datetime
      is an instant in microseconds together with its zone. *)

From Stdlib Require Import ZArith QArith Qround Reals List String Ascii Bool.
From Stdlib Require Import DecimalString.
From Stdlib Require OrderedTypeEx Lqa DecimalPos DecimalZ.
From Stdlib Require Import Lia Lra Sorting Permutation.
Import ListNotations.

(** ** Exceptions and fallible computations *)

Inductive exn : Type :=
| KeyError (key : string)
| TypeError (msg : string)
| ValueError (msg : string)
| UndefinedVariableError (name : string)
| FileNotFoundError (path : string)
| ProviderError (msg : string)
| AttributeError (msg : string).

Inductive result (A : Type) : Type :=
| Ok (a : A)
| Raise (e : exn).

Arguments Ok {A} a.
Arguments Raise {A} e.

Definition bind {A B : Type} (m : result A) (k : A -> result B) : result B :=
  match m with
  | Ok a => k a
  | Raise e => Raise e
  end.

Declare Scope result_scope.
Delimit Scope result_scope with result.
Notation "x <- m ;; k" := (bind m (fun x => k))
  (at level 61, m at next level, right associativity) : result_scope.

(** ** Python slices over lists *)

Section Slices.
Context {A : Type}.

(** Position denoted by a slice bound [k] in a sequence of length [len]:
    negative bounds count from the end, and everything is clamped to
    [0 .. len]. *)
Definition slice_bound (len : nat) (k : Z) : nat :=
  if (k <? 0)%Z then Z.to_nat (Z.max 0 (Z.of_nat len + k))
  else Nat.min len (Z.to_nat k).

(** [l[:k]] *)
Definition slice_to (l : list A) (k : Z) : list A :=
  firstn (slice_bound (List.length l) k) l.

(** [l[k:]] *)
Definition slice_from (l : list A) (k : Z) : list A :=
  skipn (slice_bound (List.length l) k) l.

(** [l[:k] = v] with a scalar [v], broadcast over the slice. *)
Definition fill_to (l : list A) (k : Z) (v : A) : list A :=
  repeat v (List.length (slice_to l k)) ++ slice_from l k.

(** [l[k:] = v] with a scalar [v]. *)
Definition fill_from (l : list A) (k : Z) (v : A) : list A :=
  slice_to l k ++ repeat v (List.length (slice_from l k)).

(** [l[:k] = vs] with a sequence [vs]; numpy refuses a length mismatch. *)
Definition assign_to (l : list A) (k : Z) (vs : list A) : result (list A) :=
  if Nat.eqb (List.length vs) (List.length (slice_to l k))
  then Ok (vs ++ slice_from l k)
  else Raise (ValueError "could not broadcast input array").

(** [l[k:] = vs] with a sequence [vs]. *)
Definition assign_from (l : list A) (k : Z) (vs : list A) : result (list A) :=
  if Nat.eqb (List.length vs) (List.length (slice_from l k))
  then Ok (slice_to l k ++ vs)
  else Raise (ValueError "could not broadcast input array").
End Slices.

(** Elementwise combination of two aligned columns. *)
Fixpoint map2 {A B C : Type} (f : A -> B -> C) (l : list A) (m : list B) : list C :=
  match l, m with
  | a :: l', b :: m' => f a b :: map2 f l' m'
  | _, _ => []
  end.

(** ** era5/utils.py *)

Module Era5.
Local Open Scope R_scope.
Local Open Scope string_scope.
Local Open Scope result_scope.

(** *** Float cells *)

Inductive npfloat : Type :=
| NaN
| Fin (x : R).

Definition lift1 (f : R -> R) (a : npfloat) : npfloat :=
  match a with
  | Fin x => Fin (f x)
  | NaN => NaN
  end.

Definition lift2 (f : R -> R -> R) (a b : npfloat) : npfloat :=
  match a, b with
  | Fin x, Fin y => Fin (f x y)
  | _, _ => NaN
  end.

Definition fadd : npfloat -> npfloat -> npfloat := lift2 Rplus.
Definition fsub : npfloat -> npfloat -> npfloat := lift2 Rminus.
Definition fmul : npfloat -> npfloat -> npfloat := lift2 Rmult.

(** Division. IEEE answers a zero divisor with an infinity or NaN; the
    model has no infinities and answers [NaN]. *)
Definition fdiv (a b : npfloat) : npfloat :=
  match a, b with
  | Fin x, Fin y => if Req_dec_T y 0 then NaN else Fin (x / y)
  | _, _ => NaN
  end.

(** [x ** 2] *)
Definition fsquare : npfloat -> npfloat := lift1 (fun x => x ^ 2).

(** [np.sqrt]: NaN on a negative argument. *)
Definition fsqrt (a : npfloat) : npfloat :=
  match a with
  | Fin x => if Rlt_dec x 0 then NaN else Fin (sqrt x)
  | NaN => NaN
  end.

(** [np.exp] *)
Definition fexp : npfloat -> npfloat := lift1 exp.

(** The two-argument arctangent of C and numpy on real arguments,
    [arctan2 y x], by quadrant. *)
Definition arctan2 (y x : R) : R :=
  if Rlt_dec 0 x then atan (y / x)
  else if Rlt_dec x 0 then
         if Rlt_dec y 0 then atan (y / x) - PI else atan (y / x) + PI
       else if Rlt_dec 0 y then PI / 2
            else if Rlt_dec y 0 then - (PI / 2)
                 else 0.

(** [np.arctan2] *)
Definition farctan2 : npfloat -> npfloat -> npfloat := lift2 arctan2.

(** [a > c]: a comparison with NaN is false. *)
Definition fgt (a : npfloat) (c : R) : bool :=
  match a with
  | Fin x => if Rlt_dec c x then true else false
  | NaN => false
  end.

(** *** Data frames, column by column *)

(** The kinds of column that the frames of the model hold: datetimes and
    float64 numbers, as cfgrib delivers them. Columns of integers or of
    objects are outside the model. *)
Inductive Column : Type :=
| Times (tz_aware : bool) (v : list Z)
| Floats (v : list npfloat).

(** The columns of a frame in their order. *)
Definition DataFrame : Type := list (string * Column).

(** [df[k]] *)
Fixpoint getitem (df : DataFrame) (k : string) : result Column :=
  match df with
  | [] => Raise (KeyError k)
  | (k', c) :: df' => if String.eqb k' k then Ok c else getitem df' k
  end.

(** [df[k] = c]: an existing column is replaced where it stands, a new one
    is appended. *)
Fixpoint setitem (df : DataFrame) (k : string) (c : Column) : DataFrame :=
  match df with
  | [] => [(k, c)]
  | (k', c') :: df' =>
      if String.eqb k' k then (k', c) :: df' else (k', c') :: setitem df' k c
  end.

(** [df[k]] used as a float series. The read of a column of datetimes is
    refused here with a TypeError; in the code the read succeeds and the
    operation that follows raises (a TypeError in the arithmetic, a
    ValueError inside [shift]). The properties below are about frames whose
    columns are of the kind that the pipeline expects. *)
Definition floats (df : DataFrame) (k : string) : result (list npfloat) :=
  c <- getitem df k ;;
  match c with
  | Floats v => Ok v
  | Times _ _ => Raise (TypeError "datetime column in float arithmetic")
  end.

(** [df[k].dt.tz_localize(pytz.UTC)] *)
Definition tz_localize_utc (df : DataFrame) (k : string) : result Column :=
  c <- getitem df k ;;
  match c with
  | Times false v => Ok (Times true v)
  | Times true _ => Raise (TypeError "Already tz-aware, use tz_convert to convert.")
  | Floats _ => Raise (AttributeError "Can only use .dt accessor with datetimelike values")
  end.

(** [df[k].iloc[i]], when there is such a float cell. *)
Definition cell (df : DataFrame) (k : string) (i : nat) : option npfloat :=
  match floats df k with
  | Ok v => nth_error v i
  | Raise _ => None
  end.

(** *** shift *)

(** [np.empty_like(arr)]: as long as [arr], its cells uninitialised; [junk]
    is what memory happened to hold. *)
Definition empty_like {A : Type} (junk : A) (arr : list A) : list A :=
  repeat junk (List.length arr).

(** [shift(arr, num, fill_value)] on an array whose dtype holds
    [fill_value], as an array of floats holds the default NaN. numpy
    refuses a fill that the dtype cannot hold (NaN for an array of integers
    or of datetimes is a ValueError at the first slice assignment); such a
    call is not a term of this definition. *)
Definition shift {A : Type} (junk : A) (arr : list A) (num : Z) (fill_value : A)
  : result (list A) :=
  let result := empty_like junk arr in
  if (num >? 0)%Z then
    let result := fill_to result num fill_value in
    assign_from result num (slice_to arr (- num))
  else if (num <? 0)%Z then
    let result := fill_from result num fill_value in
    assign_to result num (slice_from arr (- num))
  else
    assign_from result 0 arr.

(** *** transformation_pipe *)

Definition kelvin : npfloat := Fin 273.15.

(** [np.where(s > 0, s / 3600, otherwise)] *)
Definition rate_where (otherwise : npfloat) (s : list npfloat) : list npfloat :=
  map (fun d => if fgt d 0 then fdiv d (Fin 3600) else otherwise) s.

(** [6.112 * np.exp(17.67 * t / (t + 243.5))] *)
Definition saturation (t : npfloat) : npfloat :=
  fmul (Fin 6.112) (fexp (fdiv (fmul (Fin 17.67) t) (fadd t (Fin 243.5)))).

Definition transformation_pipe (junk : npfloat) (df : DataFrame) : result DataFrame :=
  time <- tz_localize_utc df "time" ;;
  let df := setitem df "time" time in
  u <- floats df "windSpeedEast" ;;
  v <- floats df "windSpeedNorth" ;;
  let df := setitem df "windSpeed"
              (Floats (map fsqrt (map2 fadd (map fsquare u) (map fsquare v)))) in
  v <- floats df "windSpeedNorth" ;;
  u <- floats df "windSpeedEast" ;;
  let df := setitem df "windDirection"
              (Floats (map (fun a => fadd (fdiv (fmul a (Fin 180)) (Fin PI)) (Fin 180))
                           (map2 farctan2 v u))) in
  st <- floats df "soilTemperature" ;;
  let df := setitem df "soilTemperature" (Floats (map (fun k => fsub k kelvin) st)) in
  dt <- floats df "dewAirTemperature" ;;
  let df := setitem df "dewAirTemperature" (Floats (map (fun k => fsub k kelvin) dt)) in
  at_ <- floats df "airTemperature" ;;
  let df := setitem df "airTemperature" (Floats (map (fun k => fsub k kelvin) at_)) in
  td <- floats df "dewAirTemperature" ;;
  t <- floats df "airTemperature" ;;
  let df := setitem df "relativeHumidity"
              (Floats (map2 (fun d a => fdiv (fmul (saturation d) (Fin 100)) (saturation a))
                            td t)) in
  ghi <- floats df "GHI" ;;
  prev <- shift junk ghi 1 NaN ;;
  let df := setitem df "GHI" (Floats (map2 fsub ghi prev)) in
  ghi <- floats df "GHI" ;;
  let df := setitem df "GHI" (Floats (rate_where (Fin 0) ghi)) in
  tp <- floats df "totalPrecipitation" ;;
  prev <- shift junk tp 1 NaN ;;
  let df := setitem df "totalPrecipitation" (Floats (map2 fsub tp prev)) in
  tp <- floats df "totalPrecipitation" ;;
  let df := setitem df "totalPrecipitation" (Floats (rate_where NaN tp)) in
  Ok df.

(** *** A three-hour frame of one grid cell

    One row per hour, with a west wind in the first hour, a dry second
    hour (cumulative precipitation unchanged) and radiation set in the
    second hour only. *)
Definition three_hours : DataFrame :=
  [ ("latitude", Floats [Fin 49.6; Fin 49.6; Fin 49.6]);
    ("longitude", Floats [Fin 18.5; Fin 18.5; Fin 18.5]);
    ("time", Times false [1357084800; 1357088400; 1357092000]%Z);
    ("windSpeedEast", Floats [Fin (-1); Fin 3; Fin 0]);
    ("windSpeedNorth", Floats [Fin 0; Fin 4; Fin 0]);
    ("dewAirTemperature", Floats [Fin 275; Fin 276; Fin 277]);
    ("airTemperature", Floats [Fin 300; Fin 301; Fin 302]);
    ("totalPrecipitation", Floats [Fin 5; Fin 5; Fin 41]);
    ("GHI", Floats [Fin 100; Fin 3700; Fin 3700]);
    ("soilTemperature", Floats [Fin 280; Fin 280; Fin 281]) ].

(** The frame after a run, written as the assignments of the pipeline in
    their order. *)
Definition piped (df : DataFrame) (l : list Z)
           (u v st dt at_ ghi tp pg pt : list npfloat) : DataFrame :=
  setitem
    (setitem
       (setitem
          (setitem
             (setitem
                (setitem
                   (setitem
                      (setitem
                         (setitem
                            (setitem
                               (setitem df "time" (Times true l))
                               "windSpeed"
                               (Floats (map fsqrt (map2 fadd (map fsquare u)
                                                         (map fsquare v)))))
                            "windDirection"
                            (Floats (map (fun a => fadd (fdiv (fmul a (Fin 180)) (Fin PI))
                                                        (Fin 180))
                                         (map2 farctan2 v u))))
                         "soilTemperature" (Floats (map (fun k => fsub k kelvin) st)))
                      "dewAirTemperature" (Floats (map (fun k => fsub k kelvin) dt)))
                   "airTemperature" (Floats (map (fun k => fsub k kelvin) at_)))
                "relativeHumidity"
                (Floats (map2 (fun d a => fdiv (fmul (saturation d) (Fin 100))
                                               (saturation a))
                              (map (fun k => fsub k kelvin) dt)
                              (map (fun k => fsub k kelvin) at_))))
             "GHI" (Floats (map2 fsub ghi pg)))
          "GHI" (Floats (rate_where (Fin 0) (map2 fsub ghi pg))))
       "totalPrecipitation" (Floats (map2 fsub tp pt)))
    "totalPrecipitation" (Floats (rate_where NaN (map2 fsub tp pt))).

(** The float columns that [transformation_pipe] reads, in the order in
    which it first reads them. *)
Definition float_inputs : list string :=
  ["windSpeedEast"; "windSpeedNorth"; "soilTemperature"; "dewAirTemperature";
   "airTemperature"; "GHI"; "totalPrecipitation"].

(** The columns that [transformation_pipe] assigns. *)
Definition assigned_columns : list string :=
  ["time"; "windSpeed"; "windDirection"; "soilTemperature"; "dewAirTemperature";
   "airTemperature"; "relativeHumidity"; "GHI"; "totalPrecipitation"].

(** *** query_from_grib

    The directory is a set of paths. [cfgrib.open_datasets] is an outside
    library: per GRIB file it is known whether it gets as far as writing
    the index file it was given, and what it returns or raises. The steps
    from the opened datasets to one frame per file ([to_dataframe],
    [cleaning_pipe] and the left merge) are a parameter as well;
    [list_grib_files] is the sorted, already filtered listing. *)

Definition FileSystem : Type := list string.

Definition exists_path (fs : FileSystem) (p : string) : bool :=
  existsb (String.eqb p) fs.

(** Creating a file. *)
Definition write_path (fs : FileSystem) (p : string) : FileSystem :=
  if exists_path fs p then fs else p :: fs.

(** [os.remove(p)] *)
Definition os_remove (fs : FileSystem) (p : string) : result FileSystem :=
  if exists_path fs p
  then Ok (filter (fun q => negb (String.eqb p q)) fs)
  else Raise (FileNotFoundError p).

(** [f'{fn}.{hash}.idx'] *)
Definition index_path (fn : string) (hash : N) : string :=
  fn ++ "." ++ NilEmpty.string_of_uint (N.to_uint hash) ++ ".idx".

Section QueryFromGrib.
Variable Dataset : Type.
Variable open_datasets : string -> bool * result (list Dataset).
Variable frame_of_datasets : list Dataset -> result DataFrame.
(** [random.getrandbits(128)], draw by draw. *)
Variable getrandbits : nat -> N.
Variable junk : npfloat.

(** The loop over [list_grib_files], from its [i]-th round on. The frames
    are returned as the list that [pd.concat] would join, oldest first.
    An exception leaves the loop with the directory as it is at that
    moment. *)
Fixpoint load_from (i : nat) (files : list string) (frames : list DataFrame)
         (fs : FileSystem) : FileSystem * result (list DataFrame) :=
  match files with
  | [] => (fs, Ok frames)
  | fn :: rest =>
      let idx := index_path fn (getrandbits i) in
      let (written, dg) := open_datasets fn in
      let fs := if written then write_path fs idx else fs in
      match dg with
      | Raise e => (fs, Raise e)
      | Ok dg =>
          match os_remove fs idx with
          | Raise e => (fs, Raise e)
          | Ok fs =>
              match (df_ <- frame_of_datasets dg ;; transformation_pipe junk df_) with
              | Raise e => (fs, Raise e)
              | Ok df_ => load_from (S i) rest (frames ++ [df_])%list fs
              end
          end
      end
  end.

Definition query_from_grib (list_grib_files : list string) (fs : FileSystem)
  : FileSystem * result (list DataFrame) :=
  load_from 0 list_grib_files [] fs.
End QueryFromGrib.

(** *** ERA5Land_variables *)

Record Era5Variable : Type := {
  CDSLongName : string;
  CDSShortName : string;
  name : string
}.

Definition ERA5Land_variables : list Era5Variable :=
  [ {| CDSLongName := "10m_u_component_of_wind"; CDSShortName := "u10";
       name := "windSpeedEast" |};
    {| CDSLongName := "10m_v_component_of_wind"; CDSShortName := "v10";
       name := "windSpeedNorth" |};
    {| CDSLongName := "2m_dewpoint_temperature"; CDSShortName := "d2m";
       name := "dewAirTemperature" |};
    {| CDSLongName := "2m_temperature"; CDSShortName := "t2m";
       name := "airTemperature" |};
    {| CDSLongName := "leaf_area_index_high_vegetation"; CDSShortName := "lai_hv";
       name := "highVegetationRatio" |};
    {| CDSLongName := "leaf_area_index_low_vegetation"; CDSShortName := "lai_lv";
       name := "lowVegetationRatio" |};
    {| CDSLongName := "total_precipitation"; CDSShortName := "tp";
       name := "totalPrecipitation" |};
    {| CDSLongName := "surface_solar_radiation_downwards"; CDSShortName := "ssrd";
       name := "GHI" |};
    {| CDSLongName := "forecast_albedo"; CDSShortName := "fal";
       name := "albedo" |};
    {| CDSLongName := "soil_temperature_level_4"; CDSShortName := "stl4";
       name := "soilTemperature" |};
    {| CDSLongName := "volumetric_soil_water_layer_4"; CDSShortName := "swvl4";
       name := "soilWaterRatio" |} ].

(** *** Builtins of Python that the download loop uses *)

Definition newline : string := String (ascii_of_nat 10) EmptyString.

(** [str(n)] of an int *)
Definition str (n : Z) : string := NilZero.string_of_int (Z.to_int n).

(** [int(s)], for the strings that the loop hands to it: pieces of the
    [str] of an int, so digits with at most a minus sign in front. *)
Definition int (s : string) : result Z :=
  match NilZero.int_of_string s with
  | Some d => Ok (Z.of_int d)
  | None => Raise (ValueError ("invalid literal for int() with base 10: '" ++ s ++ "'"))
  end.

(** [f'{n:02}'] *)
Definition pad2 (n : Z) : string :=
  let s := str n in
  if (String.length s <? 2)%nat then "0" ++ s else s.

Section Extremes.
Context {A : Type}.
Variable ltb : A -> A -> bool.

(** [max(l)]: the first of the greatest items. *)
Definition py_max (l : list A) : result A :=
  match l with
  | [] => Raise (ValueError "max() arg is an empty sequence")
  | x :: l' => Ok (fold_left (fun best y => if ltb best y then y else best) l' x)
  end.

(** [min(l)]: the first of the least items. *)
Definition py_min (l : list A) : result A :=
  match l with
  | [] => Raise (ValueError "min() arg is an empty sequence")
  | x :: l' => Ok (fold_left (fun best y => if ltb y best then y else best) l' x)
  end.
End Extremes.

(** *** get_hourly_historical_weather_from_ERA5Land

    The Climate Data Store is an outside service. Whether [cdsapi.Client()]
    finds credentials is a parameter; so is, retrieval by retrieval, whether
    [c.retrieve] gets as far as writing its target file, and whether it
    returns or raises. A bound of the box is a number of Python with its
    order and its [str]. [os.makedirs] creates the directory when it is
    not there and is taken to succeed; the store holds the directories and
    the paths of the files. A request is kept with
    the entries that vary, the variables, year, month, area and target;
    the product, the days 01 to 31, the hours and the format are constants.
    The loop is a [while]: it runs on fuel, and [None] is a run that has not
    come to its end when the fuel is used up. *)

Section Download.
Local Open Scope Z_scope.
Variable Number : Type.
Variable number_ltb : Number -> Number -> bool.
Variable number_str : Number -> string.

Record Retrieval : Type := {
  req_variable : list string;
  req_year : string;
  req_month : string;
  req_area : list Number;
  req_target : string
}.

Record Store : Type := {
  directories : FileSystem;
  disk : FileSystem;
  retrievals : list Retrieval;
  stderr : list string
}.

Variable credentials : bool.
Variable retrieve : nat -> Retrieval -> bool * result unit.
Variable data_dir : string.
Variable ym_range : list Z.
Variables lat_range lon_range : list Number.

Definition stderr_write (w : Store) (s : string) : Store :=
  {| directories := directories w; disk := disk w; retrievals := retrievals w;
     stderr := (stderr w ++ [s])%list |}.

(** [os.makedirs(data_dir, exist_ok=True)]: the directory is created when
    it is not there. That the call can fail (a file of that name, no
    permission) is outside the model. *)
Definition os_makedirs (w : Store) : Store :=
  {| directories := write_path (directories w) data_dir; disk := disk w;
     retrievals := retrievals w; stderr := stderr w |}.

(** [c.retrieve('reanalysis-era5-land', {...}, filename)] *)
Definition c_retrieve (w : Store) (r : Retrieval) : result unit * Store :=
  let (written, outcome) := retrieve (List.length (retrievals w)) r in
  (outcome,
   {| directories := directories w;
      disk := if written then write_path (disk w) (req_target r) else disk w;
      retrievals := (retrievals w ++ [r])%list;
      stderr := stderr w |}).

(** [f'{year}{month:02}'] *)
Definition year_month (year month : Z) : string := str year ++ pad2 month.

Definition grib_file (year month : Z) (north west south east : Number) : string :=
  data_dir ++ "/" ++ year_month year month ++ "_" ++ number_str north ++ "_"
           ++ number_str west ++ "_" ++ number_str south ++ "_" ++ number_str east
           ++ ".grib".

(** The request for one month: [{'variable': [...], 'year': f'{year}',
    'month': f'{month:02}', 'area': [...], ...}] and the target. *)
Definition request (year month : Z) (north west south east : Number)
           (filename : string) : Retrieval :=
  {| req_variable := map CDSLongName ERA5Land_variables;
     req_year := str year;
     req_month := pad2 month;
     req_area := [north; west; south; east];
     req_target := filename |}.

Definition obtaining (year month : Z) (north west south east : Number) : string :=
  "--> Obtaining " ++ year_month year month ++ " in bounding box: "
    ++ number_str north ++ "," ++ number_str west ++ " and "
    ++ number_str south ++ "," ++ number_str east ++ newline.

Definition done_line : string := "Done!" ++ newline.

(** One round of the loop at [ym]: the [ym] of the next round, or the
    exception that ends the run. *)
Definition one_month (ym : Z) (w : Store) : result Z * Store :=
  match (year <- int (substring 0 4 (str ym)) ;;
         month <- int (substring 4 2 (str ym)) ;;
         north <- py_max number_ltb lat_range ;;
         west <- py_min number_ltb lon_range ;;
         south <- py_min number_ltb lat_range ;;
         east <- py_max number_ltb lon_range ;;
         Ok (year, month, (north, west, south, east))) with
  | Raise e => (Raise e, w)
  | Ok (year, month, (north, west, south, east)) =>
      let filename := grib_file year month north west south east in
      let w := stderr_write w (obtaining year month north west south east) in
      let (outcome, w) :=
        if negb (exists_path (disk w) filename)
        then c_retrieve w (request year month north west south east filename)
        else (Ok tt, w) in
      match outcome with
      | Raise e => (Raise e, w)
      | Ok _ =>
          let w := stderr_write w done_line in
          let month := month + 1 in
          let (year, month) := if month >? 12 then (year + 1, 1) else (year, month) in
          (int (year_month year month), w)
      end
  end.

(** [while ym <= max(ym_range): ...] *)
Fixpoint months_from (fuel : nat) (ym : Z) (w : Store) : option (result unit * Store) :=
  match fuel with
  | O => None
  | S fuel =>
      match py_max Z.ltb ym_range with
      | Raise e => Some (Raise e, w)
      | Ok last =>
          if ym <=? last
          then match one_month ym w with
               | (Raise e, w) => Some (Raise e, w)
               | (Ok ym, w) => months_from fuel ym w
               end
          else Some (Ok tt, w)
      end
  end.

Definition no_credentials : string :=
  "Obtain credentials to Climate Data Store and set them in ~/.cdsapirc file. "
    ++ "Please, follow instructions in: "
    ++ "https://cds.climate.copernicus.eu/api-how-to#install-the-cds-api-key".

Definition success : string := "Success! All data has been downloaded." ++ newline.

(** The value is what [sys.stderr.write] returns, the number of characters
    written. [raise print(...)] raises what [print] returns, which is
    [None] and no exception. *)
Definition get_hourly_historical_weather_from_ERA5Land (fuel : nat) (w : Store)
  : option (result Z * Store) :=
  if credentials then
    match py_min Z.ltb ym_range with
    | Raise e => Some (Raise e, w)
    | Ok ym =>
        match months_from fuel ym (os_makedirs w) with
        | None => None
        | Some (Raise e, w) => Some (Raise e, w)
        | Some (Ok _, w) =>
            Some (Ok (Z.of_nat (String.length success)), stderr_write w success)
        end
    end
  else
    Some (Raise (TypeError "exceptions must derive from BaseException"),
          stderr_write w (no_credentials ++ newline)).
End Download.

(** *** Notions for the download loop *)

(** A year of four digits with one of its twelve months, as [yyyymm]. *)
Definition calendar_month (ym : Z) : Prop :=
  (1000 <= ym / 100 <= 9999 /\ 1 <= ym mod 100 <= 12)%Z.

(** The months counted from January of the year 0. *)
Definition month_number (ym : Z) : Z := (12 * (ym / 100) + ym mod 100 - 1)%Z.

Definition ym_of_number (k : Z) : Z := (100 * (k / 12) + k mod 12 + 1)%Z.

(** The months from [first] to [last], both included, in their order. *)
Definition months_between (first last : Z) : list Z :=
  map (fun i => ym_of_number (month_number first + Z.of_nat i))
      (seq 0 (Z.to_nat (month_number last - month_number first + 1))).

(** *** A store and a service for the examples

    The box is 40 to 42 degrees north and 0 to 3 degrees east, with whole
    numbers as bounds; the file of December 2023 is there already. *)

Definition sample_store : Store Z :=
  {| directories := ["data"]; disk := ["data/202312_42_0_40_3.grib"];
     retrievals := []; stderr := [] |}.

(** A service that delivers every file. *)
Definition delivers : nat -> Retrieval Z -> bool * result unit :=
  fun _ _ => (true, Ok tt).

(** A service that is down. *)
Definition is_down : nat -> Retrieval Z -> bool * result unit :=
  fun _ _ => (false, Raise (ProviderError "HTTP 503")).

Definition sample_download (credentials : bool)
           (retrieve : nat -> Retrieval Z -> bool * result unit) (ym_range : list Z)
  : nat -> Store Z -> option (result Z * Store Z) :=
  get_hourly_historical_weather_from_ERA5Land
    Z Z.ltb str credentials retrieve "data" ym_range [40%Z; 42%Z] [0%Z; 3%Z].
End Era5.

(** ** Sorting and duplicates, as pandas uses them *)

Section SortWith.
Context {A : Type}.
Variable leb : A -> A -> bool.

Fixpoint insert_sorted (x : A) (l : list A) : list A :=
  match l with
  | [] => [x]
  | y :: l' => if leb x y then x :: l else y :: insert_sorted x l'
  end.

(** An insertion sort that keeps equal elements in their order. pandas sorts
    with an unstable quicksort by default, so the order it leaves among
    equal keys is its own; nothing below depends on that order. *)
Definition sort_with (l : list A) : list A := fold_right insert_sorted [] l.
End SortWith.

Section DropDuplicates.
Context {A K : Type}.
Variable key : A -> K.
Variable key_eqb : K -> K -> bool.

(** [drop_duplicates(subset=...)], keeping the first row of every key. *)
Fixpoint drop_seen (seen : list K) (l : list A) : list A :=
  match l with
  | [] => []
  | x :: l' =>
      if existsb (key_eqb (key x)) seen then drop_seen seen l'
      else x :: drop_seen (key x :: seen) l'
  end.

Definition drop_duplicates (l : list A) : list A := drop_seen [] l.
End DropDuplicates.

(** ** sources/meteogalicia/__init__.py *)

Module MeteoGalicia.
Local Open Scope string_scope.
Local Open Scope Z_scope.

(** *** Datetimes

    A time zone is a fixed offset from UTC in seconds, east positive (a
    pytz zone between two of its transitions). An aware datetime is an
    instant, in microseconds since the epoch, read in a zone. *)

Definition TimeZone : Type := Z.
Definition UTC : TimeZone := 0.

Record Datetime : Type := { instant : Z; zone : TimeZone }.

Definition second_us : Z := 1000000.
Definition hour_us : Z := 3600 * second_us.
Definition day_us : Z := 24 * hour_us.

(** [d.date()], as the number of the day in the zone of [d]. *)
Definition date (d : Datetime) : Z := (instant d + zone d * second_us) / day_us.

(** [tz.localize(datetime.datetime.combine(day, datetime.time(hour)))] *)
Definition localize (tz : TimeZone) (day hour : Z) : Datetime :=
  {| instant := day * day_us + hour * hour_us - tz * second_us; zone := tz |}.

(** [d.astimezone(tz)] *)
Definition astimezone (d : Datetime) (tz : TimeZone) : Datetime :=
  {| instant := instant d; zone := tz |}.

(** [d + datetime.timedelta(microseconds=us)] *)
Definition plus_us (d : Datetime) (us : Z) : Datetime :=
  {| instant := instant d + us; zone := zone d |}.

(** [(a - b).days] *)
Definition days_between (a b : Datetime) : Z := (instant a - instant b) / day_us.

(** [int(d.astimezone(pytz.UTC).timestamp())]: [int] truncates. *)
Definition int_timestamp (d : Datetime) : Z :=
  Z.quot (instant (astimezone d UTC)) second_us.

(** [pd.date_range(start, stop, freq="1d")] *)
Definition date_range (start stop : Datetime) : list Datetime :=
  if instant stop <? instant start then []
  else map (fun k => plus_us start (Z.of_nat k * day_us))
           (seq 0 (S (Z.to_nat ((instant stop - instant start) / day_us)))).

(** *** Frames *)

Inductive value : Type :=
| Missing
| Num (q : Q).

(** A row of the frames that hold the solar series. [ts] is the cell of
    the column ts, which [rename] may call timestamp; a cell of a column
    that the frame does not have is [None]. *)
Record Row : Type := {
  ts : Z;
  GHI : value;
  latitude : option Q;
  longitude : option Q;
  forecasting_timestamp : option Z
}.

Record Frame : Type := { columns : list string; rows : list Row }.

(** [pd.DataFrame()] and [pd.DataFrame({})] *)
Definition empty_frame : Frame := {| columns := []; rows := [] |}.

Definition has_column (f : Frame) (k : string) : bool :=
  existsb (String.eqb k) (columns f).

(** [f.empty] *)
Definition empty (f : Frame) : bool :=
  match columns f, rows f with
  | [], _ | _, [] => true
  | _, _ => false
  end.

(** [pd.concat([a, b])] *)
Definition concat (a b : Frame) : Frame :=
  {| columns := (columns a
                   ++ filter (fun k => negb (has_column a k)) (columns b))%list;
     rows := (rows a ++ rows b)%list |}.

(** [f.rename({old: new}, axis=1)] *)
Definition rename (old new : string) (f : Frame) : Frame :=
  {| columns := map (fun k => if String.eqb k old then new else k) (columns f);
     rows := rows f |}.

(** [f[k] = scalar], [set] writing the cell of column [k]. *)
Definition assign (k : string) (set : Row -> Row) (f : Frame) : Frame :=
  {| columns := if has_column f k then columns f else (columns f ++ [k])%list;
     rows := map set (rows f) |}.

Definition with_latitude (x : Q) (r : Row) : Row :=
  {| ts := ts r; GHI := GHI r; latitude := Some x; longitude := longitude r;
     forecasting_timestamp := forecasting_timestamp r |}.

Definition with_longitude (x : Q) (r : Row) : Row :=
  {| ts := ts r; GHI := GHI r; latitude := latitude r; longitude := Some x;
     forecasting_timestamp := forecasting_timestamp r |}.

Definition with_forecasting_timestamp (t : Z) (r : Row) : Row :=
  {| ts := ts r; GHI := GHI r; latitude := latitude r; longitude := longitude r;
     forecasting_timestamp := Some t |}.

(** [f.sort_values(by=["ts"])] *)
Definition sort_values_ts (f : Frame) : result Frame :=
  if has_column f "ts"
  then Ok {| columns := columns f;
             rows := sort_with (fun a b => ts a <=? ts b) (rows f) |}
  else Raise (KeyError "ts").

(** [f.query("<k> >= {}".format(bound))] on the column that [ts] holds. *)
Definition query_ge (k : string) (bound : Z) (f : Frame) : result Frame :=
  if has_column f k
  then Ok {| columns := columns f;
             rows := filter (fun r => bound <=? ts r) (rows f) |}
  else Raise (UndefinedVariableError k).

(** [f.query("ts >= {} and ts <= {}".format(lo.timestamp(), hi.timestamp()))]:
    the two bounds are seconds with a fraction, compared here in
    microseconds. *)
Definition query_between (lo hi : Datetime) (f : Frame) : result Frame :=
  if has_column f "ts"
  then Ok {| columns := columns f;
             rows := filter (fun r => (instant lo <=? ts r * second_us)
                                      && (ts r * second_us <=? instant hi))
                            (rows f) |}
  else Raise (UndefinedVariableError "ts").

Definition cell_eqb (a b : option Q) : bool :=
  match a, b with
  | Some x, Some y => Qeq_bool x y
  | None, None => true
  | _, _ => false
  end.

(** The cells of a row under latitude, longitude and ts. *)
Definition key (r : Row) : option Q * option Q * Z :=
  (latitude r, longitude r, ts r).

Definition key_eqb (a b : option Q * option Q * Z) : bool :=
  let '(la, lo, t) := a in
  let '(la', lo', t') := b in
  cell_eqb la la' && cell_eqb lo lo' && (t =? t').

Definition key_cols : list string := ["latitude"; "longitude"; "ts"].

(** [f.set_index(key_cols)[sorted(f.columns[~f.columns.isin(key_cols)])]
      .reset_index()] *)
Definition key_columns_first (f : Frame) : Frame :=
  {| columns := (key_cols
                   ++ sort_with String.leb
                        (filter (fun k => negb (existsb (String.eqb k) key_cols))
                                (columns f)))%list;
     rows := rows f |}.

(** *** The provider and what a run leaves behind *)

(** A request to mandeo.meteogalicia.es, by what its URL is made of. *)
Inductive Request : Type :=
| Recent (km domain : Z) (day : Datetime) (lon lat : Q)
| Historical (domain : Z) (day : Datetime) (lon lat : Q)
| Raster (day : Datetime) (north west east south : Q).

(** Modelled from the spec: the helpers [_pandas_to_tz] and
    [_pandas_dt_to_ts_utc] of [beemeteo.utils] are not among the sources.
    A line of the CSV answer carries the UTC epoch second that they make of
    its date cell, [None] when the cell is not a date. *)
Record CsvLine : Type := { line_ts : option Z; line_swflx : value }.

Inductive Response : Type :=
| Failure (e : exn)
| Csv (header : list string) (body : list CsvLine).

(** A cell of the grid that the raster endpoint answers with; the
    timestamps are in nanoseconds, [raw_cells] reads a numeric column. *)
Record RawCell : Type := {
  raw_forecasting_timestamp : Z;
  raw_timestamp : Z;
  raw_latitude : Q;
  raw_longitude : Q;
  raw_cells : string -> value
}.

(** The outside world: the clock and the answers of the server, both as
    they stand after a given number of requests. *)
Record Env : Type := {
  utcnow : nat -> Datetime;
  http_get : nat -> Request -> Response;
  raster_get : nat -> Request -> result (list RawCell)
}.

(** What a run has done so far: its requests and the errors it logged. *)
Record World : Type := { requests : list Request; log : list exn }.

Definition sent (w : World) (r : Request) : World :=
  {| requests := (requests w ++ [r])%list; log := log w |}.

Definition logged (w : World) (e : exn) : World :=
  {| requests := requests w; log := (log w ++ [e])%list |}.

(** *** _get_historic_data_day *)

Definition resolutions : list (Z * Z) := [(4, 2); (12, 2); (12, 1); (36, 2); (36, 1)].

Definition double_quote : string := String (ascii_of_nat 34) EmptyString.

(** The column that the server calls swflx, unit included. *)
Definition swflx_column : string :=
  ("swflx[unit=" ++ double_quote ++ "W m-2" ++ double_quote ++ "]")%string.

(** The URL for one resolution: of the operational runs when [day] is at
    most 14 days back, of the archive (run 00, the kilometres unused)
    otherwise. *)
Definition url_mg (now : Datetime) (latitude longitude : Q) (day : Datetime)
           (local_tz : TimeZone) (resolution : Z * Z) : Request :=
  if days_between (astimezone now local_tz) (astimezone day local_tz) <=? 14
  then Recent (fst resolution) (snd resolution) day longitude latitude
  else Historical (snd resolution) day longitude latitude.

Fixpoint all_some {A : Type} (l : list (option A)) : option (list A) :=
  match l with
  | [] => Some []
  | Some a :: l' => option_map (cons a) (all_some l')
  | None :: _ => None
  end.

Definition solar_row (t : Z) (g : value) : Row :=
  {| ts := t; GHI := g; latitude := None; longitude := None;
     forecasting_timestamp := None |}.

(** [Exception("Location out of the bounding box, trying with another
    resolution...(Actual: " + str(resolution) + "km)")] *)
Definition out_of_bounding_box (resolution : Z * Z) : exn :=
  ProviderError
    ("Location out of the bounding box, trying with another resolution...(Actual: ("
       ++ Era5.str (fst resolution) ++ ", " ++ Era5.str (snd resolution) ++ ")km)")%string.

(** From the answer of the server to the rows of [solar_data]: everything
    between [requests.get] and [return solar_data], with what it raises. *)
Definition read_solar_data (resolution : Z * Z) (r : Response) : result (list Row) :=
  match r with
  | Failure e => Raise e
  | Csv header body =>
      if Nat.eqb (List.length body) 0
      then Raise (out_of_bounding_box resolution)
      else
        let header :=
          map (fun k => if String.eqb k "date" then "time"
                        else if String.eqb k swflx_column then "GHI" else k)%string
              header in
        if negb (existsb (String.eqb "time") header) then Raise (KeyError "time")
        else
          match all_some (map line_ts body) with
          | None => Raise (ValueError "Unknown datetime string format")
          | Some stamps =>
              if negb (existsb (String.eqb "GHI") header)
              then Raise (KeyError "['GHI'] not in index")
              else Ok (map2 solar_row stamps (map line_swflx body))
          end
  end.

(** The loop over the resolutions that are still to be tried. *)
Fixpoint try_resolutions (env : Env) (latitude longitude : Q) (day : Datetime)
         (local_tz : TimeZone) (todo : list (Z * Z)) (w : World) : Frame * World :=
  match todo with
  | [] => (empty_frame, w)
  | resolution :: rest =>
      let n := List.length (requests w) in
      let url := url_mg (utcnow env n) latitude longitude day local_tz resolution in
      let r := http_get env n url in
      let w := sent w url in
      match read_solar_data resolution r with
      | Ok solar_data => ({| columns := ["ts"; "GHI"]; rows := solar_data |}, w)
      | Raise e =>
          try_resolutions env latitude longitude day local_tz rest (logged w e)
      end
  end.

Definition _get_historic_data_day (env : Env) (latitude longitude : Q)
           (day : Datetime) (local_tz : TimeZone) (w : World) : Frame * World :=
  try_resolutions env latitude longitude day local_tz resolutions w.

(** *** _collect_forecasting *)

Definition _collect_forecasting (env : Env) (latitude longitude : Q)
           (now : Datetime) (local_tz : TimeZone) (w : World)
  : result Frame * World :=
  let now_timestamp := int_timestamp now in
  let (forecasted_data, w) :=
    _get_historic_data_day env latitude longitude now local_tz w in
  let forecasted_data := rename "ts" "timestamp" forecasted_data in
  let forecasted_data := assign "latitude" (with_latitude latitude) forecasted_data in
  let forecasted_data := assign "longitude" (with_longitude longitude) forecasted_data in
  let forecasted_data :=
    assign "forecasting_timestamp" (with_forecasting_timestamp now_timestamp)
           forecasted_data in
  (query_ge "timestamp" now_timestamp forecasted_data, w).

(** *** _get_historical_data_source *)

(** The loop over the days of one gap. *)
Fixpoint download_days (env : Env) (latitude longitude : Q) (local_tz : TimeZone)
         (days : list Datetime) (data_period : Frame) (w : World) : Frame * World :=
  match days with
  | [] => (data_period, w)
  | day :: rest =>
      let (daily_data, w) := _get_historic_data_day env latitude longitude day local_tz w in
      download_days env latitude longitude local_tz rest (concat data_period daily_data) w
  end.

(** The two ends of a gap moved to midnight of their days. *)
Definition gap_bounds (local_tz : TimeZone) (gap : Datetime * Datetime)
  : Datetime * Datetime :=
  (localize local_tz (date (fst gap)) 0, localize local_tz (date (snd gap)) 0).

(** The body of the loop over the gaps. *)
Definition download_gap (env : Env) (latitude longitude : Q) (local_tz : TimeZone)
           (gap : Datetime * Datetime) (w : World) : result Frame * World :=
  let (ts_ini, ts_end) := gap_bounds local_tz gap in
  let meteogalicia_start := astimezone (localize UTC (date ts_ini) 1) local_tz in
  let ts_ini_loop :=
    if instant ts_ini <? instant meteogalicia_start
    then plus_us ts_ini (- day_us) else ts_ini in
  let (data_period, w) :=
    download_days env latitude longitude local_tz (date_range ts_ini_loop ts_end)
                  empty_frame w in
  ((data_period <- sort_values_ts data_period ;;
    query_between ts_ini (plus_us ts_end (23 * hour_us)) data_period)%result, w).

Fixpoint download_gaps (env : Env) (latitude longitude : Q) (local_tz : TimeZone)
         (gaps : list (Datetime * Datetime)) (missing_data : Frame) (w : World)
  : result Frame * World :=
  match gaps with
  | [] => (Ok missing_data, w)
  | gap :: rest =>
      match download_gap env latitude longitude local_tz gap w with
      | (Ok data_period, w) =>
          download_gaps env latitude longitude local_tz rest
                        (concat missing_data data_period) w
      | (Raise e, w) => (Raise e, w)
      end
  end.

Definition _get_historical_data_source (env : Env) (latitude longitude : Q)
           (gaps : list (Datetime * Datetime)) (local_tz : TimeZone) (w : World)
  : result Frame * World :=
  match download_gaps env latitude longitude local_tz gaps empty_frame w with
  | (Ok missing_data, w) =>
      ((missing_data <- sort_values_ts missing_data ;;
        let missing_data := assign "latitude" (with_latitude latitude) missing_data in
        let missing_data := assign "longitude" (with_longitude longitude) missing_data in
        let missing_data :=
          {| columns := columns missing_data;
             rows := drop_duplicates key key_eqb (rows missing_data) |} in
        Ok (if negb (empty missing_data) then key_columns_first missing_data
            else missing_data))%result, w)
  | (Raise e, w) => (Raise e, w)
  end.

(** *** _get_historic_forecasting_raster and _collect_raster *)

Definition with_forecast_day (t : Z) (c : RawCell) : RawCell :=
  {| raw_forecasting_timestamp := t; raw_timestamp := raw_timestamp c;
     raw_latitude := raw_latitude c; raw_longitude := raw_longitude c;
     raw_cells := raw_cells c |}.

(** The frame of the raster of [day], every row stamped with the midnight
    of [day]; [None] is the empty frame that stands in after an error. *)
Definition _get_historic_forecasting_raster (env : Env)
           (min_lat max_lat min_lon max_lon : Q) (day : Datetime) (w : World)
  : option (list RawCell) * World :=
  let n := List.length (requests w) in
  let url_mg := Raster day max_lat min_lon max_lon min_lat in
  let r := raster_get env n url_mg in
  let w := sent w url_mg in
  match r with
  | Ok df =>
      let midnight := localize (zone day) (date day) 0 in
      (Some (map (with_forecast_day (instant midnight * 1000)) df), w)
  | Raise e => (None, logged w e)
  end.

(** [values.astype('datetime64[s]').astype(int)] of nanoseconds *)
Definition seconds_of_ns (t : Z) : Z := t / 1000000000.

(** [round] of a float series: to the nearest integer, a tie to the even
    one. *)
Definition round_half_even (q : Q) : Z :=
  let f := Qfloor q in
  match Qcompare (q - inject_Z f) (1 # 2) with
  | Lt => f
  | Gt => f + 1
  | Eq => if Z.even f then f else f + 1
  end.

Definition digits (n : Z) : string :=
  NilEmpty.string_of_uint (N.to_uint (Z.to_N n)).

(** [str] of the float that is [t] tenths, its sign bit given apart: zero
    tenths reached from below is the float -0.0. Coordinates are far from
    the magnitudes that Python prints with an exponent. *)
Definition str_of_tenths (sign : bool) (t : Z) : string :=
  ((if sign then "-" else "")
     ++ digits (Z.abs t / 10) ++ "." ++ digits (Z.abs t mod 10))%string.

Definition precision : Q := 10.

(** [(round(x * precision) / precision).astype(str)], then
    [.replace('-0.0', '0.0')] *)
Definition rounded_coordinate (x : Q) : string :=
  let s := str_of_tenths (negb (Qle_bool 0 x)) (round_half_even (x * precision)) in
  if String.eqb s "-0.0" then "0.0" else s.

Definition cols_mean : list string :=
  ["totalPrecipitation"; "relativeHumidity"; "GHI"; "airTemperature";
   "atmosphericPressure"; "cloudCloverHighLevels"; "cloudCloverMidLevels";
   "cloudCloverLowLevels"; "visibility"; "u"; "v"].

(** The group key: forecasting_timestamp, timestamp, latitude, longitude. *)
Definition RasterKey : Type := Z * Z * string * string.

Definition raster_key (c : RawCell) : RasterKey :=
  (seconds_of_ns (raw_forecasting_timestamp c), seconds_of_ns (raw_timestamp c),
   rounded_coordinate (raw_latitude c), rounded_coordinate (raw_longitude c)).

Definition then_compare (a b : comparison) : comparison :=
  match a with
  | Eq => b
  | _ => a
  end.

(** The order in which [groupby] lists its groups. *)
Definition key_compare (a b : RasterKey) : comparison :=
  let '(f, t, la, lo) := a in
  let '(f', t', la', lo') := b in
  then_compare (f ?= f')
    (then_compare (t ?= t')
       (then_compare (String.compare la la') (String.compare lo lo'))).

Definition raster_key_eqb (a b : RasterKey) : bool :=
  match key_compare a b with
  | Eq => true
  | _ => false
  end.

Definition raster_key_leb (a b : RasterKey) : bool :=
  match key_compare a b with
  | Gt => false
  | _ => true
  end.

Definition Group : Type := RasterKey * list (string -> value).

(** One more row for [groupby]: into the group of its key, or into a new
    group behind the groups met so far. *)
Fixpoint add_to_groups (k : RasterKey) (c : string -> value) (groups : list Group)
  : list Group :=
  match groups with
  | [] => [(k, [c])]
  | (k', cs) :: rest =>
      if raster_key_eqb k k' then (k', (cs ++ [c])%list) :: rest
      else (k', cs) :: add_to_groups k c rest
  end.

(** The groups in the order in which their keys turn up. *)
Definition collect_groups (cells : list RawCell) : list Group :=
  fold_left (fun groups c => add_to_groups (raster_key c) (raw_cells c) groups)
            cells [].

(** [groupby([...])]: the groups, their keys in ascending order. *)
Definition groupby (cells : list RawCell) : list Group :=
  sort_with (fun g g' => raster_key_leb (fst g) (fst g')) (collect_groups cells).

Definition numbers (l : list value) : list Q :=
  flat_map (fun v => match v with
                     | Num q => [q]
                     | Missing => []
                     end) l.

Definition total (qs : list Q) : Q := fold_left Qplus qs 0%Q.

(** The mean of pandas: over the cells that are not missing. *)
Definition mean (l : list value) : value :=
  match numbers l with
  | [] => Missing
  | qs => Num (total qs / inject_Z (Z.of_nat (List.length qs)))
  end.

Record RasterRow : Type := {
  group_key : RasterKey;
  means : list (string * value)
}.

(** [.agg({k: 'mean' for k in cols_mean})] on one group *)
Definition agg (g : Group) : RasterRow :=
  {| group_key := fst g;
     means := map (fun k => (k, mean (map (fun c => c k) (snd g)))) cols_mean |}.

Definition _collect_raster (env : Env) (min_lat max_lat min_lon max_lon : Q)
           (day : Datetime) (w : World) : result (list RasterRow) * World :=
  let (forecasted_data, w) :=
    _get_historic_forecasting_raster env min_lat max_lat min_lon max_lon day w in
  match forecasted_data with
  | None =>
      (Raise (KeyError
                "['Lambert_Conformal', 'windSpeed', 'windDirection'] not found in axis"),
       w)
  | Some forecasted_data => (Ok (map agg (groupby forecasted_data)), w)
  end.

(** The cell of a row of the aggregated frame. *)
Fixpoint column_mean (k : string) (l : list (string * value)) : option value :=
  match l with
  | [] => None
  | (k', v) :: l' => if String.eqb k' k then Some v else column_mean k l'
  end.

(** *** The rounds of the resolution loop, one by one *)

(** Round [j] of the loop of [_get_historic_data_day] over [todo], in a run
    that had sent [n0] requests before the loop: its URL, and the rows or
    the exception that the answer turns into. *)
Definition attempt (env : Env) (latitude longitude : Q) (day : Datetime)
           (local_tz : TimeZone) (n0 : nat) (todo : list (Z * Z)) (j : nat)
  : Request * result (list Row) :=
  let resolution := nth j todo (0, 0) in
  let url := url_mg (utcnow env (n0 + j)) latitude longitude day local_tz resolution in
  (url, read_solar_data resolution (http_get env (n0 + j)%nat url)).

(** *** A server for the examples

    It knows the station only on the 12 km grid: the 4 km grid answers with
    a header and no line, every other grid with an error. The clock stands
    at 20 September 2023, 08:30, in a zone two hours east of UTC. *)

Definition summer_time : TimeZone := 7200.

Definition at_second (s : Z) : Datetime :=
  {| instant := s * second_us; zone := summer_time |}.

(** 16 September 05:00 and 12:00, 17 September 12:00. *)
Definition sample_lines : list CsvLine :=
  [ {| line_ts := Some 1694833200; line_swflx := Num 0 |};
    {| line_ts := Some 1694858400; line_swflx := Num (6125 # 10) |};
    {| line_ts := Some 1694944800; line_swflx := Num 590 |} ].

(** Two neighbours of one tenth of a degree and a cell further east, all of
    the same hour. *)
Definition sample_grid : list RawCell :=
  [ {| raw_forecasting_timestamp := 0; raw_timestamp := 1694858400000000000;
       raw_latitude := 4231 # 100; raw_longitude := - (804 # 100);
       raw_cells := fun _ => Num 2 |};
    {| raw_forecasting_timestamp := 0; raw_timestamp := 1694858400000000000;
       raw_latitude := 4229 # 100; raw_longitude := - (801 # 100);
       raw_cells := fun _ => Num 4 |};
    {| raw_forecasting_timestamp := 0; raw_timestamp := 1694858400000000000;
       raw_latitude := 4229 # 100; raw_longitude := - (781 # 100);
       raw_cells := fun _ => Num 7 |} ].

Definition sample_env : Env :=
  {| utcnow := fun _ => at_second 1695191400;
     http_get := fun _ r =>
                   match r with
                   | Recent 4 _ _ _ _ => Csv ["date"; swflx_column] []
                   | Recent 12 2 _ _ _ => Csv ["date"; swflx_column] sample_lines
                   | _ => Failure (ProviderError "HTTP 404")
                   end;
     raster_get := fun _ _ => Ok sample_grid |}.

Definition fresh : World := {| requests := []; log := [] |}.

(** *** Notions for the daily fetch *)

(** The answer of the server gives [solar_data]: it is a CSV with at least
    one line, it has a column for the date and one for the radiation (under
    the names of the server or under those that [rename] gives them), and
    every date can be read; the rows are its lines in their order. *)
Definition parses (r : Response) (solar_data : list Row) : Prop :=
  exists header body stamps,
    r = Csv header body /\
    body <> [] /\
    (In "date" header \/ In "time" header)%string /\
    (In swflx_column header \/ In "GHI" header)%string /\
    map line_ts body = map Some stamps /\
    solar_data = map2 solar_row stamps (map line_swflx body).

(** The day that a request is for. *)
Definition request_day (r : Request) : Datetime :=
  match r with
  | Recent _ _ day _ _ => day
  | Historical _ day _ _ => day
  | Raster day _ _ _ _ => day
  end.

(** *** Notions for the historical table *)

(** The frames that the downloads build: no column and no row, or the two
    columns of [solar_data]. *)
Definition tidy (f : Frame) : Prop :=
  (columns f = [] /\ rows f = []) \/ columns f = ["ts"; "GHI"].

(** The row lies in the days of the gap: from midnight of its first day to
    23:00 of its last day. *)
Definition within_gap (local_tz : TimeZone) (gap : Datetime * Datetime) (r : Row)
  : Prop :=
  instant (fst (gap_bounds local_tz gap)) <= ts r * second_us
  <= instant (snd (gap_bounds local_tz gap)) + 23 * hour_us.

(** The row lies in the requested range. *)
Definition within_range (date_from date_to : Datetime) (r : Row) : Prop :=
  instant date_from <= ts r * second_us <= instant date_to.

(** *** Notions for the raster table *)

(** Two cells of the same forecast and hour whose coordinates round to the
    same tenths of a degree. *)
Definition same_place (c c' : RawCell) : Prop :=
  seconds_of_ns (raw_forecasting_timestamp c)
  = seconds_of_ns (raw_forecasting_timestamp c') /\
  seconds_of_ns (raw_timestamp c) = seconds_of_ns (raw_timestamp c') /\
  round_half_even (raw_latitude c * precision)
  = round_half_even (raw_latitude c' * precision) /\
  round_half_even (raw_longitude c * precision)
  = round_half_even (raw_longitude c' * precision).

(** The cells that [groupby] puts under the key [k], in their order. *)
Definition grouped (k : RasterKey) (cells : list RawCell) : list RawCell :=
  filter (fun c => raster_key_eqb (raster_key c) k) cells.

(** The cells of column [col] that are numbers. *)
Definition column_numbers (col : string) (cells : list RawCell) : list Q :=
  numbers (map (fun c => raw_cells c col) cells).

(** The rows that a list of groups holds under the key [k]. *)
Fixpoint group_of (k : RasterKey) (groups : list Group)
  : option (list (string -> value)) :=
  match groups with
  | [] => None
  | (k', cs) :: rest => if raster_key_eqb k k' then Some cs else group_of k rest
  end.

(** A group with more rows behind it; no group stays no group when no row
    comes. *)
Definition extend (g : option (list (string -> value)))
           (more : list (string -> value)) : option (list (string -> value)) :=
  match g, more with
  | None, [] => None
  | None, _ => Some more
  | Some cs, _ => Some (cs ++ more)%list
  end.

(** The days that the loop over the gaps downloads for one gap:
    [pd.date_range(ts_ini_loop, ts_end, freq="1d")]. *)
Definition gap_days (local_tz : TimeZone) (gap : Datetime * Datetime) : list Datetime :=
  let (ts_ini, ts_end) := gap_bounds local_tz gap in
  let meteogalicia_start := astimezone (localize UTC (date ts_ini) 1) local_tz in
  let ts_ini_loop :=
    if instant ts_ini <? instant meteogalicia_start
    then plus_us ts_ini (- day_us) else ts_ini in
  date_range ts_ini_loop ts_end.
End MeteoGalicia.


(** * Properties *)

(** ** Lists and slices *)

Lemma firstn_repeat_app {A : Type} (x : A) (n : nat) (l : list A) :
  firstn n (repeat x n ++ l) = repeat x n.
Proof. induction n as [|n IH]; simpl; [reflexivity | now rewrite IH]. Qed.

Lemma skipn_repeat_app {A : Type} (x : A) (n : nat) (l : list A) :
  skipn n (repeat x n ++ l) = l.
Proof. induction n as [|n IH]; simpl; [reflexivity | exact IH]. Qed.

Lemma firstn_repeat_le {A : Type} (x : A) (m n : nat) :
  (m <= n)%nat -> firstn m (repeat x n) = repeat x m.
Proof.
  revert n; induction m as [|m IH]; intros [|n] Hle; simpl; try reflexivity; try lia.
  now rewrite IH by lia.
Qed.

Lemma skipn_repeat {A : Type} (x : A) (m n : nat) :
  skipn m (repeat x n) = repeat x (n - m).
Proof.
  revert n; induction m as [|m IH]; intros [|n]; simpl; try reflexivity.
  apply IH.
Qed.

Lemma nth_error_repeat_lt {A : Type} (x : A) (n i : nat) :
  (i < n)%nat -> nth_error (repeat x n) i = Some x.
Proof.
  revert i; induction n as [|n IH]; intros [|i] Hlt; simpl; try reflexivity; try lia.
  apply IH; lia.
Qed.

Lemma nth_error_firstn_lt {A : Type} (l : list A) (n i : nat) :
  (i < n)%nat -> nth_error (firstn n l) i = nth_error l i.
Proof.
  revert l i; induction n as [|n IH]; intros [|a l] [|i] Hlt; simpl; try reflexivity; try lia.
  apply IH; lia.
Qed.

Lemma nth_error_map2 {A B C : Type} (f : A -> B -> C) (l : list A) (m : list B)
      (i : nat) (a : A) (b : B) :
  nth_error l i = Some a -> nth_error m i = Some b ->
  nth_error (map2 f l m) i = Some (f a b).
Proof.
  revert m i; induction l as [|a' l IH]; intros [|b' m] [|i]; simpl;
    try discriminate.
  - intros [= ->] [= ->]; reflexivity.
  - apply IH.
Qed.

(** ** shift *)

Section ShiftFacts.
Context {A : Type}.
Variables (junk fill : A).

(** The closed form of a forward shift. *)
Lemma shift_forward (arr : list A) (num : Z) :
  (0 < num)%Z ->
  Era5.shift junk arr num fill
  = Ok (repeat fill (Nat.min (List.length arr) (Z.to_nat num))
          ++ firstn (List.length arr - Z.to_nat num) arr).
Proof.
  intros Hpos. unfold Era5.shift, Era5.empty_like.
  replace (num >? 0)%Z with true by (symmetry; apply Z.gtb_lt; lia).
  set (len := List.length arr). set (m := Nat.min len (Z.to_nat num)).
  assert (Hb : slice_bound len num = m).
  { unfold slice_bound. replace (num <? 0)%Z with false; [reflexivity|].
    symmetry; apply Z.ltb_ge; lia. }
  assert (Hfill : fill_to (repeat junk len) num fill
                  = repeat fill m ++ repeat junk (len - m)).
  { unfold fill_to, slice_to, slice_from. rewrite repeat_length, Hb.
    rewrite firstn_repeat_le by (subst m; lia).
    now rewrite repeat_length, skipn_repeat. }
  rewrite Hfill. unfold assign_from, slice_from, slice_to.
  rewrite length_app, !repeat_length.
  replace (m + (len - m))%nat with len by (subst m; lia).
  rewrite Hb, skipn_repeat_app, firstn_repeat_app, repeat_length.
  fold len.
  assert (Hneg : slice_bound len (- num) = (len - Z.to_nat num)%nat).
  { unfold slice_bound. replace (- num <? 0)%Z with true; [lia|].
    symmetry; apply Z.ltb_lt; lia. }
  rewrite Hneg, length_firstn. fold len.
  replace (Nat.min (len - Z.to_nat num) len) with (len - m)%nat by (subst m; lia).
  rewrite Nat.eqb_refl.
  reflexivity.
Qed.

Lemma shift_forward_nth (arr : list A) (num : Z) (i : nat) :
  (0 < num)%Z -> (i < List.length arr)%nat ->
  exists r, Era5.shift junk arr num fill = Ok r /\
            List.length r = List.length arr /\
            nth_error r i = if (Z.of_nat i <? num)%Z then Some fill
                            else nth_error arr (i - Z.to_nat num).
Proof.
  intros Hpos Hi. rewrite (shift_forward arr num Hpos).
  eexists; split; [reflexivity|]. split.
  - rewrite length_app, repeat_length, length_firstn. lia.
  - destruct (Z.ltb_spec (Z.of_nat i) num) as [Hlt|Hge].
    + rewrite nth_error_app1 by (rewrite repeat_length; lia).
      apply nth_error_repeat_lt; lia.
    + rewrite nth_error_app2 by (rewrite repeat_length; lia).
      rewrite repeat_length.
      replace (Nat.min (List.length arr) (Z.to_nat num)) with (Z.to_nat num) by lia.
      apply nth_error_firstn_lt; lia.
Qed.
End ShiftFacts.

(** ** Columns of a frame *)

Section FrameFacts.
Import Era5.
Local Open Scope string_scope.

Lemma getitem_setitem (df : DataFrame) (k k' : string) (c : Column) :
  getitem (setitem df k c) k' = if String.eqb k k' then Ok c else getitem df k'.
Proof.
  induction df as [|[k0 c0] df IH]; simpl.
  - destruct (String.eqb k k'); reflexivity.
  - destruct (String.eqb_spec k0 k) as [->|Hne]; simpl.
    + destruct (String.eqb k k'); reflexivity.
    + destruct (String.eqb_spec k0 k') as [->|Hne'].
      * destruct (String.eqb_spec k k') as [->|_]; [congruence | reflexivity].
      * exact IH.
Qed.

Lemma floats_setitem (df : DataFrame) (k k' : string) (v : list npfloat) :
  floats (setitem df k (Floats v)) k'
  = if String.eqb k k' then Ok v else floats df k'.
Proof.
  unfold floats. rewrite getitem_setitem.
  destruct (String.eqb k k'); reflexivity.
Qed.

Lemma floats_setitem_times (df : DataFrame) (k k' : string) (b : bool) (v : list Z) :
  String.eqb k k' = false ->
  floats (setitem df k (Times b v)) k' = floats df k'.
Proof.
  intros Hne. unfold floats. now rewrite getitem_setitem, Hne.
Qed.

Lemma cell_floats (df : DataFrame) (k : string) (i : nat) (x : npfloat) :
  cell df k i = Some x ->
  exists v, floats df k = Ok v /\ nth_error v i = Some x.
Proof.
  unfold cell. destruct (floats df k) as [v|e]; [eauto | discriminate].
Qed.

Lemma floats_cell (df : DataFrame) (k : string) (v : list npfloat) (i : nat) :
  floats df k = Ok v -> cell df k i = nth_error v i.
Proof. unfold cell. now intros ->. Qed.
End FrameFacts.

(** Decides the comparisons of column names left by [floats_setitem]. *)
Ltac name_eqb :=
  repeat match goal with
    | |- context [String.eqb ?a ?b] =>
        let r := eval vm_compute in (String.eqb a b) in
        change (String.eqb a b) with r
    | H : context [String.eqb ?a ?b] |- _ =>
        let r := eval vm_compute in (String.eqb a b) in
        change (String.eqb a b) with r in H
    end.

(** One statement of [transformation_pipe]: the column read is named, or the
    pipeline has already failed. *)
Ltac pipe_step H :=
  rewrite ?floats_setitem in H; name_eqb; cbv iota in H;
  rewrite ?floats_setitem_times in H by reflexivity;
  repeat match goal with
    | E : Era5.floats ?d ?k = Ok _ |- _ => rewrite E in H
    end;
  lazymatch type of H with
  | bind (Ok _) _ = Ok _ => unfold bind at 1 in H; cbv beta iota in H
  | bind ?m _ = Ok _ =>
      let E := fresh "E" in
      let x := fresh "col" in
      destruct m as [x|] eqn:E; [unfold bind at 1 in H; cbv beta iota in H | discriminate H]
  end.

(** ** transformation_pipe, column by column *)

Section PipeFacts.
Import Era5.
Local Open Scope string_scope.
Local Open Scope R_scope.

Variable junk : npfloat.

(** What a successful run read and what it wrote. *)
Lemma transformation_pipe_inv (df df' : DataFrame) :
  transformation_pipe junk df = Ok df' ->
  exists u v st dt at_ ghi tp pg pt,
    floats df "windSpeedEast" = Ok u /\
    floats df "windSpeedNorth" = Ok v /\
    floats df "soilTemperature" = Ok st /\
    floats df "dewAirTemperature" = Ok dt /\
    floats df "airTemperature" = Ok at_ /\
    floats df "GHI" = Ok ghi /\
    floats df "totalPrecipitation" = Ok tp /\
    shift junk ghi 1 NaN = Ok pg /\
    shift junk tp 1 NaN = Ok pt /\
    floats df' "windSpeed"
    = Ok (map fsqrt (map2 fadd (map fsquare u) (map fsquare v))) /\
    floats df' "windDirection"
    = Ok (map (fun a => fadd (fdiv (fmul a (Fin 180)) (Fin PI)) (Fin 180))
              (map2 farctan2 v u)) /\
    floats df' "soilTemperature" = Ok (map (fun k => fsub k kelvin) st) /\
    floats df' "dewAirTemperature" = Ok (map (fun k => fsub k kelvin) dt) /\
    floats df' "airTemperature" = Ok (map (fun k => fsub k kelvin) at_) /\
    floats df' "relativeHumidity"
    = Ok (map2 (fun d a => fdiv (fmul (saturation d) (Fin 100)) (saturation a))
               (map (fun k => fsub k kelvin) dt)
               (map (fun k => fsub k kelvin) at_)) /\
    floats df' "GHI" = Ok (rate_where (Fin 0) (map2 fsub ghi pg)) /\
    floats df' "totalPrecipitation" = Ok (rate_where NaN (map2 fsub tp pt)).
Proof.
  intros H. unfold transformation_pipe in H.
  destruct (tz_localize_utc df "time") as [time|] eqn:Etime; [|discriminate H].
  unfold bind at 1 in H; cbv beta iota in H.
  assert (Htime : exists b l, time = Times b l).
  { unfold tz_localize_utc in Etime.
    destruct (getitem df "time") as [[[|] l|l]|]; simpl in Etime;
      try discriminate Etime.
    injection Etime as <-. eauto. }
  destruct Htime as (b & l & ->).
  do 15 pipe_step H.
  injection H as <-.
  repeat match goal with
         | E : floats (setitem _ _ _) _ = _ |- _ =>
             rewrite ?floats_setitem in E; name_eqb; cbv iota in E;
             rewrite ?floats_setitem_times in E by reflexivity
         end.
  exists col, col0, col1, col2, col3, col4, col6, col5, col7.
  repeat match goal with |- _ /\ _ => split end;
    rewrite ?floats_setitem; name_eqb; cbv iota;
    rewrite ?floats_setitem_times by reflexivity;
    try eassumption; try reflexivity.
Qed.
End PipeFacts.

Section PipeColumns.
Import Era5.
Local Open Scope string_scope.
Local Open Scope R_scope.

Variable junk : npfloat.
Variables df df' : DataFrame.
Hypothesis Hrun : transformation_pipe junk df = Ok df'.

Lemma pipe_temperature (col : string) (i : nat) (k : npfloat) :
  In col ["airTemperature"; "dewAirTemperature"; "soilTemperature"] ->
  cell df col i = Some k ->
  cell df' col i = Some (fsub k kelvin).
Proof.
  destruct (transformation_pipe_inv _ _ _ Hrun)
    as (u & v & st & dt & at_ & ghi & tp & pg & pt & Hu & Hv & Hst & Hdt & Hat
        & Hghi & Htp & Hpg & Hpt & Ws & Wd & Wst & Wdt & Wat & Wrh & Wghi & Wtp).
  intros Hcol Hcell. apply cell_floats in Hcell as (w & Hw & Hnth).
  simpl in Hcol.
  destruct Hcol as [<-|[<-|[<-|[]]]];
    match goal with
    | W : floats df' ?c = Ok _ |- cell df' ?c _ = _ => rewrite (floats_cell _ _ _ _ W)
    end;
    apply (map_nth_error (fun k => fsub k kelvin)); congruence.
Qed.

Lemma pipe_wind_speed (i : nat) (u v : npfloat) :
  cell df "windSpeedEast" i = Some u ->
  cell df "windSpeedNorth" i = Some v ->
  cell df' "windSpeed" i = Some (fsqrt (fadd (fsquare u) (fsquare v))).
Proof.
  destruct (transformation_pipe_inv _ _ _ Hrun)
    as (cu & cv & st & dt & at_ & ghi & tp & pg & pt & Hu & Hv & Hst & Hdt & Hat
        & Hghi & Htp & Hpg & Hpt & Ws & Wd & Wst & Wdt & Wat & Wrh & Wghi & Wtp).
  intros Hcu Hcv.
  apply cell_floats in Hcu as (wu & Hwu & Hnu).
  apply cell_floats in Hcv as (wv & Hwv & Hnv).
  assert (wu = cu) by congruence. assert (wv = cv) by congruence. subst wu wv.
  rewrite (floats_cell _ _ _ _ Ws).
  apply map_nth_error.
  apply nth_error_map2; now apply map_nth_error.
Qed.

Lemma pipe_wind_direction (i : nat) (u v : npfloat) :
  cell df "windSpeedEast" i = Some u ->
  cell df "windSpeedNorth" i = Some v ->
  cell df' "windDirection" i
  = Some (fadd (fdiv (fmul (farctan2 v u) (Fin 180)) (Fin PI)) (Fin 180)).
Proof.
  destruct (transformation_pipe_inv _ _ _ Hrun)
    as (cu & cv & st & dt & at_ & ghi & tp & pg & pt & Hu & Hv & Hst & Hdt & Hat
        & Hghi & Htp & Hpg & Hpt & Ws & Wd & Wst & Wdt & Wat & Wrh & Wghi & Wtp).
  intros Hcu Hcv.
  apply cell_floats in Hcu as (wu & Hwu & Hnu).
  apply cell_floats in Hcv as (wv & Hwv & Hnv).
  assert (wu = cu) by congruence. assert (wv = cv) by congruence. subst wu wv.
  rewrite (floats_cell _ _ _ _ Wd).
  apply (map_nth_error (fun a => fadd (fdiv (fmul a (Fin 180)) (Fin PI)) (Fin 180))).
  now apply nth_error_map2.
Qed.

Lemma pipe_humidity (i : nat) (d a : npfloat) :
  cell df "dewAirTemperature" i = Some d ->
  cell df "airTemperature" i = Some a ->
  cell df' "relativeHumidity" i
  = Some (fdiv (fmul (saturation (fsub d kelvin)) (Fin 100))
               (saturation (fsub a kelvin))).
Proof.
  destruct (transformation_pipe_inv _ _ _ Hrun)
    as (cu & cv & st & dt & at_ & ghi & tp & pg & pt & Hu & Hv & Hst & Hdt & Hat
        & Hghi & Htp & Hpg & Hpt & Ws & Wd & Wst & Wdt & Wat & Wrh & Wghi & Wtp).
  intros Hd Ha.
  apply cell_floats in Hd as (wd & Hwd & Hnd).
  apply cell_floats in Ha as (wa & Hwa & Hna).
  assert (wd = dt) by congruence. assert (wa = at_) by congruence. subst wd wa.
  rewrite (floats_cell _ _ _ _ Wrh).
  apply (nth_error_map2
           (fun d a => fdiv (fmul (saturation d) (Fin 100)) (saturation a)));
    now apply (map_nth_error (fun k => fsub k kelvin)).
Qed.

(** A de-accumulated column at row [i], for the two cumulative columns. *)
Lemma pipe_rate (col : string) (otherwise : npfloat) (i : nat) (c : npfloat) :
  In (col, otherwise) [("GHI", Fin 0); ("totalPrecipitation", NaN)] ->
  cell df col i = Some c ->
  exists prev,
    (forall w, floats df col = Ok w -> shift junk w 1 NaN = Ok prev) /\
    (forall p, nth_error prev i = Some p ->
               cell df' col i
               = Some (if fgt (fsub c p) 0 then fdiv (fsub c p) (Fin 3600)
                       else otherwise)).
Proof.
  destruct (transformation_pipe_inv _ _ _ Hrun)
    as (cu & cv & st & dt & at_ & ghi & tp & pg & pt & Hu & Hv & Hst & Hdt & Hat
        & Hghi & Htp & Hpg & Hpt & Ws & Wd & Wst & Wdt & Wat & Wrh & Wghi & Wtp).
  intros Hcol Hc. apply cell_floats in Hc as (w & Hw & Hn).
  simpl in Hcol. destruct Hcol as [[= <- <-]|[[= <- <-]|[]]].
  - assert (w = ghi) by congruence. subst w.
    exists pg. split; [intros w' Hw'; congruence|].
    intros p Hp. rewrite (floats_cell _ _ _ _ Wghi). unfold rate_where.
    apply (map_nth_error
             (fun d => if fgt d 0 then fdiv d (Fin 3600) else Fin 0)).
    now apply nth_error_map2.
  - assert (w = tp) by congruence. subst w.
    exists pt. split; [intros w' Hw'; congruence|].
    intros p Hp. rewrite (floats_cell _ _ _ _ Wtp). unfold rate_where.
    apply (map_nth_error
             (fun d => if fgt d 0 then fdiv d (Fin 3600) else NaN)).
    now apply nth_error_map2.
Qed.
End PipeColumns.

(** ** Real-number facts behind the wind columns *)

Section WindFacts.
Import Era5.
Local Open Scope R_scope.

Lemma atan_nonpos (t : R) : t <= 0 -> atan t <= 0.
Proof.
  intros [Hlt| ->].
  - left. rewrite <- atan_0. now apply atan_increasing.
  - rewrite atan_0. lra.
Qed.

Lemma atan_pos (t : R) : 0 < t -> 0 < atan t.
Proof. intros Hlt. rewrite <- atan_0. now apply atan_increasing. Qed.

(** [arctan2] ranges over (-PI, PI]; the upper end is reached. *)
Lemma arctan2_range (y x : R) : - PI < arctan2 y x <= PI.
Proof.
  pose proof PI_RGT_0 as Hpi.
  unfold arctan2.
  destruct (Rlt_dec 0 x) as [Hx|Hx].
  - pose proof (atan_bound (y / x)). lra.
  - destruct (Rlt_dec x 0) as [Hx'|Hx'].
    + pose proof (atan_bound (y / x)) as Hb.
      assert (Hinv : / x < 0) by now apply Rinv_lt_0_compat.
      destruct (Rlt_dec y 0) as [Hy|Hy].
      * assert (0 < atan (y / x)) by (apply atan_pos; unfold Rdiv; nra).
        lra.
      * assert (atan (y / x) <= 0) by (apply atan_nonpos; unfold Rdiv; nra).
        lra.
    + destruct (Rlt_dec 0 y); [lra|].
      destruct (Rlt_dec y 0); lra.
Qed.

Lemma arctan2_west : arctan2 0 (-1) = PI.
Proof.
  unfold arctan2.
  destruct (Rlt_dec 0 (-1)) as [H|_]; [lra|].
  destruct (Rlt_dec (-1) 0) as [_|H]; [|lra].
  destruct (Rlt_dec 0 0) as [H|_]; [lra|].
  replace (0 / -1) with 0 by (unfold Rdiv; ring).
  rewrite atan_0. ring.
Qed.

Lemma degrees_range (a : R) :
  - PI < a <= PI -> 0 < a * 180 / PI + 180 <= 360.
Proof.
  pose proof PI_RGT_0 as Hpi. intros [Hlo Hhi].
  assert (Hinv : 0 < / PI) by now apply Rinv_0_lt_compat.
  assert (Hone : PI * / PI = 1) by (apply Rinv_r; lra).
  unfold Rdiv. set (q := / PI) in *.
  split; nra.
Qed.

Lemma direction_value (u v : R) :
  fadd (fdiv (fmul (farctan2 (Fin v) (Fin u)) (Fin 180)) (Fin PI)) (Fin 180)
  = Fin (arctan2 v u * 180 / PI + 180).
Proof.
  unfold farctan2, fmul, fadd, fdiv, lift2.
  destruct (Req_dec_T PI 0) as [H|_]; [|reflexivity].
  pose proof PI_RGT_0; lra.
Qed.

Lemma speed_value (u v : R) :
  fsqrt (fadd (fsquare (Fin u)) (fsquare (Fin v))) = Fin (sqrt (u ^ 2 + v ^ 2)).
Proof.
  unfold fsquare, fadd, fsqrt, lift1, lift2.
  destruct (Rlt_dec (u ^ 2 + v ^ 2) 0) as [H|_]; [|reflexivity].
  pose proof (pow2_ge_0 u). pose proof (pow2_ge_0 v). lra.
Qed.
End WindFacts.

(** ** Real-number facts behind the humidity column *)

Section HumidityFacts.
Import Era5.
Local Open Scope R_scope.

Lemma celsius_value (K : R) : fsub (Fin K) kelvin = Fin (K - 273.15).
Proof. reflexivity. Qed.

Lemma saturation_value (t : R) :
  t + 243.5 <> 0 ->
  saturation (Fin t) = Fin (6.112 * exp (17.67 * t / (t + 243.5))).
Proof.
  intros Hne. unfold saturation, fmul, fexp, fdiv, fadd, lift1, lift2.
  destruct (Req_dec_T (t + 243.5) 0) as [H|_]; [contradiction|reflexivity].
Qed.

Lemma humidity_value (td t : R) :
  td + 243.5 <> 0 -> t + 243.5 <> 0 ->
  fdiv (fmul (saturation (Fin td)) (Fin 100)) (saturation (Fin t))
  = Fin (100 * exp (17.67 * td / (td + 243.5)) / exp (17.67 * t / (t + 243.5))).
Proof.
  intros Hd Ht. rewrite !saturation_value by assumption.
  unfold fmul, fdiv, lift2.
  pose proof (exp_pos (17.67 * t / (t + 243.5))) as Hpos.
  destruct (Req_dec_T (6.112 * exp (17.67 * t / (t + 243.5))) 0) as [H|_]; [lra|].
  f_equal. field. lra.
Qed.
End HumidityFacts.

(** ** The normaliser on the three-hour frame *)

Lemma three_hours_runs :
  exists df', Era5.transformation_pipe Era5.NaN Era5.three_hours = Ok df'.
Proof. eexists. reflexivity. Qed.

(** ** ERA5-Land: the claims *)

Section Era5Claims.
Import Era5.
Local Open Scope string_scope.
Local Open Scope R_scope.

(** C6. After [transformation_pipe], a cell of airTemperature,
    dewAirTemperature or soilTemperature that held the Kelvin value [K]
    holds [K - 273.15]. *)
Theorem kelvin_to_celsius (junk : npfloat) (df df' : DataFrame)
        (col : string) (i : nat) (K : R) :
  transformation_pipe junk df = Ok df' ->
  In col ["airTemperature"; "dewAirTemperature"; "soilTemperature"] ->
  cell df col i = Some (Fin K) ->
  cell df' col i = Some (Fin (K - 273.15)).
Proof.
  intros Hrun Hcol Hcell.
  rewrite (pipe_temperature junk df df' Hrun col i (Fin K) Hcol Hcell).
  now rewrite celsius_value.
Qed.

Lemma kelvin_to_celsius_witness :
  exists df',
    transformation_pipe NaN three_hours = Ok df' /\
    cell df' "airTemperature" 0 = Some (Fin (300 - 273.15)) /\
    cell df' "dewAirTemperature" 1 = Some (Fin (276 - 273.15)) /\
    cell df' "soilTemperature" 2 = Some (Fin (281 - 273.15)).
Proof.
  destruct three_hours_runs as [df' Hrun]. exists df'.
  split; [exact Hrun|].
  repeat split.
  - apply (kelvin_to_celsius NaN three_hours df' "airTemperature" 0 300 Hrun);
      [simpl; tauto | reflexivity].
  - apply (kelvin_to_celsius NaN three_hours df' "dewAirTemperature" 1 276 Hrun);
      [simpl; tauto | reflexivity].
  - apply (kelvin_to_celsius NaN three_hours df' "soilTemperature" 2 281 Hrun);
      [simpl; tauto | reflexivity].
Defined.

(** C7. relativeHumidity is computed from the Celsius values that the
    pipeline has just written to dewAirTemperature and airTemperature, and
    equals 100 * exp(17.67 Td / (Td + 243.5)) / exp(17.67 T / (T + 243.5));
    the two factors 6.112 cancel. *)
Theorem relative_humidity_magnus (junk : npfloat) (df df' : DataFrame)
        (i : nat) (Kd Kt : R) :
  transformation_pipe junk df = Ok df' ->
  cell df "dewAirTemperature" i = Some (Fin Kd) ->
  cell df "airTemperature" i = Some (Fin Kt) ->
  (Kd - 273.15) + 243.5 <> 0 ->
  (Kt - 273.15) + 243.5 <> 0 ->
  exists Td T,
    cell df' "dewAirTemperature" i = Some (Fin Td) /\
    cell df' "airTemperature" i = Some (Fin T) /\
    Td = Kd - 273.15 /\ T = Kt - 273.15 /\
    cell df' "relativeHumidity" i
    = Some (Fin (100 * exp (17.67 * Td / (Td + 243.5))
                 / exp (17.67 * T / (T + 243.5)))).
Proof.
  intros Hrun Hd Ha Hnd Hna.
  exists (Kd - 273.15), (Kt - 273.15).
  repeat split.
  - rewrite (pipe_temperature junk df df' Hrun "dewAirTemperature" i (Fin Kd));
      [reflexivity | simpl; tauto | exact Hd].
  - rewrite (pipe_temperature junk df df' Hrun "airTemperature" i (Fin Kt));
      [reflexivity | simpl; tauto | exact Ha].
  - rewrite (pipe_humidity junk df df' Hrun i (Fin Kd) (Fin Kt) Hd Ha).
    rewrite !celsius_value. now rewrite humidity_value.
Qed.

Lemma relative_humidity_magnus_witness :
  exists df' Td T,
    transformation_pipe NaN three_hours = Ok df' /\
    Td = 275 - 273.15 /\ T = 300 - 273.15 /\
    cell df' "relativeHumidity" 0
    = Some (Fin (100 * exp (17.67 * Td / (Td + 243.5))
                 / exp (17.67 * T / (T + 243.5)))).
Proof.
  destruct three_hours_runs as [df' Hrun].
  destruct (relative_humidity_magnus NaN three_hours df' 0 275 300 Hrun)
    as (Td & T & _ & _ & HTd & HT & Hrh);
    [reflexivity | reflexivity | lra | lra |].
  exists df', Td, T. auto.
Defined.
End Era5Claims.

Section Era5WindClaim.
Import Era5.
Local Open Scope string_scope.
Local Open Scope R_scope.

(** C3, as amended. For a wind vector (u, v) = (windSpeedEast,
    windSpeedNorth), [transformation_pipe] writes
    windSpeed = sqrt(u^2 + v^2), which is never negative, and
    windDirection = arctan2(v, u) in degrees plus 180, which lies in the
    closed interval from 0 to 360: the upper end 360 is reached. *)
Theorem wind_speed_and_direction (junk : npfloat) (df df' : DataFrame)
        (i : nat) (u v : R) :
  transformation_pipe junk df = Ok df' ->
  cell df "windSpeedEast" i = Some (Fin u) ->
  cell df "windSpeedNorth" i = Some (Fin v) ->
  cell df' "windSpeed" i = Some (Fin (sqrt (u ^ 2 + v ^ 2))) /\
  0 <= sqrt (u ^ 2 + v ^ 2) /\
  cell df' "windDirection" i = Some (Fin (arctan2 v u * 180 / PI + 180)) /\
  0 <= arctan2 v u * 180 / PI + 180 <= 360.
Proof.
  intros Hrun Hu Hv. repeat split.
  - rewrite (pipe_wind_speed junk df df' Hrun i (Fin u) (Fin v) Hu Hv).
    now rewrite speed_value.
  - apply sqrt_pos.
  - rewrite (pipe_wind_direction junk df df' Hrun i (Fin u) (Fin v) Hu Hv).
    now rewrite direction_value.
  - left. apply (degrees_range _ (arctan2_range v u)).
  - apply (degrees_range _ (arctan2_range v u)).
Qed.

Lemma wind_speed_and_direction_witness :
  exists df',
    transformation_pipe NaN three_hours = Ok df' /\
    cell df' "windSpeed" 1 = Some (Fin (sqrt (3 ^ 2 + 4 ^ 2))) /\
    cell df' "windDirection" 1 = Some (Fin (arctan2 4 3 * 180 / PI + 180)).
Proof.
  destruct three_hours_runs as [df' Hrun]. exists df'.
  split; [exact Hrun|].
  destruct (wind_speed_and_direction NaN three_hours df' 1 3 4 Hrun)
    as (Hs & _ & Hd & _); [reflexivity | reflexivity |].
  split; assumption.
Defined.

(** The claim as first stated puts windDirection in the half-open interval
    [0, 360). A wind from due west, (u, v) = (-1, 0), gets exactly 360. *)
Lemma wind_direction_reaches_360 :
  exists df' d,
    transformation_pipe NaN three_hours = Ok df' /\
    cell three_hours "windSpeedEast" 0 = Some (Fin (-1)) /\
    cell three_hours "windSpeedNorth" 0 = Some (Fin 0) /\
    cell df' "windDirection" 0 = Some (Fin d) /\
    d = 360 /\ ~ (0 <= d < 360).
Proof.
  destruct three_hours_runs as [df' Hrun]. exists df', 360.
  split; [exact Hrun|]. split; [reflexivity|]. split; [reflexivity|].
  split; [|split; [reflexivity | lra]].
  rewrite (pipe_wind_direction NaN three_hours df' Hrun 0 (Fin (-1)) (Fin 0));
    [|reflexivity|reflexivity].
  rewrite direction_value, arctan2_west.
  do 2 f_equal. field. pose proof PI_RGT_0; lra.
Qed.
End Era5WindClaim.

Section Era5RateClaims.
Import Era5.
Local Open Scope string_scope.
Local Open Scope R_scope.

(** The hour before row [i], as [shift] presents it. *)
Lemma previous_hour (junk : npfloat) (w : list npfloat) (i : nat) (c : npfloat) :
  nth_error w i = Some c ->
  exists prev,
    shift junk w 1 NaN = Ok prev /\
    nth_error prev i = match i with
                       | O => Some NaN
                       | S j => nth_error w j
                       end.
Proof.
  intros Hc.
  assert (Hlen : (i < List.length w)%nat)
    by (apply nth_error_Some; congruence).
  destruct (shift_forward_nth junk NaN w 1 i) as (r & Hr & _ & Hnth);
    [lia | exact Hlen |].
  exists r. split; [exact Hr|]. rewrite Hnth.
  destruct i as [|j]; [reflexivity|].
  replace (Z.of_nat (S j) <? 1)%Z with false by (symmetry; apply Z.ltb_ge; lia).
  f_equal. change (Z.to_nat 1) with 1%nat. lia.
Qed.

Lemma rate_cell (junk : npfloat) (df df' : DataFrame) (col : string)
      (otherwise : npfloat) (i : nat) (c p : npfloat) :
  transformation_pipe junk df = Ok df' ->
  In (col, otherwise) [("GHI", Fin 0); ("totalPrecipitation", NaN)] ->
  cell df col i = Some c ->
  match i with
  | O => p = NaN
  | S j => cell df col j = Some p
  end ->
  cell df' col i
  = Some (if fgt (fsub c p) 0 then fdiv (fsub c p) (Fin 3600) else otherwise).
Proof.
  intros Hrun Hcol Hc Hp.
  destruct (pipe_rate junk df df' Hrun col otherwise i c Hcol Hc)
    as (prev & Hshift & Hcell).
  apply cell_floats in Hc as (w & Hw & Hn).
  destruct (previous_hour junk w i c Hn) as (prev' & Hprev' & Hnth).
  assert (prev' = prev) by (specialize (Hshift w Hw); congruence). subst prev'.
  apply Hcell. rewrite Hnth.
  destruct i as [|j]; [now subst p|].
  rewrite <- Hp. symmetry. now apply floats_cell.
Qed.

Lemma rate_positive (d : R) (otherwise : npfloat) :
  0 < d ->
  (if fgt (Fin d) 0 then fdiv (Fin d) (Fin 3600) else otherwise)
  = Fin (d / 3600).
Proof.
  intros Hd. unfold fgt, fdiv.
  destruct (Rlt_dec 0 d) as [_|H]; [|contradiction].
  destruct (Req_dec_T 3600 0) as [H|_]; [lra | reflexivity].
Qed.

Lemma rate_not_positive (d : R) (otherwise : npfloat) :
  d <= 0 ->
  (if fgt (Fin d) 0 then fdiv (Fin d) (Fin 3600) else otherwise) = otherwise.
Proof.
  intros Hd. unfold fgt.
  destruct (Rlt_dec 0 d) as [H|_]; [lra | reflexivity].
Qed.

(** C2, as amended. At a row i >= 1 of a cumulative column,
    [transformation_pipe] writes the first difference against the previous
    row divided by 3600 whenever that difference is strictly positive; when
    the difference is zero or negative it writes 0 to GHI and NaN to
    totalPrecipitation. *)
Theorem deaccumulation (junk : npfloat) (df df' : DataFrame) (col : string)
        (otherwise : npfloat) (i : nat) (prev cur : R) :
  transformation_pipe junk df = Ok df' ->
  In (col, otherwise) [("GHI", Fin 0); ("totalPrecipitation", NaN)] ->
  (1 <= i)%nat ->
  cell df col (i - 1) = Some (Fin prev) ->
  cell df col i = Some (Fin cur) ->
  (0 < cur - prev -> cell df' col i = Some (Fin ((cur - prev) / 3600))) /\
  (cur - prev <= 0 -> cell df' col i = Some otherwise).
Proof.
  intros Hrun Hcol Hi Hprev Hcur.
  destruct i as [|j]; [lia|].
  replace (S j - 1)%nat with j in Hprev by lia.
  pose proof (rate_cell junk df df' col otherwise (S j) (Fin cur) (Fin prev)
                        Hrun Hcol Hcur Hprev) as Hcell.
  change (fsub (Fin cur) (Fin prev)) with (Fin (cur - prev)) in Hcell.
  split; intros Hd; rewrite Hcell.
  - now rewrite rate_positive.
  - now rewrite rate_not_positive.
Qed.

Lemma deaccumulation_witness :
  exists df',
    transformation_pipe NaN three_hours = Ok df' /\
    cell df' "GHI" 1 = Some (Fin ((3700 - 100) / 3600)) /\
    cell df' "GHI" 2 = Some (Fin 0) /\
    cell df' "totalPrecipitation" 2 = Some (Fin ((41 - 5) / 3600)).
Proof.
  destruct three_hours_runs as [df' Hrun]. exists df'.
  split; [exact Hrun|]. repeat split.
  - apply (deaccumulation NaN three_hours df' "GHI" (Fin 0) 1 100 3700 Hrun);
      [simpl; tauto | lia | reflexivity | reflexivity | lra].
  - apply (deaccumulation NaN three_hours df' "GHI" (Fin 0) 2 3700 3700 Hrun);
      [simpl; tauto | lia | reflexivity | reflexivity | lra].
  - apply (deaccumulation NaN three_hours df' "totalPrecipitation" NaN 2 5 41 Hrun);
      [simpl; tauto | lia | reflexivity | reflexivity | lra].
Defined.

(** The claim as first stated promises the difference divided by 3600 for
    every non-negative difference. In the dry second hour of the three-hour
    frame the cumulative precipitation stays at 5: the difference 0 is
    non-negative, and the cell becomes NaN, not 0 / 3600. *)
Lemma dry_hour_precipitation_is_missing :
  exists df',
    transformation_pipe NaN three_hours = Ok df' /\
    cell three_hours "totalPrecipitation" 0 = Some (Fin 5) /\
    cell three_hours "totalPrecipitation" 1 = Some (Fin 5) /\
    0 <= 5 - 5 /\
    cell df' "totalPrecipitation" 1 = Some NaN /\
    cell df' "totalPrecipitation" 1 <> Some (Fin ((5 - 5) / 3600)).
Proof.
  destruct three_hours_runs as [df' Hrun]. exists df'.
  assert (Hcell : cell df' "totalPrecipitation" 1 = Some NaN).
  { rewrite (rate_cell NaN three_hours df' "totalPrecipitation" NaN 1
                       (Fin 5) (Fin 5) Hrun);
      [| simpl; tauto | reflexivity | reflexivity].
    change (fsub (Fin 5) (Fin 5)) with (Fin (5 - 5)).
    rewrite rate_not_positive by lra. reflexivity. }
  repeat split; try reflexivity; try lra; try exact Hrun; try exact Hcell.
  rewrite Hcell. discriminate.
Qed.

(** C10. A forward [shift] by [num] puts [fill_value] at the positions
    below [num] and [arr[i - num]] at every position from [num] on; so the
    first row of a frame has no previous hour, and [transformation_pipe]
    leaves 0 in its GHI and NaN in its totalPrecipitation whatever the
    cumulative values were. *)
Theorem shift_and_first_row :
  (forall (A : Type) (junk fill_value : A) (arr : list A) (num : Z) (i : nat),
      (0 < num)%Z ->
      (i < List.length arr)%nat ->
      exists r,
        shift junk arr num fill_value = Ok r /\
        List.length r = List.length arr /\
        nth_error r i = if (Z.of_nat i <? num)%Z then Some fill_value
                        else nth_error arr (i - Z.to_nat num)) /\
  (forall (junk : npfloat) (df df' : DataFrame),
      transformation_pipe junk df = Ok df' ->
      (forall g, cell df "GHI" 0 = Some g -> cell df' "GHI" 0 = Some (Fin 0)) /\
      (forall p, cell df "totalPrecipitation" 0 = Some p ->
                 cell df' "totalPrecipitation" 0 = Some NaN)).
Proof.
  split.
  - intros A junk fill_value arr num i Hnum Hi. now apply shift_forward_nth.
  - intros junk df df' Hrun. split.
    + intros g Hg.
      rewrite (rate_cell junk df df' "GHI" (Fin 0) 0 g NaN Hrun);
        [| simpl; tauto | exact Hg | reflexivity].
      destruct g; reflexivity.
    + intros p Hp.
      rewrite (rate_cell junk df df' "totalPrecipitation" NaN 0 p NaN Hrun);
        [| simpl; tauto | exact Hp | reflexivity].
      destruct p; reflexivity.
Qed.

Lemma shift_and_first_row_witness :
  (exists r,
      shift 0%Z [10; 20; 30; 40]%Z 2 (-1)%Z = Ok r /\
      List.length r = 4%nat /\
      nth_error r 3 = Some 20%Z) /\
  exists df',
    transformation_pipe NaN three_hours = Ok df' /\
    cell df' "GHI" 0 = Some (Fin 0) /\
    cell df' "totalPrecipitation" 0 = Some NaN.
Proof.
  destruct three_hours_runs as [df' Hrun].
  destruct shift_and_first_row as [Hshift Hfirst].
  split.
  - apply (Hshift Z 0%Z (-1)%Z [10; 20; 30; 40]%Z 2%Z 3%nat); [lia | simpl; lia].
  - exists df'. split; [exact Hrun|].
    destruct (Hfirst NaN three_hours df' Hrun) as [Hg Hp].
    split; [apply (Hg (Fin 100)) | apply (Hp (Fin 5))]; reflexivity.
Defined.
End Era5RateClaims.

(** ** query_from_grib and its index files *)

Section GribFacts.
Import Era5.
Local Open Scope string_scope.

Lemma exists_path_In (fs : FileSystem) (p : string) :
  exists_path fs p = true <-> In p fs.
Proof.
  unfold exists_path. rewrite existsb_exists. split.
  - intros (q & Hq & Heq). apply String.eqb_eq in Heq. now subst.
  - intros Hin. exists p. split; [exact Hin | apply String.eqb_refl].
Qed.

Lemma write_path_In (fs : FileSystem) (p q : string) :
  In q (write_path fs p) <-> q = p \/ In q fs.
Proof.
  unfold write_path. destruct (exists_path fs p) eqn:E.
  - apply exists_path_In in E. split; [tauto|]. intros [->|H]; assumption.
  - simpl. split; intros [H|H]; auto.
Qed.

Lemma os_remove_In (fs fs' : FileSystem) (p q : string) :
  os_remove fs p = Ok fs' ->
  In q fs' <-> In q fs /\ q <> p.
Proof.
  unfold os_remove. destruct (exists_path fs p); [|discriminate].
  intros [= <-]. rewrite filter_In, negb_true_iff.
  split; intros [Hin Hne]; split; auto.
  - intros ->. now rewrite String.eqb_refl in Hne.
  - apply String.eqb_neq. congruence.
Qed.

Variable Dataset : Type.
Variable open_datasets : string -> bool * result (list Dataset).
Variable frame_of_datasets : list Dataset -> result DataFrame.
Variable getrandbits : nat -> N.
Variable junk : npfloat.

Let load := load_from Dataset open_datasets frame_of_datasets getrandbits junk.

(** A loop that runs to its end has taken every index file of its rounds
    out of the directory and has added nothing. *)
Lemma load_from_returns (files : list string) :
  forall (i : nat) (frames : list DataFrame) (fs fs' : FileSystem)
         (out : list DataFrame),
    load i files frames fs = (fs', Ok out) ->
    forall q,
      In q fs' <->
      In q fs /\
      forall j fn, nth_error files j = Some fn ->
                   q <> index_path fn (getrandbits (i + j)).
Proof.
  induction files as [|fn rest IH]; intros i frames fs fs' out Hrun q.
  - simpl in Hrun. injection Hrun as <- _. split.
    + intros Hin. split; [exact Hin|]. intros [|j] fn'; discriminate.
    + tauto.
  - simpl in Hrun.
    destruct (open_datasets fn) as [written [dg|e]]; [|discriminate Hrun].
    set (idx := index_path fn (getrandbits i)) in *.
    set (fs1 := if written then write_path fs idx else fs) in *.
    destruct (os_remove fs1 idx) as [fs2|e] eqn:Erm; [|discriminate Hrun].
    destruct (bind (frame_of_datasets dg) (fun df_ => transformation_pipe junk df_))
      as [df_|e]; [|discriminate Hrun].
    rewrite (IH _ _ _ _ _ Hrun q), (os_remove_In _ _ _ q Erm).
    assert (Hfs1 : In q fs1 /\ q <> idx <-> In q fs /\ q <> idx).
    { subst fs1. destruct written; [|tauto]. rewrite write_path_In. tauto. }
    rewrite Hfs1. split.
    + intros [[Hin Hne] Hrest]. split; [exact Hin|].
      intros [|j] fn' Hnth; simpl in Hnth.
      * injection Hnth as <-. now rewrite Nat.add_0_r.
      * replace (i + S j)%nat with (S i + j)%nat by lia. now apply Hrest.
    + intros [Hin Hall]. split; [split; [exact Hin|]|].
      * specialize (Hall 0%nat fn eq_refl). now rewrite Nat.add_0_r in Hall.
      * intros j fn' Hnth. specialize (Hall (S j) fn' Hnth).
        now replace (i + S j)%nat with (S i + j)%nat in Hall by lia.
Qed.
End GribFacts.

Section GribClaim.
Import Era5.
Local Open Scope string_scope.

(** C9, as amended. On every run of [query_from_grib] that returns, the
    index file of each GRIB file has been removed right after
    [cfgrib.open_datasets] returned: the directory at the end holds none of
    the index paths of the run, nothing that was not there at the start, and
    every other file that was there. Nothing is promised for a run in which
    [open_datasets] raises. *)
Theorem index_files_removed_on_return
        (Dataset : Type) (open_datasets : string -> bool * result (list Dataset))
        (frame_of_datasets : list Dataset -> result DataFrame)
        (getrandbits : nat -> N) (junk : npfloat)
        (list_grib_files : list string) (fs fs' : FileSystem)
        (out : list DataFrame) :
  query_from_grib Dataset open_datasets frame_of_datasets getrandbits junk
                  list_grib_files fs = (fs', Ok out) ->
  (forall j fn, nth_error list_grib_files j = Some fn ->
                ~ In (index_path fn (getrandbits j)) fs') /\
  (forall q, In q fs' -> In q fs) /\
  (forall q, In q fs ->
             (forall j fn, nth_error list_grib_files j = Some fn ->
                           q <> index_path fn (getrandbits j)) ->
             In q fs').
Proof.
  unfold query_from_grib. intros Hrun.
  pose proof (load_from_returns Dataset open_datasets frame_of_datasets getrandbits
                                junk list_grib_files 0 [] fs fs' out Hrun) as Hfs.
  split; [|split].
  - intros j fn Hnth Hin. apply Hfs in Hin as [_ Hall].
    now apply (Hall j fn Hnth).
  - intros q Hin. now apply Hfs in Hin.
  - intros q Hin Hall. apply Hfs. split; [exact Hin | exact Hall].
Qed.

Lemma index_files_removed_on_return_witness :
  exists fs' out,
    query_from_grib unit (fun _ => (true, Ok [tt])) (fun _ => Ok three_hours)
                    (fun _ => 7%N) NaN
                    ["data/201301_50_18_49_19.grib"]
                    ["data/201301_50_18_49_19.grib"] = (fs', Ok out) /\
    ~ In "data/201301_50_18_49_19.grib.7.idx" fs'.
Proof.
  eexists. eexists. split; [reflexivity|].
  refine (proj1 (index_files_removed_on_return
                   unit (fun _ => (true, Ok [tt])) (fun _ => Ok three_hours)
                   (fun _ => 7%N) NaN
                   ["data/201301_50_18_49_19.grib"]
                   ["data/201301_50_18_49_19.grib"] _ _ eq_refl)
                0%nat "data/201301_50_18_49_19.grib" eq_refl).
Defined.

(** The claim as first stated also covers the error path. When
    [open_datasets] has written the index file and then raises, the
    exception leaves [query_from_grib] before [os.remove]: the index file
    stays in the directory. *)
Lemma index_file_left_on_parse_failure :
  exists fs' e,
    query_from_grib unit
                    (fun _ => (true, Raise (ValueError "unreadable GRIB message")))
                    (fun _ => Ok three_hours) (fun _ => 7%N) NaN
                    ["data/201301_50_18_49_19.grib"]
                    ["data/201301_50_18_49_19.grib"] = (fs', Raise e) /\
    In "data/201301_50_18_49_19.grib.7.idx" fs'.
Proof.
  eexists. eexists. split; [reflexivity|].
  simpl. auto.
Qed.
End GribClaim.

(** ** MeteoGalicia: the resolution loop *)

Section ResolutionLoop.
Import MeteoGalicia.
Local Open Scope string_scope.

Variable env : Env.
Variables latitude longitude : Q.
Variable day : Datetime.
Variable local_tz : TimeZone.

Local Arguments attempt : simpl never.
Local Abbreviation round := (attempt env latitude longitude day local_tz).
Local Abbreviation loop := (try_resolutions env latitude longitude day local_tz).

Lemma attempt_tail (n0 : nat) (resolution : Z * Z) (rest : list (Z * Z)) (j : nat) :
  round (S n0) rest j = round n0 (resolution :: rest) (S j).
Proof.
  unfold attempt. simpl nth.
  now replace (S n0 + j)%nat with (n0 + S j)%nat by lia.
Qed.

(** What the loop over [todo] has done when it stops: [n] rounds, the
    first [n - 1] of them logged as errors, and either the rows of round
    [n - 1] or, every round having failed, the empty frame. *)
Lemma try_resolutions_rounds (todo : list (Z * Z)) :
  forall w : World,
    let n0 := List.length (requests w) in
    exists (n : nat) (errors : list exn),
      (n <= List.length todo)%nat /\
      requests (snd (loop todo w))
      = (requests w ++ map (fun j => fst (round n0 todo j)) (seq 0 n))%list /\
      log (snd (loop todo w)) = (log w ++ errors)%list /\
      (forall j e, nth_error errors j = Some e -> snd (round n0 todo j) = Raise e) /\
      ((exists solar_data,
           n = S (List.length errors) /\
           snd (round n0 todo (List.length errors)) = Ok solar_data /\
           fst (loop todo w) = {| columns := ["ts"; "GHI"]; rows := solar_data |})
       \/ (n = List.length todo /\ List.length errors = n /\
           fst (loop todo w) = empty_frame)).
Proof.
  induction todo as [|resolution rest IH]; intros w n0.
  - exists 0%nat, []. cbn [seq map List.length try_resolutions fst snd]. rewrite !app_nil_r.
    repeat split; auto.
    intros [|j] e; discriminate.
  - cbn [try_resolutions].
    set (url := url_mg (utcnow env (List.length (requests w))) latitude longitude
                       day local_tz resolution).
    assert (Hround : round n0 (resolution :: rest) 0
                     = (url, read_solar_data resolution
                               (http_get env (List.length (requests w)) url))).
    { unfold attempt, url, n0. simpl nth. now rewrite Nat.add_0_r. }
    destruct (read_solar_data resolution (http_get env (List.length (requests w)) url))
      as [solar_data|e] eqn:Eread.
    + exists 1%nat, []. cbn [seq map List.length fst snd requests log sent].
      rewrite Hround, app_nil_r. cbn [fst snd].
      repeat split; auto; try lia.
      * intros [|j] e; discriminate.
      * left. exists solar_data. auto.
    + destruct (IH (logged (sent w url) e)) as (n & errors & Hn & Hreq & Hlog & Herr & Hend).
      assert (Hlen : List.length (requests (logged (sent w url) e)) = S n0).
      { cbn [requests logged sent]. rewrite length_app. cbn [List.length]. unfold n0. lia. }
      rewrite Hlen in *.
      exists (S n), (e :: errors).
      split; [cbn [List.length]; lia|]. split; [|split; [|split]].
      * rewrite Hreq. cbn [requests logged sent]. rewrite <- app_assoc. f_equal.
        cbn [seq map]. rewrite Hround. cbn [fst app]. f_equal.
        rewrite <- seq_shift, map_map.
        apply map_ext. intros j. now rewrite attempt_tail with (resolution := resolution).
      * rewrite Hlog. cbn [log logged sent]. now rewrite <- app_assoc.
      * intros [|j] e' Hnth; cbn [nth_error] in Hnth.
        -- injection Hnth as <-. now rewrite Hround.
        -- rewrite <- attempt_tail. now apply Herr.
      * destruct Hend as [(solar_data & Hn' & Hok & Hframe)|(Hn' & Hlen' & Hframe)].
        -- left. exists solar_data. cbn [List.length].
           rewrite <- attempt_tail. auto.
        -- right. cbn [List.length]. auto.
Qed.
End ResolutionLoop.

(** ** MeteoGalicia: the answers that give rows *)

Section SolarData.
Import MeteoGalicia.
Local Open Scope string_scope.

Lemma all_some_map {A : Type} (l : list (option A)) (r : list A) :
  all_some l = Some r <-> l = map Some r.
Proof.
  revert r. induction l as [|[a|] l IH]; intros r; cbn [all_some].
  - split; [intros [= <-]; reflexivity|]. destruct r; [reflexivity | discriminate].
  - destruct (all_some l) as [r'|] eqn:E; cbn [option_map].
    + split.
      * intros [= <-]. cbn [map]. f_equal. now apply IH.
      * destruct r as [|b r]; [discriminate|]. cbn [map]. intros [= -> Hl].
        apply IH in Hl. now injection Hl as ->.
    + split; [discriminate|]. destruct r as [|b r]; [discriminate|].
      cbn [map]. intros [= _ Hl]. apply IH in Hl. discriminate Hl.
  - split; [discriminate|]. destruct r; discriminate.
Qed.

Lemma renamed_time (header : list string) :
  existsb (String.eqb "time")
          (map (fun k => if String.eqb k "date" then "time"
                         else if String.eqb k swflx_column then "GHI" else k) header)
  = true
  <-> In "date" header \/ In "time" header.
Proof.
  induction header as [|k header IH]; cbn [map existsb In].
  - split; [discriminate | tauto].
  - rewrite orb_true_iff, IH.
    destruct (String.eqb_spec k "date") as [->|Hdate].
    + cbn. tauto.
    + destruct (String.eqb_spec k swflx_column) as [->|Hswflx].
      * cbn. split; [intros [H|H]; [discriminate H | tauto]|].
        intros [[H|H]|[H|H]]; try tauto; discriminate H.
      * rewrite String.eqb_eq. intuition congruence.
Qed.

Lemma renamed_GHI (header : list string) :
  existsb (String.eqb "GHI")
          (map (fun k => if String.eqb k "date" then "time"
                         else if String.eqb k swflx_column then "GHI" else k) header)
  = true
  <-> In swflx_column header \/ In "GHI" header.
Proof.
  induction header as [|k header IH]; cbn [map existsb In].
  - split; [discriminate | tauto].
  - rewrite orb_true_iff, IH.
    destruct (String.eqb_spec k "date") as [->|Hdate].
    + cbn. split; [intros [H|H]; [discriminate H | tauto]|].
      intros [[H|H]|[H|H]]; try tauto; discriminate H.
    + destruct (String.eqb_spec k swflx_column) as [->|Hswflx].
      * cbn. tauto.
      * rewrite String.eqb_eq. intuition congruence.
Qed.

(** An answer turns into rows exactly when it is a CSV with lines, with
    the two columns, and with dates that can all be read. *)
Lemma read_solar_data_parses (resolution : Z * Z) (r : Response) (solar_data : list Row) :
  read_solar_data resolution r = Ok solar_data <-> parses r solar_data.
Proof.
  unfold read_solar_data, parses. destruct r as [e|header body].
  - split; [discriminate|]. intros (h & b & st & H & _). discriminate H.
  - pose proof (renamed_time header) as Htime. pose proof (renamed_GHI header) as Hghi.
    destruct (Nat.eqb_spec (List.length body) 0) as [Hlen|Hlen].
    + split; [discriminate|]. intros (h & b & st & [= <- <-] & Hne & _).
      destruct body; [contradiction | discriminate Hlen].
    + destruct (existsb (String.eqb "time") _) eqn:Et; cbn [negb].
      * destruct (all_some (map line_ts body)) as [stamps|] eqn:Es.
        -- apply all_some_map in Es.
           destruct (existsb (String.eqb "GHI") _) eqn:Eg; cbn [negb].
           ++ split.
              ** intros [= <-]. exists header, body, stamps.
                 repeat split; try tauto.
                 intros ->. now apply Hlen.
              ** intros (h & b & st & [= <- <-] & _ & _ & _ & Hst & ->).
                 rewrite Es in Hst. apply (f_equal all_some) in Hst.
                 assert (Hsome : forall l : list Z, all_some (map Some l) = Some l)
                   by (intros l; now apply all_some_map).
                 rewrite !Hsome in Hst. now injection Hst as ->.
           ++ split; [discriminate|].
              intros (h & b & st & [= <- <-] & _ & _ & Hg & _).
              apply Hghi in Hg. discriminate Hg.
        -- split; [discriminate|].
           intros (h & b & st & [= <- <-] & _ & _ & _ & Hst & _).
           apply all_some_map in Hst. congruence.
      * split; [discriminate|].
        intros (h & b & st & [= <- <-] & _ & Ht & _).
        apply Htime in Ht. discriminate Ht.
Qed.

(** What a round that fails has logged. *)
Lemma read_solar_data_fails (resolution : Z * Z) (r : Response) (e : exn) :
  read_solar_data resolution r = Raise e ->
  (forall solar_data, ~ parses r solar_data) /\
  (forall e0, r = Failure e0 -> e = e0) /\
  (forall header, r = Csv header [] -> e = out_of_bounding_box resolution).
Proof.
  intros Hraise. split; [|split].
  - intros rows Hparses. apply (read_solar_data_parses resolution) in Hparses.
    congruence.
  - intros e0 ->. cbn in Hraise. congruence.
  - intros header ->. cbn in Hraise. congruence.
Qed.
End SolarData.

Section DailyFetchClaim.
Import MeteoGalicia.
Local Open Scope string_scope.

(** On the example server the 4 km grid comes back empty and is logged, the
    12 km grid gives the three lines, and the other grids are not asked. *)
Example daily_fetch_on_sample :
  let (frame, w') :=
    _get_historic_data_day sample_env (4129 # 100) (219 # 100)
                           (at_second 1694851200) summer_time fresh in
  columns frame = ["ts"; "GHI"] /\
  map ts (rows frame) = [1694833200; 1694858400; 1694944800]%Z /\
  List.length (requests w') = 2%nat /\
  List.length (log w') = 1%nat.
Proof. vm_compute. repeat split. Qed.

(** C5. [_get_historic_data_day] always returns a frame and never raises.
    It goes through the resolutions (4,2), (12,2), (12,1), (36,2), (36,1)
    in this order and sends one request for each resolution that it
    tries: for a day at most 14 days back the request of the operational
    runs with the kilometres and the domain of the resolution, for an
    older day the request of the archive, which carries the domain only.
    A round whose answer cannot be turned into rows (an error of the
    server, a CSV without lines, a CSV without the date or the radiation
    column or with a date that cannot be read) is logged with its
    exception and the next resolution is tried. The first round whose
    answer is a CSV with lines that can be read ends the loop: its rows
    are returned and no later resolution is asked. When all five rounds
    have failed the frame without columns is returned. *)
Theorem daily_fetch_falls_back
        (env : Env) (latitude longitude : Q) (day : Datetime)
        (local_tz : TimeZone) (w : World) :
  let n0 := List.length (requests w) in
  let resolution := fun j => nth j [(4, 2); (12, 2); (12, 1); (36, 2); (36, 1)]%Z
                                 (0, 0)%Z in
  let request := fun j =>
    if (days_between (astimezone (utcnow env (n0 + j)) local_tz)
                     (astimezone day local_tz) <=? 14)%Z
    then Recent (fst (resolution j)) (snd (resolution j)) day longitude latitude
    else Historical (snd (resolution j)) day longitude latitude in
  let answer := fun j => http_get env (n0 + j) (request j) in
  exists (frame : Frame) (w' : World) (n : nat) (errors : list exn),
    _get_historic_data_day env latitude longitude day local_tz w = (frame, w') /\
    (1 <= n <= 5)%nat /\
    requests w' = (requests w ++ map request (seq 0 n))%list /\
    log w' = (log w ++ errors)%list /\
    (forall j e,
        nth_error errors j = Some e ->
        (forall solar_data, ~ parses (answer j) solar_data) /\
        (forall e0, answer j = Failure e0 -> e = e0) /\
        (forall header, answer j = Csv header [] ->
                        e = out_of_bounding_box (resolution j))) /\
    ((exists solar_data,
         n = S (List.length errors) /\
         parses (answer (List.length errors)) solar_data /\
         solar_data <> [] /\
         frame = {| columns := ["ts"; "GHI"]; rows := solar_data |})
     \/ (n = 5%nat /\ List.length errors = 5%nat /\ frame = empty_frame)).
Proof.
  intros n0 resolution request answer.
  destruct (try_resolutions_rounds env latitude longitude day local_tz resolutions w)
    as (n & errors & Hn & Hreq & Hlog & Herr & Hend).
  unfold _get_historic_data_day.
  destruct (try_resolutions env latitude longitude day local_tz resolutions w)
    as [frame w'] eqn:Erun.
  cbn [fst snd] in Hreq, Hlog, Hend.
  assert (Hround : forall j,
             attempt env latitude longitude day local_tz (List.length (requests w))
                     resolutions j
             = (request j, read_solar_data (resolution j) (answer j))).
  { intros j. reflexivity. }
  exists frame, w', n, errors.
  split; [reflexivity|]. split; [|split; [|split; [|split]]].
  - change (List.length resolutions) with 5%nat in Hn.
    destruct Hend as [(rows & -> & _)|(-> & _)]; [lia|].
    change (List.length resolutions) with 5%nat. lia.
  - rewrite Hreq. reflexivity.
  - exact Hlog.
  - intros j e Hnth. specialize (Herr j e Hnth). rewrite Hround in Herr.
    cbn [snd] in Herr. now apply read_solar_data_fails in Herr.
  - destruct Hend as [(rows & Hn' & Hok & Hframe)|(Hall & Hlen & Hframe)].
    + left. exists rows. rewrite Hround in Hok. cbn [snd] in Hok.
      split; [exact Hn'|]. split; [now apply read_solar_data_parses in Hok|].
      split; [|exact Hframe].
      apply read_solar_data_parses in Hok.
      destruct Hok as (header & body & stamps & _ & Hne & _ & _ & Hstamps & ->).
      destruct body as [|line body]; [contradiction|].
      destruct stamps as [|t stamps]; [discriminate Hstamps|]. discriminate.
    + right. change (List.length resolutions) with 5%nat in Hall. subst n. auto.
Qed.

(** On the example server, for a day four days back: the 4 km grid comes
    back without lines and is logged, the 12 km grid gives the three
    lines, and the other grids are not asked. *)
Lemma daily_fetch_falls_back_witness :
  exists (frame : Frame) (w' : World),
    _get_historic_data_day sample_env (4129 # 100) (219 # 100)
                           (at_second 1694851200) summer_time fresh = (frame, w') /\
    requests w'
    = [Recent 4 2 (at_second 1694851200) (219 # 100) (4129 # 100);
       Recent 12 2 (at_second 1694851200) (219 # 100) (4129 # 100)] /\
    log w' = [out_of_bounding_box (4, 2)%Z] /\
    map ts (rows frame) = [1694833200; 1694858400; 1694944800]%Z.
Proof.
  destruct (daily_fetch_falls_back sample_env (4129 # 100) (219 # 100)
                                   (at_second 1694851200) summer_time fresh)
    as (frame & w' & n & errors & Hrun & Hn & Hreq & Hlog & Herr & Hend).
  exists frame, w'. split; [exact Hrun|].
  vm_compute in Hrun. injection Hrun as <- <-.
  cbn [log fresh app] in Hlog.
  assert (Hlen : List.length errors = 1%nat) by (now rewrite <- Hlog).
  assert (Hn2 : n = 2%nat).
  { destruct Hend as [(rows & -> & _)|(_ & Hfive & _)]; [now rewrite Hlen|].
    rewrite Hlen in Hfive. discriminate Hfive. }
  subst n. split; [|split].
  - reflexivity.
  - destruct (Herr 0%nat (out_of_bounding_box (4, 2)%Z)) as (_ & _ & Hempty).
    + now rewrite <- Hlog.
    + reflexivity.
  - reflexivity.
Defined.
End DailyFetchClaim.

(** ** MeteoGalicia: forecast collection *)

Section ForecastClaim.
Import MeteoGalicia.
Local Open Scope string_scope.
Local Open Scope Z_scope.

(** C4. [_collect_forecasting] stamps every row it returns with
    forecasting_timestamp = the UTC epoch second of [now] (the instant of
    [now] cut to whole seconds), and returns only rows whose timestamp is at
    or after that second: they are the fetched rows of the day that pass
    this test, and no row with an earlier timestamp is among them. *)
Theorem forecast_rows_stamped
        (env : Env) (latitude longitude : Q) (now : Datetime)
        (local_tz : TimeZone) (w w' : World) (frame : Frame) :
  _collect_forecasting env latitude longitude now local_tz w = (Ok frame, w') ->
  let now_timestamp := Z.quot (instant now) 1000000 in
  let fetched :=
    fst (_get_historic_data_day env latitude longitude now local_tz w) in
  (forall r, In r (rows frame) ->
             forecasting_timestamp r = Some now_timestamp /\
             now_timestamp <= ts r /\
             exists r0, In r0 (rows fetched) /\ ts r0 = ts r /\ GHI r0 = GHI r) /\
  (forall r0, In r0 (rows fetched) -> now_timestamp <= ts r0 ->
              exists r, In r (rows frame) /\ ts r = ts r0 /\ GHI r = GHI r0) /\
  ~ (exists r, In r (rows frame) /\ ts r < now_timestamp).
Proof.
  intros Hrun now_timestamp fetched. unfold _collect_forecasting in Hrun.
  subst fetched.
  destruct (_get_historic_data_day env latitude longitude now local_tz w)
    as [forecasted_data w1].
  cbn [fst]. unfold query_ge in Hrun.
  match type of Hrun with
  | ((if ?c then _ else _), _) = _ => destruct c; [|discriminate Hrun]
  end.
  injection Hrun as <- _.
  change (int_timestamp now) with now_timestamp in *.
  cbn [rows assign rename].
  assert (Hrows : forall r,
             In r (filter (fun r => now_timestamp <=? ts r)
                          (map (with_forecasting_timestamp now_timestamp)
                               (map (with_longitude longitude)
                                    (map (with_latitude latitude)
                                         (rows forecasted_data))))) <->
             exists r0, In r0 (rows forecasted_data) /\ now_timestamp <= ts r0 /\
                        r = with_forecasting_timestamp now_timestamp
                              (with_longitude longitude (with_latitude latitude r0))).
  { intros r. rewrite filter_In, !map_map, in_map_iff, Z.leb_le. split.
    - intros [(r0 & <- & Hin) Hle]. exists r0. auto.
    - intros (r0 & Hin & Hle & ->). split; [exists r0; auto | exact Hle]. }
  split; [|split].
  - intros r Hin. apply Hrows in Hin as (r0 & Hin & Hle & ->).
    cbn. split; [reflexivity|]. split; [exact Hle|]. exists r0. auto.
  - intros r0 Hin Hle. eexists. split; [apply Hrows; exists r0; eauto|].
    cbn. auto.
  - intros (r & Hin & Hlt). apply Hrows in Hin as (r0 & Hin & Hle & ->).
    cbn in Hlt. lia.
Qed.

Lemma forecast_rows_stamped_witness :
  exists frame w',
    _collect_forecasting sample_env (4129 # 100) (219 # 100)
                         (at_second 1694851200) summer_time fresh = (Ok frame, w') /\
    map ts (rows frame) = [1694858400; 1694944800] /\
    forall r, In r (rows frame) ->
              forecasting_timestamp r = Some 1694851200 /\ 1694851200 <= ts r.
Proof.
  eexists. eexists. split; [vm_compute; reflexivity|].
  split; [reflexivity|].
  intros r Hin.
  destruct (forecast_rows_stamped sample_env (4129 # 100) (219 # 100)
                                  (at_second 1694851200) summer_time fresh
                                  _ _ eq_refl) as (Hall & _ & _).
  destruct (Hall r Hin) as (Hstamp & Hle & _).
  split; [exact Hstamp | exact Hle].
Defined.
End ForecastClaim.

(** ** Sorting and duplicates *)

Section SortMembers.
Context {A : Type}.

Lemma insert_sorted_In (leb : A -> A -> bool) (x y : A) (l : list A) :
  In y (insert_sorted leb x l) <-> y = x \/ In y l.
Proof.
  induction l as [|z l IH]; simpl.
  - intuition congruence.
  - destruct (leb x z); simpl; rewrite ?IH; intuition congruence.
Qed.

Lemma sort_with_In (leb : A -> A -> bool) (y : A) (l : list A) :
  In y (sort_with leb l) <-> In y l.
Proof.
  induction l as [|x l IH]; simpl; [tauto|].
  rewrite insert_sorted_In, IH. intuition congruence.
Qed.
End SortMembers.

Section SortFacts.
Context {A : Type}.
Variable f : A -> Z.

Local Abbreviation by_key := (fun a b : A => (f a <=? f b)%Z).
Local Abbreviation ascending := (fun a b : A => (f a <= f b)%Z).

Lemma insert_sorted_ascending (x : A) (l : list A) :
  StronglySorted ascending l -> StronglySorted ascending (insert_sorted by_key x l).
Proof.
  induction 1 as [|z l Hs IH Hall]; simpl.
  - constructor; constructor.
  - destruct (Z.leb_spec (f x) (f z)) as [Hle|Hgt].
    + constructor; [now constructor|].
      constructor; [exact Hle|].
      eapply Forall_impl; [|exact Hall]. simpl. intros; lia.
    + constructor; [exact IH|].
      apply Forall_forall. intros y Hy. apply insert_sorted_In in Hy as [->|Hy].
      * lia.
      * rewrite Forall_forall in Hall. now apply Hall.
Qed.

Lemma sort_with_ascending (l : list A) :
  StronglySorted ascending (sort_with by_key l).
Proof.
  induction l as [|x l IH]; simpl; [constructor|].
  now apply insert_sorted_ascending.
Qed.

Lemma map_ascending (g : A -> A) (l : list A) :
  (forall x, f (g x) = f x) ->
  StronglySorted ascending l -> StronglySorted ascending (map g l).
Proof.
  intros Hg. induction 1 as [|x l Hs IH Hall]; simpl; constructor; [exact IH|].
  rewrite Forall_map. eapply Forall_impl; [|exact Hall].
  simpl. intros y. now rewrite !Hg.
Qed.
End SortFacts.

Section DuplicateFacts.
Context {A K : Type}.
Variable key : A -> K.
Variable key_eqb : K -> K -> bool.

Lemma drop_seen_In (seen : list K) (l : list A) (x : A) :
  In x (drop_seen key key_eqb seen l) -> In x l.
Proof.
  revert seen; induction l as [|y l IH]; intros seen; simpl; [tauto|].
  destruct (existsb (key_eqb (key y)) seen); simpl; intros H.
  - right. eapply IH; eassumption.
  - destruct H as [->|H]; [now left | right; eapply IH; eassumption].
Qed.

Lemma drop_seen_sorted (R : A -> A -> Prop) (seen : list K) (l : list A) :
  StronglySorted R l -> StronglySorted R (drop_seen key key_eqb seen l).
Proof.
  intros Hs. revert seen. induction Hs as [|y l Hs IH Hall]; intros seen; simpl.
  - constructor.
  - destruct (existsb (key_eqb (key y)) seen); [apply IH|].
    constructor; [apply IH|].
    apply Forall_forall. intros x Hx. apply drop_seen_In in Hx.
    rewrite Forall_forall in Hall. now apply Hall.
Qed.

(** A row that is kept has a key that was not seen. *)
Lemma drop_seen_fresh (seen : list K) (l : list A) (x : A) (k : K) :
  In x (drop_seen key key_eqb seen l) -> In k seen ->
  key_eqb (key x) k = false.
Proof.
  revert seen; induction l as [|y l IH]; intros seen; simpl; [tauto|].
  destruct (existsb (key_eqb (key y)) seen) eqn:E; simpl; intros H Hk.
  - now apply (IH seen).
  - destruct H as [->|H].
    + destruct (key_eqb (key x) k) eqn:Ek; [|reflexivity].
      assert (existsb (key_eqb (key x)) seen = true)
        by (apply existsb_exists; eauto).
      congruence.
    + apply (IH (key y :: seen)); [exact H | now right].
Qed.

(** Later rows differ in their key from every row before them. *)
Lemma drop_seen_distinct (seen : list K) (l : list A) :
  StronglySorted (fun a b => key_eqb (key b) (key a) = false)
                 (drop_seen key key_eqb seen l).
Proof.
  revert seen; induction l as [|y l IH]; intros seen; simpl; [constructor|].
  destruct (existsb (key_eqb (key y)) seen); [apply IH|].
  constructor; [apply IH|].
  apply Forall_forall. intros x Hx.
  apply (drop_seen_fresh (key y :: seen) l x (key y) Hx). now left.
Qed.
End DuplicateFacts.

Lemma strongly_sorted_nth {A : Type} (R : A -> A -> Prop) (l : list A) :
  StronglySorted R l ->
  forall i j a b, (i < j)%nat -> nth_error l i = Some a -> nth_error l j = Some b ->
                  R a b.
Proof.
  induction 1 as [|x l Hs IH Hall]; intros i j a b Hlt Ha Hb.
  - destruct i; discriminate.
  - destruct j as [|j]; [lia|]. simpl in Hb.
    destruct i as [|i]; simpl in Ha.
    + injection Ha as <-. rewrite Forall_forall in Hall.
      apply Hall. eapply nth_error_In; eassumption.
    + apply (IH i j); auto. lia.
Qed.

(** ** MeteoGalicia: the historical table *)

Section HistoricalFacts.
Import MeteoGalicia.
Local Open Scope string_scope.
Local Open Scope Z_scope.

Variable env : Env.
Variables latitude longitude : Q.
Variable local_tz : TimeZone.

Lemma day_tidy (day : Datetime) (w : World) :
  tidy (fst (_get_historic_data_day env latitude longitude day local_tz w)).
Proof.
  unfold _get_historic_data_day.
  destruct (try_resolutions_rounds env latitude longitude day local_tz resolutions w)
    as (n & errors & _ & _ & _ & _ & [(solar_data & _ & _ & ->)|(_ & _ & ->)]).
  - now right.
  - now left.
Qed.

Lemma concat_tidy (a b : Frame) : tidy a -> tidy b -> tidy (concat a b).
Proof.
  unfold tidy, concat, has_column. cbn [columns rows].
  intros [[Ha Hra]|Ha] [[Hb Hrb]|Hb]; rewrite Ha, Hb; cbn.
  - left. now rewrite Hra, Hrb.
  - now right.
  - now right.
  - now right.
Qed.

Lemma download_days_tidy (days : list Datetime) :
  forall (data_period : Frame) (w : World),
    tidy data_period ->
    tidy (fst (download_days env latitude longitude local_tz days data_period w)).
Proof.
  induction days as [|day rest IH]; intros data_period w Ht; cbn [download_days].
  - exact Ht.
  - pose proof (day_tidy day w) as Hday.
    destruct (_get_historic_data_day env latitude longitude day local_tz w)
      as [daily_data w1].
    apply IH. now apply concat_tidy.
Qed.

Lemma tidy_with_ts (f : Frame) :
  tidy f -> has_column f "ts" = true -> columns f = ["ts"; "GHI"].
Proof.
  unfold has_column. intros [[Hc _]|Hc] Hts; [|exact Hc].
  rewrite Hc in Hts. discriminate.
Qed.

(** A gap that was downloaded gives the two columns and rows of its days
    only. *)
Lemma download_gap_ok (gap : Datetime * Datetime) (w w' : World) (f : Frame) :
  download_gap env latitude longitude local_tz gap w = (Ok f, w') ->
  columns f = ["ts"; "GHI"] /\ forall r, In r (rows f) -> within_gap local_tz gap r.
Proof.
  unfold download_gap, within_gap. cbn [gap_bounds fst snd].
  set (ts_ini := localize local_tz (date (fst gap)) 0).
  set (ts_end := localize local_tz (date (snd gap)) 0).
  match goal with
  | |- context [download_days _ _ _ _ ?days empty_frame w] =>
      pose proof (download_days_tidy days empty_frame w) as Ht;
      destruct (download_days env latitude longitude local_tz days empty_frame w)
        as [data_period w1]
  end.
  cbn [fst] in Ht. specialize (Ht (or_introl (conj eq_refl eq_refl))).
  unfold sort_values_ts.
  destruct (has_column data_period "ts") eqn:Ets; [|discriminate].
  unfold bind, query_between, has_column. cbn [columns rows].
  fold (has_column data_period "ts"). rewrite Ets.
  intros [= <- _]. cbn [columns rows].
  split; [now apply tidy_with_ts|].
  intros r Hin. apply filter_In in Hin as [_ Hb].
  apply andb_true_iff in Hb as [Hlo Hhi].
  apply Z.leb_le in Hlo, Hhi. cbn [plus_us instant] in Hhi.
  split; assumption.
Qed.

Lemma download_gaps_ok (gaps : list (Datetime * Datetime)) :
  forall (missing_data : Frame) (w w' : World) (f : Frame),
    download_gaps env latitude longitude local_tz gaps missing_data w = (Ok f, w') ->
    tidy missing_data ->
    tidy f /\
    forall r, In r (rows f) ->
              In r (rows missing_data) \/
              exists gap, In gap gaps /\ within_gap local_tz gap r.
Proof.
  induction gaps as [|gap rest IH]; intros missing_data w w' f Hrun Ht;
    cbn [download_gaps] in Hrun.
  - injection Hrun as <- _. split; [exact Ht | auto].
  - destruct (download_gap env latitude longitude local_tz gap w)
      as [[data_period|e] w1] eqn:Egap; [|discriminate Hrun].
    apply download_gap_ok in Egap as [Hcols Hrows].
    apply IH in Hrun as [Htidy Hin].
    + split; [exact Htidy|].
      intros r Hr. apply Hin in Hr as [Hr|(g & Hg & Hw)].
      * cbn [concat rows] in Hr. apply in_app_or in Hr as [Hr|Hr].
        -- now left.
        -- right. exists gap. split; [now left | now apply Hrows].
      * right. exists g. split; [now right | exact Hw].
    + apply concat_tidy; [exact Ht | now right].
Qed.
End HistoricalFacts.

Section HistoricalClaim.
Import MeteoGalicia.
Local Open Scope string_scope.
Local Open Scope Z_scope.

Lemma cell_eqb_sym (a b : option Q) : cell_eqb a b = cell_eqb b a.
Proof.
  destruct a as [x|], b as [y|]; simpl; try reflexivity.
  destruct (Qeq_bool x y) eqn:E, (Qeq_bool y x) eqn:E'; try reflexivity.
  - apply Qeq_bool_iff in E. symmetry in E. apply Qeq_bool_iff in E. congruence.
  - apply Qeq_bool_iff in E'. symmetry in E'. apply Qeq_bool_iff in E'. congruence.
Qed.

Lemma key_eqb_sym (a b : option Q * option Q * Z) : key_eqb a b = key_eqb b a.
Proof.
  destruct a as [[la lo] t], b as [[la' lo'] t']. unfold key_eqb.
  now rewrite (cell_eqb_sym la), (cell_eqb_sym lo), (Z.eqb_sym t).
Qed.

Lemma key_eqb_same_place (x y : Q) (a b : Row) :
  latitude a = Some x -> latitude b = Some x ->
  longitude a = Some y -> longitude b = Some y ->
  key_eqb (key a) (key b) = false -> ts a <> ts b.
Proof.
  unfold key_eqb, key. intros -> -> -> ->. cbn [cell_eqb].
  rewrite !Qeq_bool_refl. cbn [andb]. intros Hne. now apply Z.eqb_neq.
Qed.

(** C1, as amended. Every row of the table that
    [_get_historical_data_source] returns carries the latitude and the
    longitude of the call and a timestamp within the days of one of the
    gaps, from midnight of the first day of the gap to 23:00 of its last
    day; the rows are in ascending order of ts; no two rows have the same
    (latitude, longitude, ts); and a table with at least one row has the
    columns latitude, longitude, ts followed by the other columns in sorted
    order, which is GHI alone. *)
Theorem historical_gap_table
        (env : Env) (latitude_ longitude_ : Q) (gaps : list (Datetime * Datetime))
        (local_tz : TimeZone) (w w' : World) (table : Frame) :
  _get_historical_data_source env latitude_ longitude_ gaps local_tz w
  = (Ok table, w') ->
  (forall r, In r (rows table) ->
             latitude r = Some latitude_ /\ longitude r = Some longitude_ /\
             exists gap, In gap gaps /\ within_gap local_tz gap r) /\
  StronglySorted (fun a b => ts a <= ts b) (rows table) /\
  (forall i j a b,
      i <> j -> nth_error (rows table) i = Some a -> nth_error (rows table) j = Some b ->
      key_eqb (key a) (key b) = false /\ ts a <> ts b) /\
  (rows table <> [] -> columns table = ["latitude"; "longitude"; "ts"; "GHI"]).
Proof.
  unfold _get_historical_data_source. intros Hrun.
  destruct (download_gaps env latitude_ longitude_ local_tz gaps empty_frame w)
    as [[missing_data|e] w1] eqn:Egaps; [|discriminate Hrun].
  apply download_gaps_ok in Egaps as [Htidy Hgaps];
    [|left; split; reflexivity].
  unfold sort_values_ts in Hrun.
  destruct (has_column missing_data "ts") eqn:Ets; [|discriminate Hrun].
  pose proof (tidy_with_ts missing_data Htidy Ets) as Hcols.
  destruct missing_data as [cols found]. cbn [columns rows] in *. subst cols.
  set (kept := drop_duplicates key key_eqb
                 (map (with_longitude longitude_)
                      (map (with_latitude latitude_)
                           (sort_with (fun a b => ts a <=? ts b) found)))).
  assert (Htable : rows table = kept /\
                   (kept <> [] -> columns table = ["latitude"; "longitude"; "ts"; "GHI"])).
  { cbn in Hrun.
    change (drop_seen key key_eqb []
              (map (with_longitude longitude_)
                 (map (with_latitude latitude_)
                    (sort_with (fun a b => ts a <=? ts b) found))))
      with kept in Hrun.
    destruct kept as [|r kept']; cbn in Hrun; injection Hrun as <- _; cbn.
    - split; [reflexivity | intros H; now contradiction H].
    - split; [reflexivity | intros _; reflexivity]. }
  destruct Htable as [Hrows Hcolumns]. rewrite Hrows. clear Hrun.
  assert (Hplace : forall r, In r kept ->
              latitude r = Some latitude_ /\ longitude r = Some longitude_ /\
              exists r0, In r0 found /\ ts r0 = ts r).
  { intros r Hin. apply drop_seen_In in Hin.
    rewrite map_map in Hin. apply in_map_iff in Hin as (r0 & <- & Hin).
    apply sort_with_In in Hin. cbn.
    split; [reflexivity|]. split; [reflexivity|]. exists r0. split; [exact Hin | reflexivity]. }
  split; [|split; [|split]].
  - intros r Hin. destruct (Hplace r Hin) as (Hla & Hlo & r0 & Hin0 & Hts).
    split; [exact Hla|]. split; [exact Hlo|].
    destruct (Hgaps r0 Hin0) as [[]|(gap & Hgap & Hwithin)].
    exists gap. split; [exact Hgap|].
    unfold within_gap in *. now rewrite <- Hts.
  - apply drop_seen_sorted.
    apply map_ascending; [reflexivity|].
    apply map_ascending; [reflexivity|].
    apply sort_with_ascending.
  - intros i j a b Hne Ha Hb.
    assert (Hkey : key_eqb (key a) (key b) = false).
    { pose proof (drop_seen_distinct key key_eqb []
                    (map (with_longitude longitude_)
                         (map (with_latitude latitude_)
                              (sort_with (fun a b => ts a <=? ts b) found))))
        as Hdistinct.
      fold (drop_duplicates key key_eqb) in Hdistinct. fold kept in Hdistinct.
      destruct (Nat.lt_total i j) as [Hlt|[Heq|Hgt]]; [|contradiction|].
      - rewrite key_eqb_sym.
        apply (strongly_sorted_nth _ kept Hdistinct i j a b Hlt Ha Hb).
      - apply (strongly_sorted_nth _ kept Hdistinct j i b a Hgt Hb Ha). }
    split; [exact Hkey|].
    apply nth_error_In in Ha, Hb.
    destruct (Hplace a Ha) as (Hla & Hlo & _).
    destruct (Hplace b Hb) as (Hla' & Hlo' & _).
    apply (key_eqb_same_place latitude_ longitude_ a b); assumption.
  - exact Hcolumns.
Qed.

Lemma historical_gap_table_witness :
  exists table w',
    _get_historical_data_source sample_env (4129 # 100) (219 # 100)
                                [(at_second 1694851200, at_second 1694869200)]
                                summer_time fresh = (Ok table, w') /\
    map ts (rows table) = [1694833200; 1694858400] /\
    StronglySorted (fun a b => ts a <= ts b) (rows table) /\
    columns table = ["latitude"; "longitude"; "ts"; "GHI"].
Proof.
  destruct (_get_historical_data_source
              sample_env (4129 # 100) (219 # 100)
              [(at_second 1694851200, at_second 1694869200)] summer_time fresh)
    as [[table|e] w'] eqn:Hrun; [|vm_compute in Hrun; discriminate Hrun].
  exists table, w'. split; [reflexivity|].
  destruct (historical_gap_table _ _ _ _ _ _ _ _ Hrun) as (_ & Hsorted & _ & Hcols).
  assert (Hts : map ts (rows table) = [1694833200; 1694858400])
    by (vm_compute in Hrun; injection Hrun as <- _; reflexivity).
  split; [exact Hts|]. split; [exact Hsorted|].
  apply Hcols. intros Hnil. rewrite Hnil in Hts. discriminate Hts.
Defined.

(** The claim as first stated bounds the rows by the requested range and
    puts the key columns first in every table. With the store empty and
    16 September 10:00 to 15:00 requested, the one gap is the request; the
    table has the row of 05:00, before [date_from]. And a gap on
    18 September, for which the server has lines of other days only, gives
    a table without rows whose columns are ts, GHI, latitude, longitude. *)
Lemma historical_table_outside_request :
  let date_from := at_second 1694851200 in
  let date_to := at_second 1694869200 in
  (exists table w' r,
      _get_historical_data_source sample_env (4129 # 100) (219 # 100)
                                  [(date_from, date_to)] summer_time fresh
      = (Ok table, w') /\
      In r (rows table) /\ ts r = 1694833200 /\
      ~ within_range date_from date_to r) /\
  (exists table w',
      _get_historical_data_source sample_env (4129 # 100) (219 # 100)
                                  [(at_second 1694988000, at_second 1694988000)]
                                  summer_time fresh
      = (Ok table, w') /\
      rows table = [] /\
      columns table = ["ts"; "GHI"; "latitude"; "longitude"]).
Proof.
  split.
  - eexists. eexists. eexists.
    split; [vm_compute; reflexivity|].
    split; [left; reflexivity|].
    split; [reflexivity|].
    unfold within_range. cbn. lia.
  - eexists. eexists.
    split; [vm_compute; reflexivity|].
    split; reflexivity.
Qed.
End HistoricalClaim.

(** ** MeteoGalicia: raster keys *)

Section RasterKeys.
Import MeteoGalicia.
Local Open Scope Z_scope.

Lemma string_compare_refl (s : string) : String.compare s s = Eq.
Proof.
  induction s as [|a s IH]; simpl; [reflexivity|].
  unfold Ascii.compare. now rewrite N.compare_refl.
Qed.

Lemma key_compare_eq (a b : RasterKey) : key_compare a b = Eq <-> a = b.
Proof.
  destruct a as [[[f t] la] lo], b as [[[f' t'] la'] lo']. unfold key_compare.
  split.
  - unfold then_compare.
    destruct (f ?= f') eqn:Ef; try discriminate.
    destruct (t ?= t') eqn:Et; try discriminate.
    destruct (String.compare la la') eqn:Ela; try discriminate.
    intros Elo.
    apply Z.compare_eq_iff in Ef, Et.
    apply String.compare_eq_iff in Ela, Elo. congruence.
  - intros [= -> -> -> ->].
    now rewrite !Z.compare_refl, !string_compare_refl.
Qed.

Lemma raster_key_eqb_eq (a b : RasterKey) : raster_key_eqb a b = true <-> a = b.
Proof.
  unfold raster_key_eqb. rewrite <- key_compare_eq.
  destruct (key_compare a b); split; congruence.
Qed.

Lemma raster_key_eqb_refl (a : RasterKey) : raster_key_eqb a a = true.
Proof. now apply raster_key_eqb_eq. Qed.

Lemma raster_key_eqb_neq (a b : RasterKey) : raster_key_eqb a b = false <-> a <> b.
Proof.
  rewrite <- raster_key_eqb_eq. destruct (raster_key_eqb a b); split; congruence.
Qed.

(** Rounding keeps the side of zero. *)
Lemma round_half_even_sign (q : Q) :
  ((q < 0)%Q -> round_half_even q <= 0) /\ ((0 <= q)%Q -> 0 <= round_half_even q).
Proof.
  pose proof (Qfloor_le q) as Hlo. pose proof (Qlt_floor q) as Hhi.
  unfold round_half_even.
  split; intros Hq.
  - assert (Hf : Qfloor q < 0).
    { pose proof (Qle_lt_trans _ _ _ Hlo Hq) as H.
      unfold Qlt in H. simpl in H. lia. }
    destruct (Qcompare _ _); [destruct (Z.even _)| |]; lia.
  - assert (Hf : 0 <= Qfloor q).
    { pose proof (Qle_lt_trans _ _ _ Hq Hhi) as H.
      unfold Qlt in H. simpl in H. lia. }
    destruct (Qcompare _ _); [destruct (Z.even _)| |]; lia.
Qed.

Lemma times_precision_sign (x : Q) :
  ((x < 0)%Q -> (x * precision < 0)%Q) /\ ((0 <= x)%Q -> (0 <= x * precision)%Q).
Proof.
  unfold precision, Qlt, Qle. destruct x as [n d]. simpl. split; lia.
Qed.

(** Coordinates that round to the same tenths are written the same. *)
Lemma rounded_coordinate_same (x y : Q) :
  round_half_even (x * precision) = round_half_even (y * precision) ->
  rounded_coordinate x = rounded_coordinate y.
Proof.
  unfold rounded_coordinate. intros Heq. rewrite <- Heq.
  destruct (round_half_even_sign (x * precision)) as [Hxn Hxp].
  destruct (round_half_even_sign (y * precision)) as [Hyn Hyp].
  destruct (times_precision_sign x) as [Hx Hx'].
  destruct (times_precision_sign y) as [Hy Hy'].
  rewrite <- Heq in Hyn, Hyp.
  destruct (Qle_bool 0 x) eqn:Ex, (Qle_bool 0 y) eqn:Ey; try reflexivity.
  - apply Qle_bool_iff in Ex.
    assert (Hny : (y < 0)%Q).
    { apply Qnot_le_lt. intros H. apply Qle_bool_iff in H. congruence. }
    assert (Hzero : round_half_even (x * precision) = 0) by (specialize (Hxp (Hx' Ex)); specialize (Hyn (Hy Hny)); lia).
    rewrite Hzero. reflexivity.
  - apply Qle_bool_iff in Ey.
    assert (Hnx : (x < 0)%Q).
    { apply Qnot_le_lt. intros H. apply Qle_bool_iff in H. congruence. }
    assert (Hzero : round_half_even (x * precision) = 0) by (specialize (Hxn (Hx Hnx)); specialize (Hyp (Hy' Ey)); lia).
    rewrite Hzero. reflexivity.
Qed.

Lemma same_place_key (c c' : RawCell) :
  same_place c c' -> raster_key c = raster_key c'.
Proof.
  intros (Hf & Ht & Hla & Hlo). unfold raster_key.
  now rewrite Hf, Ht, (rounded_coordinate_same _ _ Hla),
    (rounded_coordinate_same _ _ Hlo).
Qed.
End RasterKeys.

(** ** MeteoGalicia: the groups of the raster *)

Ltac key_cases a b :=
  let E := fresh "E" in
  destruct (MeteoGalicia.raster_key_eqb a b) eqn:E;
  [apply raster_key_eqb_eq in E | apply raster_key_eqb_neq in E].

Section RasterGroups.
Import MeteoGalicia.

Lemma group_of_add (q k : RasterKey) (c : string -> value) (groups : list Group) :
  group_of q (add_to_groups k c groups)
  = if raster_key_eqb q k
    then Some (match group_of q groups with
               | Some cs => (cs ++ [c])%list
               | None => [c]
               end)
    else group_of q groups.
Proof.
  induction groups as [|[k0 cs0] groups IH]; cbn [add_to_groups group_of].
  - destruct (raster_key_eqb q k); reflexivity.
  - key_cases k k0.
    + subst k0. cbn [group_of]. destruct (raster_key_eqb q k); reflexivity.
    + cbn [group_of]. rewrite IH.
      key_cases q k0; [|reflexivity].
      subst k0. key_cases q k; [congruence | reflexivity].
Qed.

Lemma group_of_In (k : RasterKey) (cs : list (string -> value)) (groups : list Group) :
  group_of k groups = Some cs -> In (k, cs) groups.
Proof.
  induction groups as [|[k0 cs0] groups IH]; cbn [group_of]; [discriminate|].
  key_cases k k0.
  - intros [= <-]. subst k0. now left.
  - intros H. right. now apply IH.
Qed.

Lemma In_group_of (k : RasterKey) (cs : list (string -> value)) (groups : list Group) :
  NoDup (map fst groups) -> In (k, cs) groups -> group_of k groups = Some cs.
Proof.
  induction groups as [|[k0 cs0] groups IH]; cbn [group_of map fst]; [contradiction|].
  intros Hnd [Heq|Hin]; inversion Hnd as [|? ? Hnotin Hnd']; subst.
  - injection Heq as -> ->. now rewrite raster_key_eqb_refl.
  - key_cases k k0.
    + subst k0. exfalso. apply Hnotin.
      change k with (fst (k, cs)). now apply in_map.
    + now apply IH.
Qed.

Lemma add_to_groups_keys (q k : RasterKey) (c : string -> value) (groups : list Group) :
  In q (map fst (add_to_groups k c groups)) -> q = k \/ In q (map fst groups).
Proof.
  induction groups as [|[k0 cs0] groups IH]; cbn [add_to_groups map fst].
  - intros [<-|[]]. now left.
  - destruct (raster_key_eqb k k0); cbn [map fst In].
    + intros [H|H]; auto.
    + intros [H|H]; [auto|]. apply IH in H as [H|H]; auto.
Qed.

Lemma add_to_groups_nodup (k : RasterKey) (c : string -> value) (groups : list Group) :
  NoDup (map fst groups) -> NoDup (map fst (add_to_groups k c groups)).
Proof.
  induction groups as [|[k0 cs0] groups IH]; cbn [add_to_groups map fst].
  - intros _. constructor; [intros [] | constructor].
  - intros Hnd. inversion Hnd as [|? ? Hnotin Hnd']; subst.
    key_cases k k0; cbn [map fst].
    + constructor; assumption.
    + constructor; [|now apply IH].
      intros Hin. apply add_to_groups_keys in Hin as [Hin|Hin]; congruence.
Qed.

Lemma fold_groups_nodup (cells : list RawCell) :
  forall groups,
    NoDup (map fst groups) ->
    NoDup (map fst (fold_left (fun groups c =>
                                 add_to_groups (raster_key c) (raw_cells c) groups)
                              cells groups)).
Proof.
  induction cells as [|c cells IH]; intros groups Hnd; cbn [fold_left].
  - exact Hnd.
  - apply IH. now apply add_to_groups_nodup.
Qed.

Lemma extend_assoc (g : option (list (string -> value)))
      (c : string -> value) (more : list (string -> value)) :
  extend (Some (match g with
                | Some cs => (cs ++ [c])%list
                | None => [c]
                end)) more
  = extend g (c :: more).
Proof.
  destruct g as [cs|]; cbn [extend]; [|reflexivity].
  now rewrite <- app_assoc.
Qed.

(** The group of a key after the loop: what it was, then the rows of the
    cells with this key, in their order. *)
Lemma group_of_fold (k : RasterKey) (cells : list RawCell) :
  forall groups,
    group_of k (fold_left (fun groups c =>
                             add_to_groups (raster_key c) (raw_cells c) groups)
                          cells groups)
    = extend (group_of k groups) (map raw_cells (grouped k cells)).
Proof.
  induction cells as [|c cells IH]; intros groups; cbn [fold_left grouped filter map].
  - destruct (group_of k groups) as [cs|]; cbn [extend]; [|reflexivity].
    now rewrite app_nil_r.
  - rewrite IH, group_of_add. fold (grouped k cells).
    key_cases (raster_key c) k.
    + rewrite <- E, raster_key_eqb_refl. cbn [map]. apply extend_assoc.
    + key_cases k (raster_key c); [congruence | reflexivity].
Qed.

Lemma group_of_collect (k : RasterKey) (cells : list RawCell) :
  group_of k (collect_groups cells)
  = match grouped k cells with
    | [] => None
    | found => Some (map raw_cells found)
    end.
Proof.
  unfold collect_groups. rewrite group_of_fold. cbn [group_of extend].
  destruct (grouped k cells); reflexivity.
Qed.

Lemma collect_groups_nodup (cells : list RawCell) :
  NoDup (map fst (collect_groups cells)).
Proof. apply fold_groups_nodup. constructor. Qed.

(** The groups are the keys of the cells, each once, with its cells. *)
Lemma In_groupby (cells : list RawCell) (g : Group) :
  In g (groupby cells) <->
  grouped (fst g) cells <> [] /\ snd g = map raw_cells (grouped (fst g) cells).
Proof.
  unfold groupby. rewrite sort_with_In. destruct g as [k cs]. cbn [fst snd].
  pose proof (group_of_collect k cells) as Hk. split.
  - intros Hin. apply In_group_of in Hin; [|apply collect_groups_nodup].
    rewrite Hin in Hk. destruct (grouped k cells); [discriminate|].
    injection Hk as ->. split; [discriminate | reflexivity].
  - intros [Hne ->]. apply group_of_In. rewrite Hk.
    destruct (grouped k cells); [contradiction | reflexivity].
Qed.

Lemma grouped_own_key (c : RawCell) (cells : list RawCell) :
  In c cells -> In c (grouped (raster_key c) cells).
Proof.
  intros Hin. apply filter_In. split; [exact Hin | apply raster_key_eqb_refl].
Qed.

Lemma column_mean_agg (g : Group) (col : string) :
  In col cols_mean ->
  column_mean col (means (agg g)) = Some (mean (map (fun c => c col) (snd g))).
Proof.
  unfold cols_mean. cbn [In].
  intros H; repeat (destruct H as [<-|H]; [reflexivity|]); contradiction.
Qed.
End RasterGroups.

Section RasterClaim.
Import MeteoGalicia.
Local Open Scope string_scope.

Lemma mean_of_two (a b : Q) :
  exists m, mean [Num a; Num b] = Num m /\ (m == (a + b) / 2)%Q.
Proof.
  eexists. split; [reflexivity|].
  unfold total. cbn [fold_left List.length Z.of_nat Pos.of_succ_nat Pos.succ app].
  change (inject_Z 2) with 2%Q. field.
Qed.

(** C8. In a raster collection that returns, the raw cells of the same
    forecast and hour whose coordinates round to the same tenths of a
    degree have one group key, and every key has exactly one row in the
    result; each of the aggregated columns of that row holds the
    arithmetic mean, sum over count, of the numbers that the cells of the
    key have in the column (a missing cell is not counted). Two cells
    that round to the same key and make up the raster give one row with
    the mean (a + b) / 2 of their values. *)
Theorem raster_cells_collapse
        (env : Env) (min_lat max_lat min_lon max_lon : Q) (day : Datetime)
        (w w' : World) (out : list RasterRow) :
  _collect_raster env min_lat max_lat min_lon max_lon day w = (Ok out, w') ->
  exists cells,
    fst (_get_historic_forecasting_raster env min_lat max_lat min_lon max_lon day w)
    = Some cells /\
    (forall c, In c cells ->
               exists row,
                 In row out /\ group_key row = raster_key c /\
                 (forall row', In row' out -> group_key row' = raster_key c ->
                               row' = row) /\
                 (forall c', In c' cells -> same_place c c' ->
                             raster_key c' = raster_key c /\
                             In c' (grouped (raster_key c) cells)) /\
                 (forall col, In col cols_mean ->
                              column_mean col (means row)
                              = Some (match column_numbers col
                                              (grouped (raster_key c) cells) with
                                      | [] => Missing
                                      | qs => Num (total qs
                                                   / inject_Z (Z.of_nat (List.length qs)))
                                      end))) /\
    (forall row, In row out -> exists c, In c cells /\ group_key row = raster_key c) /\
    (forall c1 c2,
        cells = [c1; c2] -> same_place c1 c2 ->
        exists row,
          out = [row] /\
          forall col a b,
            In col cols_mean ->
            raw_cells c1 col = Num a -> raw_cells c2 col = Num b ->
            exists m, column_mean col (means row) = Some (Num m) /\
                      (m == (a + b) / 2)%Q).
Proof.
  unfold _collect_raster. intros Hrun.
  destruct (_get_historic_forecasting_raster env min_lat max_lat min_lon max_lon day w)
    as [[cells|] w1]; [|discriminate Hrun].
  injection Hrun as <- _. exists cells. cbn [fst].
  split; [reflexivity|]. split; [|split].
  - intros c Hc. set (k := raster_key c).
    assert (Hg : In (k, map raw_cells (grouped k cells)) (groupby cells)).
    { apply In_groupby. cbn [fst snd]. split; [|reflexivity].
      intros Hnil. pose proof (grouped_own_key c cells Hc) as Hin.
      fold k in Hin. rewrite Hnil in Hin. contradiction. }
    exists (agg (k, map raw_cells (grouped k cells))).
    split; [now apply in_map|]. split; [reflexivity|]. split; [|split].
    + intros row' Hin Hkey. apply in_map_iff in Hin as ([k' cs'] & <- & Hin).
      cbn [agg group_key fst] in Hkey. subst k'.
      apply In_groupby in Hin as [_ Hcs]. cbn [fst snd] in Hcs. now subst cs'.
    + intros c' Hc' Hsame. apply same_place_key in Hsame.
      split; [now symmetry|].
      unfold k. rewrite Hsame. now apply grouped_own_key.
    + intros col Hcol. rewrite column_mean_agg by exact Hcol.
      cbn [snd]. unfold mean, column_numbers. now rewrite map_map.
  - intros row Hin. apply in_map_iff in Hin as ([k cs] & <- & Hin).
    apply In_groupby in Hin as [Hne _]. cbn [fst] in Hne.
    destruct (grouped k cells) as [|c found] eqn:Eg; [contradiction|].
    assert (Hc : In c (grouped k cells)) by (rewrite Eg; now left).
    apply filter_In in Hc as [Hc Hk]. apply raster_key_eqb_eq in Hk.
    exists c. split; [exact Hc | now rewrite Hk].
  - intros c1 c2 -> Hsame. apply same_place_key in Hsame.
    exists (agg (raster_key c1, [raw_cells c1; raw_cells c2])).
    unfold groupby, collect_groups. cbn [fold_left add_to_groups].
    rewrite <- Hsame, raster_key_eqb_refl. cbn [app sort_with fold_right insert_sorted map].
    split; [reflexivity|].
    intros col a b Hcol Ha Hb. rewrite column_mean_agg by exact Hcol.
    cbn [snd map]. rewrite Ha, Hb.
    destruct (mean_of_two a b) as (m & -> & Hm). eauto.
Qed.

Lemma raster_cells_collapse_witness :
  exists out w' row,
    _collect_raster sample_env 42 43 (-9) (-7) (at_second 1694851200) fresh
    = (Ok out, w') /\
    List.length out = 2%nat /\
    In row out /\
    group_key row = (1694815200, 1694858400, "42.3", "-8.0")%Z /\
    column_mean "GHI" (means row) = Some (Num ((0 + 2 + 4) / 2)).
Proof.
  destruct (_collect_raster sample_env 42 43 (-9) (-7) (at_second 1694851200) fresh)
    as [[out|e] w'] eqn:Hrun; [|vm_compute in Hrun; discriminate Hrun].
  destruct (raster_cells_collapse _ _ _ _ _ _ _ _ _ Hrun)
    as (cells & Hcells & Hall & _ & _).
  vm_compute in Hcells. injection Hcells as <-.
  destruct (Hall _ (or_introl eq_refl))
    as (row & Hin & Hkey & _ & _ & Hmean).
  exists out, w', row.
  split; [reflexivity|].
  split; [vm_compute in Hrun; injection Hrun as <- _; reflexivity|].
  split; [exact Hin|]. split; [exact Hkey|].
  rewrite (Hmean "GHI") by (cbn; tauto). reflexivity.
Defined.
End RasterClaim.

(** * Further properties *)

(** ** shift in the other direction and at its bounds *)

Section ShiftMore.
Context {A : Type}.
Variables (junk fill : A).

Lemma nth_error_skipn_plus (l : list A) (m i : nat) :
  nth_error (skipn m l) i = nth_error l (m + i).
Proof.
  revert l; induction m as [|m IH]; intros [|a l]; simpl; try reflexivity.
  - now destruct i.
  - apply IH.
Qed.

(** The closed form of a backward shift. *)
Lemma shift_backward (arr : list A) (num : Z) :
  (num < 0)%Z ->
  Era5.shift junk arr num fill
  = Ok (skipn (Nat.min (List.length arr) (Z.to_nat (- num))) arr
          ++ repeat fill (Nat.min (List.length arr) (Z.to_nat (- num)))).
Proof.
  intros Hneg. unfold Era5.shift, Era5.empty_like.
  replace (num >? 0)%Z with false by (rewrite Z.gtb_ltb; symmetry; apply Z.ltb_ge; lia).
  replace (num <? 0)%Z with true by (symmetry; apply Z.ltb_lt; lia).
  set (len := List.length arr). set (m := Nat.min len (Z.to_nat (- num))).
  assert (Hb : slice_bound len num = (len - m)%nat).
  { unfold slice_bound. replace (num <? 0)%Z with true; [subst m; lia|].
    symmetry; apply Z.ltb_lt; lia. }
  assert (Hb' : slice_bound len (- num) = m).
  { unfold slice_bound. replace (- num <? 0)%Z with false; [reflexivity|].
    symmetry; apply Z.ltb_ge; lia. }
  assert (Hfill : fill_from (repeat junk len) num fill
                  = repeat junk (len - m) ++ repeat fill m).
  { unfold fill_from, slice_to, slice_from. rewrite repeat_length, Hb.
    rewrite firstn_repeat_le by lia.
    rewrite skipn_repeat, repeat_length.
    now replace (len - (len - m))%nat with m by (subst m; lia). }
  rewrite Hfill. unfold assign_to, slice_from, slice_to.
  rewrite length_app, !repeat_length.
  replace (len - m + m)%nat with len by (subst m; lia).
  rewrite Hb, skipn_repeat_app, firstn_repeat_app, repeat_length.
  fold len. rewrite Hb', length_skipn. fold len.
  now rewrite Nat.eqb_refl.
Qed.

Lemma shift_backward_nth (arr : list A) (num : Z) (i : nat) :
  (num < 0)%Z -> (i < List.length arr)%nat ->
  exists r, Era5.shift junk arr num fill = Ok r /\
            List.length r = List.length arr /\
            nth_error r i = if (Z.of_nat i - num <? Z.of_nat (List.length arr))%Z
                            then nth_error arr (i + Z.to_nat (- num))
                            else Some fill.
Proof.
  intros Hneg Hi. rewrite (shift_backward arr num Hneg).
  eexists; split; [reflexivity|]. split.
  - rewrite length_app, repeat_length, length_skipn. lia.
  - destruct (Z.ltb_spec (Z.of_nat i - num) (Z.of_nat (List.length arr))) as [Hlt|Hge].
    + rewrite nth_error_app1 by (rewrite length_skipn; lia).
      rewrite nth_error_skipn_plus. f_equal. lia.
    + rewrite nth_error_app2 by (rewrite length_skipn; lia).
      apply nth_error_repeat_lt. rewrite length_skipn. lia.
Qed.
End ShiftMore.

Section ShiftProperties.
Import Era5.

(** X1. A backward [shift] (num < 0) moves every cell |num| places towards
    the front: position [i] gets [arr[i + |num|]] while that exists, and the
    last |num| positions get [fill_value]. *)
Theorem shift_backward_cells (A : Type) (junk fill_value : A) (arr : list A)
        (num : Z) (i : nat) :
  (num < 0)%Z ->
  (i < List.length arr)%nat ->
  exists r,
    shift junk arr num fill_value = Ok r /\
    List.length r = List.length arr /\
    nth_error r i = if (Z.of_nat i - num <? Z.of_nat (List.length arr))%Z
                    then nth_error arr (i + Z.to_nat (- num))
                    else Some fill_value.
Proof. intros Hneg Hi. now apply shift_backward_nth. Qed.

Lemma shift_backward_cells_witness :
  exists r,
    shift 0%Z [10; 20; 30; 40]%Z (-1) (-7)%Z = Ok r /\
    nth_error r 0 = Some 20%Z /\ nth_error r 3 = Some (-7)%Z.
Proof.
  destruct (shift_backward_cells Z 0%Z (-7)%Z [10; 20; 30; 40]%Z (-1) 0)
    as (r & Hr & _ & H0); [lia | simpl; lia |].
  destruct (shift_backward_cells Z 0%Z (-7)%Z [10; 20; 30; 40]%Z (-1) 3)
    as (r' & Hr' & _ & H3); [lia | simpl; lia |].
  exists r. split; [exact Hr|]. split; [exact H0|].
  assert (r' = r) by congruence. subst r'. exact H3.
Defined.

(** [shift] with a fill of the element type of the array: the two slice
    assignments always fit. *)
Lemma shift_total (A : Type) (junk fill_value : A) (arr : list A) (num : Z) :
  exists r,
    shift junk arr num fill_value = Ok r /\
    List.length r = List.length arr /\
    (forall junk', shift junk' arr num fill_value = Ok r) /\
    (num = 0%Z -> r = arr) /\
    ((Z.of_nat (List.length arr) <= Z.abs num)%Z ->
     r = repeat fill_value (List.length arr)).
Proof.
  destruct (Z.lt_trichotomy num 0) as [Hneg|[Hzero|Hpos]].
  - eexists. split; [apply shift_backward; exact Hneg|].
    split; [rewrite length_app, repeat_length, length_skipn; lia|].
    split; [intros junk'; now apply shift_backward|].
    split; [lia|]. intros Hfar.
    replace (Nat.min (List.length arr) (Z.to_nat (- num))) with (List.length arr) by lia.
    now rewrite skipn_all.
  - subst num. exists arr.
    assert (Hzero : forall j : A, shift j arr 0 fill_value = Ok arr).
    { intros j. unfold shift, empty_like, assign_from, slice_from, slice_to, slice_bound.
      cbn [Z.gtb Z.ltb Z.compare Z.to_nat]. rewrite repeat_length, Nat.min_0_r.
      cbn [skipn firstn]. now rewrite repeat_length, Nat.eqb_refl. }
    split; [apply Hzero|]. split; [reflexivity|]. split; [exact Hzero|].
    split; [reflexivity|]. intros Hfar. cbn in Hfar.
    destruct arr; [reflexivity | cbn in Hfar; lia].
  - eexists. split; [apply shift_forward; exact Hpos|].
    split; [rewrite length_app, repeat_length, length_firstn; lia|].
    split; [intros junk'; now apply shift_forward|].
    split; [lia|]. intros Hfar.
    replace (Nat.min (List.length arr) (Z.to_nat num)) with (List.length arr) by lia.
    replace (List.length arr - Z.to_nat num)%nat with 0%nat by lia.
    cbn [firstn]. now rewrite app_nil_r.
Qed.

(** X2. On an array of floats with a float [fill_value] (NaN is the
    default), which is how [transformation_pipe] calls it, [shift] never
    raises, whatever the distance and the direction: the two slice
    assignments always fit. The result has the length of [arr] and does
    not depend on what the uninitialised array of [np.empty_like] held; a
    shift by 0 returns [arr], and a shift by the length of [arr] or more
    returns [fill_value] everywhere. *)
Theorem shift_of_floats_never_raises
        (junk fill_value : npfloat) (arr : list npfloat) (num : Z) :
  exists r,
    shift junk arr num fill_value = Ok r /\
    List.length r = List.length arr /\
    (forall junk', shift junk' arr num fill_value = Ok r) /\
    (num = 0%Z -> r = arr) /\
    ((Z.of_nat (List.length arr) <= Z.abs num)%Z ->
     r = repeat fill_value (List.length arr)).
Proof. apply shift_total. Qed.

Lemma shift_of_floats_never_raises_witness :
  shift NaN [Fin 1; Fin 2; Fin 3] 0 NaN = Ok [Fin 1; Fin 2; Fin 3] /\
  shift (Fin 7) [Fin 1; Fin 2; Fin 3] (-5) NaN = Ok [NaN; NaN; NaN].
Proof.
  split.
  - destruct (shift_of_floats_never_raises NaN NaN [Fin 1; Fin 2; Fin 3] 0)
      as (r & Hr & _ & _ & Hzero & _).
    rewrite Hr. f_equal. apply Hzero. reflexivity.
  - destruct (shift_of_floats_never_raises (Fin 7) NaN [Fin 1; Fin 2; Fin 3] (-5))
      as (r & Hr & _ & _ & _ & Hfar).
    rewrite Hr. f_equal. apply Hfar. cbn. lia.
Defined.

(** X3. Shifting forward by [num] and back by [num] gives the array back
    except for its last [num] cells, which were pushed out and are
    [fill_value]. *)
Theorem shift_there_and_back (A : Type) (junk fill_value : A) (arr : list A)
        (num : Z) (i : nat) :
  (0 < num)%Z ->
  (i < List.length arr)%nat ->
  exists there back,
    shift junk arr num fill_value = Ok there /\
    shift junk there (- num) fill_value = Ok back /\
    nth_error back i = if (Z.of_nat i + num <? Z.of_nat (List.length arr))%Z
                       then nth_error arr i
                       else Some fill_value.
Proof.
  intros Hpos Hi.
  destruct (shift_forward_nth junk fill_value arr num i Hpos Hi)
    as (there & Hthere & Hlen & _).
  exists there.
  assert (Hi' : (i < List.length there)%nat) by lia.
  destruct (shift_backward_nth junk fill_value there (- num) i ltac:(lia) Hi')
    as (back & Hback & _ & Hnth).
  exists back. split; [exact Hthere|]. split; [exact Hback|].
  rewrite Hnth, Hlen. replace (Z.of_nat i - - num)%Z with (Z.of_nat i + num)%Z by lia.
  destruct (Z.ltb_spec (Z.of_nat i + num) (Z.of_nat (List.length arr))) as [Hlt|Hge];
    [|reflexivity].
  assert (Hj : (i + Z.to_nat (- - num) < List.length arr)%nat) by lia.
  destruct (shift_forward_nth junk fill_value arr num (i + Z.to_nat (- - num)) Hpos Hj)
    as (there' & Hthere' & _ & Hnth').
  assert (there' = there) by congruence. subst there'.
  rewrite Hnth'.
  replace (Z.of_nat (i + Z.to_nat (- - num)) <? num)%Z with false
    by (symmetry; apply Z.ltb_ge; lia).
  f_equal. lia.
Qed.

Lemma shift_there_and_back_witness :
  exists there back,
    shift 0%Z [10; 20; 30; 40]%Z 1 (-7)%Z = Ok there /\
    shift 0%Z there (-1) (-7)%Z = Ok back /\
    nth_error back 2 = Some 30%Z.
Proof.
  destruct (shift_there_and_back Z 0%Z (-7)%Z [10; 20; 30; 40]%Z 1 2)
    as (there & back & H1 & H2 & H3); [lia | simpl; lia |].
  exists there, back. auto.
Defined.
End ShiftProperties.

(** ** The frame that transformation_pipe returns *)

Section PipeShape.
Import Era5.
Local Open Scope string_scope.
Local Open Scope R_scope.

Lemma getitem_raise (df : DataFrame) (k : string) (e : exn) :
  getitem df k = Raise e ->
  e = KeyError k /\ ~ In k (map fst df).
Proof.
  induction df as [|[k0 c0] df IH]; simpl.
  - intros [= <-]. auto.
  - destruct (String.eqb_spec k0 k) as [->|Hne]; [discriminate|].
    intros H. apply IH in H as [-> Hnot]. split; [reflexivity|].
    intros [Heq|Hin]; [congruence | contradiction].
Qed.

Lemma getitem_In (df : DataFrame) (k : string) (c : Column) :
  getitem df k = Ok c -> In k (map fst df).
Proof.
  induction df as [|[k0 c0] df IH]; simpl; [discriminate|].
  destruct (String.eqb_spec k0 k) as [->|Hne]; [now left|].
  intros H. right. now apply IH.
Qed.

Lemma setitem_names (df : DataFrame) (k : string) (c : Column) :
  map fst (setitem df k c)
  = if existsb (String.eqb k) (map fst df) then map fst df
    else (map fst df ++ [k])%list.
Proof.
  induction df as [|[k0 c0] df IH]; simpl; [reflexivity|].
  rewrite (String.eqb_sym k k0).
  destruct (String.eqb k0 k); simpl; [reflexivity|].
  rewrite IH. now destruct (existsb (String.eqb k) (map fst df)).
Qed.

End PipeShape.

Ltac run_step :=
  rewrite ?floats_setitem; name_eqb; cbv iota;
  rewrite ?floats_setitem_times by reflexivity;
  repeat match goal with
    | E : Era5.floats ?d ?k = Ok _ |- _ => rewrite E
    | E : Era5.shift _ _ _ _ = Ok _ |- _ => rewrite E
    end;
  unfold bind at 1; cbv beta iota.

Section PipeRuns.
Import Era5.
Local Open Scope string_scope.
Local Open Scope R_scope.

Variable junk : npfloat.

(** A frame with the eight columns runs through, to the frame [piped]. *)
Lemma transformation_pipe_runs (df : DataFrame) (l : list Z)
      (u v st dt at_ ghi tp pg pt : list npfloat) :
  getitem df "time" = Ok (Times false l) ->
  floats df "windSpeedEast" = Ok u ->
  floats df "windSpeedNorth" = Ok v ->
  floats df "soilTemperature" = Ok st ->
  floats df "dewAirTemperature" = Ok dt ->
  floats df "airTemperature" = Ok at_ ->
  floats df "GHI" = Ok ghi ->
  floats df "totalPrecipitation" = Ok tp ->
  shift junk ghi 1 NaN = Ok pg ->
  shift junk tp 1 NaN = Ok pt ->
  transformation_pipe junk df = Ok (piped df l u v st dt at_ ghi tp pg pt).
Proof.
  intros Htime Hu Hv Hst Hdt Hat Hghi Htp Hpg Hpt.
  unfold transformation_pipe, tz_localize_utc. rewrite Htime.
  unfold bind at 1 2; cbv beta iota.
  do 15 run_step. reflexivity.
Qed.

Lemma transformation_pipe_time (df df' : DataFrame) :
  transformation_pipe junk df = Ok df' ->
  exists l, getitem df "time" = Ok (Times false l).
Proof.
  unfold transformation_pipe, tz_localize_utc. intros H.
  destruct (getitem df "time") as [[[|] l|l]|]; simpl in H; try discriminate H.
  now exists l.
Qed.

(** Every successful run is of this form. *)
Lemma transformation_pipe_shape (df df' : DataFrame) :
  transformation_pipe junk df = Ok df' ->
  exists l u v st dt at_ ghi tp pg pt,
    getitem df "time" = Ok (Times false l) /\
    floats df "windSpeedEast" = Ok u /\
    floats df "windSpeedNorth" = Ok v /\
    floats df "soilTemperature" = Ok st /\
    floats df "dewAirTemperature" = Ok dt /\
    floats df "airTemperature" = Ok at_ /\
    floats df "GHI" = Ok ghi /\
    floats df "totalPrecipitation" = Ok tp /\
    shift junk ghi 1 NaN = Ok pg /\
    shift junk tp 1 NaN = Ok pt /\
    df' = piped df l u v st dt at_ ghi tp pg pt.
Proof.
  intros Hrun.
  destruct (transformation_pipe_time df df' Hrun) as [l Htime].
  destruct (transformation_pipe_inv junk df df' Hrun)
    as (u & v & st & dt & at_ & ghi & tp & pg & pt & Hu & Hv & Hst & Hdt & Hat
        & Hghi & Htp & Hpg & Hpt & _).
  exists l, u, v, st, dt, at_, ghi, tp, pg, pt.
  repeat (split; [assumption|]).
  pose proof (transformation_pipe_runs df l u v st dt at_ ghi tp pg pt
                Htime Hu Hv Hst Hdt Hat Hghi Htp Hpg Hpt) as Hrun'.
  congruence.
Qed.
End PipeRuns.

Ltac fail_step H :=
  rewrite ?floats_setitem in H; name_eqb; cbv iota in H;
  rewrite ?floats_setitem_times in H by reflexivity;
  repeat match goal with
    | E : Era5.floats ?d ?k = Ok _ |- _ => rewrite E in H
    | E : Era5.shift _ _ _ _ = Ok _ |- _ => rewrite E in H
    end;
  lazymatch type of H with
  | bind (Ok _) _ = Raise _ => unfold bind at 1 in H; cbv beta iota in H
  | bind ?m _ = Raise _ =>
      let E := fresh "E" in
      let x := fresh "col" in
      destruct m as [x|] eqn:E;
      [unfold bind at 1 in H; cbv beta iota in H
      | unfold bind at 1 in H; cbv beta iota in H; injection H as <-]
  end.

Section PipeOutcome.
Import Era5.
Local Open Scope string_scope.
Local Open Scope R_scope.

Lemma floats_getitem (df : DataFrame) (k : string) (v : list npfloat) :
  floats df k = Ok v <-> getitem df k = Ok (Floats v).
Proof.
  unfold floats, bind. destruct (getitem df k) as [[b l|w]|e]; split; congruence.
Qed.

Lemma floats_raise (df : DataFrame) (k : string) (e : exn) :
  floats df k = Raise e ->
  (e = KeyError k /\ ~ In k (map fst df)) \/
  (exists msg b l, e = TypeError msg /\ getitem df k = Ok (Times b l)).
Proof.
  unfold floats, bind. destruct (getitem df k) as [[b l|w]|e0] eqn:E.
  - intros [= <-]. right. eauto.
  - discriminate.
  - intros [= <-]. left. now apply getitem_raise.
Qed.

Lemma shift_one_ok (junk : npfloat) (w : list npfloat) :
  exists r, shift junk w 1 NaN = Ok r.
Proof. eexists. apply shift_forward. lia. Qed.

End PipeOutcome.

Section PipeProperties.
Import Era5.
Local Open Scope string_scope.
Local Open Scope R_scope.

(** What a run that raises has raised, step by step. *)
Lemma transformation_pipe_raise_cases (junk : npfloat) (df : DataFrame) (e : exn) :
  transformation_pipe junk df = Raise e ->
  (exists k, In k ("time" :: float_inputs) /\ e = KeyError k /\ ~ In k (map fst df)) \/
  (exists msg k b l, In k float_inputs /\ e = TypeError msg /\
                     getitem df k = Ok (Times b l)) \/
  (e = TypeError "Already tz-aware, use tz_convert to convert." /\
   exists l, getitem df "time" = Ok (Times true l)) \/
  (exists msg l, e = AttributeError msg /\ getitem df "time" = Ok (Floats l)).
Proof.
  intros H. unfold transformation_pipe in H.
  destruct (tz_localize_utc df "time") as [time|e0] eqn:Etime.
  - unfold bind at 1 in H; cbv beta iota in H.
    assert (Htime : exists b l, time = Times b l).
    { unfold tz_localize_utc in Etime.
      destruct (getitem df "time") as [[[|] l|l]|]; simpl in Etime;
        try discriminate Etime.
      injection Etime as <-. eauto. }
    destruct Htime as (b & l & ->).
    assert (Hcase : forall k e1,
               In k float_inputs -> floats df k = Raise e1 ->
               (exists k, In k ("time" :: float_inputs) /\ e1 = KeyError k /\
                          ~ In k (map fst df)) \/
               (exists msg k b l, In k float_inputs /\ e1 = TypeError msg /\
                                  getitem df k = Ok (Times b l)) \/
               (e1 = TypeError "Already tz-aware, use tz_convert to convert." /\
                exists l, getitem df "time" = Ok (Times true l)) \/
               (exists msg l, e1 = AttributeError msg /\
                              getitem df "time" = Ok (Floats l))).
    { intros k e1 Hk Hraise.
      destruct (floats_raise df k e1 Hraise) as [[-> Hnot]|(msg & b' & l' & -> & Hget)].
      - left. exists k. split; [now right | auto].
      - right. left. exists msg, k, b', l'. auto. }
    repeat first
      [ match goal with
        | E : floats df ?k = Raise _ |- _ =>
            apply (Hcase k _ ltac:(unfold float_inputs; cbn [In]; tauto) E)
        | E : shift junk ?w 1 NaN = Raise _ |- _ =>
            destruct (shift_one_ok junk w) as [r Hr]; congruence
        end
      | fail_step H ].
    discriminate H.
  - unfold bind at 1 in H. injection H as <-.
    unfold tz_localize_utc, bind in Etime.
    destruct (getitem df "time") as [[[|] l|l]|e1] eqn:Eget; try discriminate Etime.
    + injection Etime as <-. right. right. left. eauto.
    + injection Etime as <-. right. right. right. eauto.
    + injection Etime as <-. apply getitem_raise in Eget as [-> Hnot].
      left. exists "time". split; [now left | auto].
Qed.

(** X4. On a frame with a column time of naive datetimes and, as float
    columns, windSpeedEast, windSpeedNorth, soilTemperature,
    dewAirTemperature, airTemperature, GHI and totalPrecipitation,
    [transformation_pipe] returns a frame, whatever the numbers are (NaN,
    zero divisors and negative radicands included) and whatever other
    columns the frame has. Conversely a run returns only on a frame that
    has all eight of these columns. *)
Theorem transformation_pipe_returns (junk : npfloat) (df : DataFrame) :
  ((exists l, getitem df "time" = Ok (Times false l)) ->
   (forall k, In k float_inputs -> exists v, getitem df k = Ok (Floats v)) ->
   exists df', transformation_pipe junk df = Ok df') /\
  ((exists df', transformation_pipe junk df = Ok df') ->
   forall k, In k ("time" :: float_inputs) -> In k (map fst df)).
Proof.
  split.
  - intros [l Htime] Hcols.
    assert (Hfloats : forall k, In k float_inputs -> exists v, floats df k = Ok v).
    { intros k Hk. destruct (Hcols k Hk) as [v Hv]. exists v. now apply floats_getitem. }
    unfold float_inputs in Hfloats. cbn [In] in Hfloats.
    destruct (Hfloats "windSpeedEast") as [u Hu]; [tauto|].
    destruct (Hfloats "windSpeedNorth") as [v Hv]; [tauto|].
    destruct (Hfloats "soilTemperature") as [st Hst]; [tauto|].
    destruct (Hfloats "dewAirTemperature") as [dt Hdt]; [tauto|].
    destruct (Hfloats "airTemperature") as [at_ Hat]; [tauto|].
    destruct (Hfloats "GHI") as [ghi Hghi]; [tauto|].
    destruct (Hfloats "totalPrecipitation") as [tp Htp]; [tauto|].
    destruct (shift_one_ok junk ghi) as [pg Hpg].
    destruct (shift_one_ok junk tp) as [pt Hpt].
    eexists. now apply (transformation_pipe_runs junk df l u v st dt at_ ghi tp pg pt).
  - intros [df' Hrun].
    destruct (transformation_pipe_shape junk df df' Hrun)
      as (l & u & v & st & dt & at_ & ghi & tp & pg & pt & Htime & Hu & Hv & Hst
          & Hdt & Hat & Hghi & Htp & _).
    apply floats_getitem in Hu, Hv, Hst, Hdt, Hat, Hghi, Htp.
    apply getitem_In in Htime, Hu, Hv, Hst, Hdt, Hat, Hghi, Htp.
    unfold float_inputs. cbn [In].
    intros k Hk. repeat (destruct Hk as [<-|Hk]; [assumption|]). contradiction.
Qed.

Lemma transformation_pipe_returns_witness :
  (exists df', transformation_pipe NaN three_hours = Ok df') /\
  In "GHI" (map fst three_hours).
Proof.
  destruct (transformation_pipe_returns NaN three_hours) as [Hreturns Hneeds].
  assert (Hrun : exists df', transformation_pipe NaN three_hours = Ok df').
  { apply Hreturns.
    - eexists. reflexivity.
    - unfold float_inputs. cbn [In]. intros k Hk.
      repeat (destruct Hk as [<-|Hk]; [eexists; reflexivity|]). contradiction. }
  split; [exact Hrun|].
  apply (Hneeds Hrun). unfold float_inputs. cbn [In]. tauto.
Defined.

(** X5. On a frame whose column time, if it has one, holds datetimes, and
    whose columns among the seven float inputs, if it has them, hold
    floats, a run of [transformation_pipe] that raises has raised one of
    two exceptions: the KeyError of a column that it reads and that the
    frame does not have, or, time being tz-aware already, the TypeError of
    [tz_localize]. On such a frame nothing fails in [shift] or in the
    arithmetic. *)
Theorem transformation_pipe_raises (junk : npfloat) (df : DataFrame) (e : exn) :
  (forall c, getitem df "time" = Ok c -> exists b l, c = Times b l) ->
  (forall k c, In k float_inputs -> getitem df k = Ok c -> exists v, c = Floats v) ->
  transformation_pipe junk df = Raise e ->
  (exists k, In k ("time" :: float_inputs) /\ e = KeyError k /\ ~ In k (map fst df)) \/
  (e = TypeError "Already tz-aware, use tz_convert to convert." /\
   exists l, getitem df "time" = Ok (Times true l)).
Proof.
  intros Htime Hfloats Hraise.
  destruct (transformation_pipe_raise_cases junk df e Hraise)
    as [Hkey|[(msg & k & b & l & Hk & _ & Hget)|[Haware|(msg & l & _ & Hget)]]].
  - left. exact Hkey.
  - destruct (Hfloats k _ Hk Hget) as [v Hv]. discriminate Hv.
  - right. exact Haware.
  - destruct (Htime _ Hget) as (b & l' & Hc). discriminate Hc.
Qed.
End PipeProperties.

Section PipeProperties2.
Import Era5.
Local Open Scope string_scope.
Local Open Scope R_scope.

Lemma transformation_pipe_raises_witness :
  exists e,
    transformation_pipe NaN [("time", Times false [0%Z])] = Raise e /\
    e = KeyError "windSpeedEast".
Proof.
  exists (KeyError "windSpeedEast").
  destruct (transformation_pipe_raises NaN [("time", Times false [0%Z])]
                                       (KeyError "windSpeedEast"))
    as [(k & _ & _ & _)|[Hmsg _]].
  - intros c [= <-]. eauto.
  - intros k c Hk. unfold float_inputs in Hk. cbn [In] in Hk.
    repeat (destruct Hk as [<-|Hk]; [discriminate|]). contradiction.
  - reflexivity.
  - split; reflexivity.
  - discriminate Hmsg.
Defined.

Lemma setitem_In_names (df : DataFrame) (k k' : string) (c : Column) :
  In k' (map fst (setitem df k c)) <-> k' = k \/ In k' (map fst df).
Proof.
  rewrite setitem_names.
  destruct (existsb (String.eqb k) (map fst df)) eqn:E.
  - split; [tauto|]. intros [->|H]; [|exact H].
    apply existsb_exists in E as (x & Hx & Heq).
    apply String.eqb_eq in Heq. now subst.
  - rewrite in_app_iff. cbn [In]. intuition congruence.
Qed.

(** X6. [transformation_pipe] cannot be applied to its own result: the
    column time is tz-aware after the first run, and the second run raises
    the TypeError of [tz_localize]. *)
Theorem transformation_pipe_not_twice (junk junk' : npfloat) (df df' : DataFrame) :
  transformation_pipe junk df = Ok df' ->
  transformation_pipe junk' df'
  = Raise (TypeError "Already tz-aware, use tz_convert to convert.").
Proof.
  intros Hrun.
  destruct (transformation_pipe_shape junk df df' Hrun)
    as (l & u & v & st & dt & at_ & ghi & tp & pg & pt & _ & _ & _ & _ & _ & _ & _
        & _ & _ & _ & ->).
  unfold transformation_pipe, tz_localize_utc, piped.
  rewrite !getitem_setitem. name_eqb. cbv iota. reflexivity.
Qed.

Lemma transformation_pipe_not_twice_witness :
  exists df',
    transformation_pipe NaN three_hours = Ok df' /\
    transformation_pipe NaN df'
    = Raise (TypeError "Already tz-aware, use tz_convert to convert.").
Proof.
  destruct three_hours_runs as [df' Hrun]. exists df'.
  split; [exact Hrun|].
  exact (transformation_pipe_not_twice NaN NaN three_hours df' Hrun).
Defined.

(** X7. [transformation_pipe] leaves every column that it does not assign
    as it was (latitude, longitude, the wind components, albedo, ...), keeps
    the instants of time while making them tz-aware, and adds no column
    names but windSpeed, windDirection and relativeHumidity. *)
Theorem transformation_pipe_keeps_columns (junk : npfloat) (df df' : DataFrame) :
  transformation_pipe junk df = Ok df' ->
  (forall k, ~ In k assigned_columns -> getitem df' k = getitem df k) /\
  (exists l, getitem df "time" = Ok (Times false l) /\
             getitem df' "time" = Ok (Times true l)) /\
  (forall k, In k (map fst df') <->
             In k (map fst df) \/
             In k ["windSpeed"; "windDirection"; "relativeHumidity"]).
Proof.
  intros Hrun.
  destruct (transformation_pipe_shape junk df df' Hrun)
    as (l & u & v & st & dt & at_ & ghi & tp & pg & pt & Htime & Hu & Hv & Hst
        & Hdt & Hat & Hghi & Htp & _ & _ & ->).
  split; [|split].
  - intros k Hk. unfold piped. rewrite !getitem_setitem.
    unfold assigned_columns in Hk. cbn [In] in Hk.
    repeat match goal with
           | |- context [String.eqb ?a k] =>
               destruct (String.eqb_spec a k) as [Heq|_]; [exfalso; tauto|]
           end.
    reflexivity.
  - exists l. split; [exact Htime|].
    unfold piped. rewrite !getitem_setitem. name_eqb. reflexivity.
  - intros k. unfold piped. rewrite !setitem_In_names.
    apply floats_getitem in Hst, Hdt, Hat, Hghi, Htp.
    apply getitem_In in Htime, Hst, Hdt, Hat, Hghi, Htp.
    cbn [In]. split.
    + intros H. repeat (destruct H as [->|H]; [tauto|]). tauto.
    + intros [H|[<-|[<-|[<-|[]]]]]; tauto.
Qed.

Lemma transformation_pipe_keeps_columns_witness :
  exists df',
    transformation_pipe NaN three_hours = Ok df' /\
    getitem df' "latitude" = Ok (Floats [Fin 49.6; Fin 49.6; Fin 49.6]) /\
    getitem df' "windSpeedEast" = Ok (Floats [Fin (-1); Fin 3; Fin 0]).
Proof.
  destruct three_hours_runs as [df' Hrun]. exists df'.
  destruct (transformation_pipe_keeps_columns NaN three_hours df' Hrun) as (Hkeep & _ & _).
  split; [exact Hrun|].
  split; rewrite Hkeep; try reflexivity; unfold assigned_columns; cbn [In];
    intros H; repeat (destruct H as [H|H]; [discriminate H|]); exact H.
Defined.
End PipeProperties2.

Section PipeRanges.
Import Era5.
Local Open Scope string_scope.
Local Open Scope R_scope.



End PipeRanges.

(** ** query_from_grib: what it returns and how it fails *)

Section GribMore.
Import Era5.
Local Open Scope string_scope.

Variable Dataset : Type.
Variable open_datasets : string -> bool * result (list Dataset).
Variable frame_of_datasets : list Dataset -> result DataFrame.
Variable getrandbits : nat -> N.
Variable junk : npfloat.

Local Abbreviation load :=
  (load_from Dataset open_datasets frame_of_datasets getrandbits junk).

(** The frame of one file. *)
Local Abbreviation frame_of fn df' :=
  (exists dg df_, snd (open_datasets fn) = Ok dg /\
                  frame_of_datasets dg = Ok df_ /\
                  transformation_pipe junk df_ = Ok df').

Lemma load_from_frames (files : list string) :
  forall (i : nat) (frames : list DataFrame) (fs fs' : FileSystem)
         (out : list DataFrame),
    load i files frames fs = (fs', Ok out) ->
    exists new, out = (frames ++ new)%list /\
                Forall2 (fun fn df' => frame_of fn df') files new.
Proof.
  induction files as [|fn rest IH]; intros i frames fs fs' out Hrun.
  - simpl in Hrun. injection Hrun as _ <-. exists []. split; [now rewrite app_nil_r|].
    constructor.
  - simpl in Hrun.
    destruct (open_datasets fn) as [written [dg|e]] eqn:Eopen; [|discriminate Hrun].
    destruct (os_remove _ _) as [fs2|e]; [|discriminate Hrun].
    destruct (frame_of_datasets dg) as [df_|e] eqn:Eframe; [|discriminate Hrun].
    cbn [bind] in Hrun.
    destruct (transformation_pipe junk df_) as [df'|e] eqn:Epipe; [|discriminate Hrun].
    apply IH in Hrun as (new & -> & Hall).
    exists (df' :: new). split; [now rewrite <- app_assoc|].
    constructor; [|exact Hall].
    exists dg, df_. rewrite Eopen. auto.
Qed.

(** The loop over two lists one after the other. *)
Lemma load_from_app (done rest : list string) :
  forall (i : nat) (frames : list DataFrame) (fs : FileSystem),
    load i (done ++ rest) frames fs
    = match load i done frames fs with
      | (fs1, Ok out1) => load (i + List.length done) rest out1 fs1
      | (fs1, Raise e) => (fs1, Raise e)
      end.
Proof.
  induction done as [|fn done IH]; intros i frames fs.
  - simpl. now rewrite Nat.add_0_r.
  - simpl.
    destruct (open_datasets fn) as [written [dg|e]]; [|reflexivity].
    destruct (os_remove _ _) as [fs2|e]; [|reflexivity].
    destruct (bind (frame_of_datasets dg) (fun df_ => transformation_pipe junk df_))
      as [df'|e]; [|reflexivity].
    rewrite IH. now replace (S i + List.length done)%nat with (i + S (List.length done))%nat by lia.
Qed.

(** A loop that is left by an exception has added at most the index file of
    the file it was at, and has removed the index files of the files before
    it. *)
Lemma load_from_raises (files : list string) :
  forall (i : nat) (frames : list DataFrame) (fs fs' : FileSystem) (e : exn),
    load i files frames fs = (fs', Raise e) ->
    exists j fn,
      nth_error files j = Some fn /\
      forall q, In q fs' ->
                q = index_path fn (getrandbits (i + j)) \/
                (In q fs /\
                 forall j' fn', (j' < j)%nat -> nth_error files j' = Some fn' ->
                                q <> index_path fn' (getrandbits (i + j'))).
Proof.
  induction files as [|fn rest IH]; intros i frames fs fs' e Hrun.
  - simpl in Hrun. discriminate Hrun.
  - simpl in Hrun.
    set (idx := index_path fn (getrandbits i)) in *.
    assert (Hhere : forall fs1, (forall q, In q fs1 -> q = idx \/ In q fs) ->
                exists j fn0,
                  nth_error (fn :: rest) j = Some fn0 /\
                  forall q, In q fs1 ->
                            q = index_path fn0 (getrandbits (i + j)) \/
                            (In q fs /\
                             forall j' fn', (j' < j)%nat ->
                                            nth_error (fn :: rest) j' = Some fn' ->
                                            q <> index_path fn' (getrandbits (i + j')))).
    { intros fs1 Hfs1. exists 0%nat, fn. split; [reflexivity|].
      intros q Hq. rewrite Nat.add_0_r. fold idx.
      destruct (Hfs1 q Hq) as [->|Hin]; [now left|].
      right. split; [exact Hin|]. intros j' fn' Hlt. lia. }
    destruct (open_datasets fn) as [written [dg|e0]].
    + set (fs1 := if written then write_path fs idx else fs) in *.
      assert (Hfs1 : forall q, In q fs1 -> q = idx \/ In q fs).
      { intros q. subst fs1. destruct written; [|tauto]. now rewrite write_path_In. }
      destruct (os_remove fs1 idx) as [fs2|e0] eqn:Erm.
      * assert (Hfs2 : forall q, In q fs2 -> In q fs /\ q <> idx).
        { intros q Hq. apply (os_remove_In _ _ _ q Erm) in Hq as [Hq Hne].
          destruct (Hfs1 q Hq); [contradiction | auto]. }
        destruct (bind (frame_of_datasets dg) (fun df_ => transformation_pipe junk df_))
          as [df'|e0].
        -- apply IH in Hrun as (j & fn0 & Hnth & Hq).
           exists (S j), fn0. split; [exact Hnth|].
           intros q Hin. replace (i + S j)%nat with (S i + j)%nat by lia.
           destruct (Hq q Hin) as [->|[Hin2 Hearlier]]; [now left|].
           right. destruct (Hfs2 q Hin2) as [Hfs Hne]. split; [exact Hfs|].
           intros [|j'] fn' Hlt Hnth'; simpl in Hnth'.
           ++ injection Hnth' as <-. now rewrite Nat.add_0_r.
           ++ replace (i + S j')%nat with (S i + j')%nat by lia.
              apply Hearlier; [lia | exact Hnth'].
        -- injection Hrun as <- _. apply Hhere. intros q Hq.
           right. now apply Hfs2.
      * injection Hrun as <- _. now apply Hhere.
    + injection Hrun as <- _. apply Hhere.
      intros q. destruct written; [|tauto]. now rewrite write_path_In.
Qed.
End GribMore.

Section GribProperties.
Import Era5.
Local Open Scope string_scope.

(** X10. A run of [query_from_grib] that returns has one frame for every
    GRIB file, in the order of the files: the frame of a file is what
    [transformation_pipe] makes of the cleaned and merged datasets of that
    file. *)
Theorem query_from_grib_frames
        (Dataset : Type) (open_datasets : string -> bool * result (list Dataset))
        (frame_of_datasets : list Dataset -> result DataFrame)
        (getrandbits : nat -> N) (junk : npfloat)
        (list_grib_files : list string) (fs fs' : FileSystem) (out : list DataFrame) :
  query_from_grib Dataset open_datasets frame_of_datasets getrandbits junk
                  list_grib_files fs = (fs', Ok out) ->
  List.length out = List.length list_grib_files /\
  Forall2 (fun fn df' =>
             exists dg df_, snd (open_datasets fn) = Ok dg /\
                            frame_of_datasets dg = Ok df_ /\
                            transformation_pipe junk df_ = Ok df')
          list_grib_files out.
Proof.
  unfold query_from_grib. intros Hrun.
  apply load_from_frames in Hrun as (new & -> & Hall). cbn [app].
  split; [symmetry; eapply Forall2_length; exact Hall | exact Hall].
Qed.

Lemma query_from_grib_frames_witness :
  exists fs' out,
    query_from_grib unit (fun _ => (true, Ok [tt])) (fun _ => Ok three_hours)
                    (fun _ => 7%N) NaN
                    ["data/201301_50_18_49_19.grib"; "data/201302_50_18_49_19.grib"]
                    [] = (fs', Ok out) /\
    List.length out = 2%nat.
Proof.
  eexists. eexists. split; [reflexivity|].
  exact (proj1 (query_from_grib_frames
                  unit (fun _ => (true, Ok [tt])) (fun _ => Ok three_hours)
                  (fun _ => 7%N) NaN
                  ["data/201301_50_18_49_19.grib"; "data/201302_50_18_49_19.grib"]
                  [] _ _ eq_refl)).
Defined.

(** X11. When [cfgrib.open_datasets] returns for a file without having
    written the index file it was given, and no such file is there,
    [os.remove] raises FileNotFoundError: the files before it have been
    read, their frames are lost, and the run ends with this exception. *)
Theorem query_from_grib_missing_index
        (Dataset : Type) (open_datasets : string -> bool * result (list Dataset))
        (frame_of_datasets : list Dataset -> result DataFrame)
        (getrandbits : nat -> N) (junk : npfloat)
        (done rest : list string) (fn : string) (dg : list Dataset)
        (fs fs1 : FileSystem) (out1 : list DataFrame) :
  query_from_grib Dataset open_datasets frame_of_datasets getrandbits junk done fs
  = (fs1, Ok out1) ->
  open_datasets fn = (false, Ok dg) ->
  ~ In (index_path fn (getrandbits (List.length done))) fs ->
  query_from_grib Dataset open_datasets frame_of_datasets getrandbits junk
                  (done ++ fn :: rest) fs
  = (fs1, Raise (FileNotFoundError (index_path fn (getrandbits (List.length done))))).
Proof.
  unfold query_from_grib. intros Hdone Hopen Hnot.
  rewrite load_from_app, Hdone. cbn [load_from Nat.add]. rewrite Hopen.
  unfold os_remove.
  destruct (exists_path fs1 (index_path fn (getrandbits (List.length done)))) eqn:E;
    [|reflexivity].
  apply exists_path_In in E.
  apply (load_from_returns _ _ _ _ _ _ _ _ _ _ _ Hdone) in E as [E _]. contradiction.
Qed.

Lemma query_from_grib_missing_index_witness :
  query_from_grib unit
                  (fun fn => if String.eqb fn "a.grib" then (true, Ok [tt])
                             else (false, Ok [tt]))
                  (fun _ => Ok three_hours) (fun _ => 7%N) NaN
                  (["a.grib"] ++ "b.grib" :: ["c.grib"]) ["a.grib"; "b.grib"; "c.grib"]
  = (["a.grib"; "b.grib"; "c.grib"], Raise (FileNotFoundError "b.grib.7.idx")).
Proof.
  refine (query_from_grib_missing_index
            unit (fun fn => if String.eqb fn "a.grib" then (true, Ok [tt])
                            else (false, Ok [tt]))
            (fun _ => Ok three_hours) (fun _ => 7%N) NaN
            ["a.grib"] ["c.grib"] "b.grib" [tt]
            ["a.grib"; "b.grib"; "c.grib"] ["a.grib"; "b.grib"; "c.grib"] _ _ _ _).
  - reflexivity.
  - reflexivity.
  - cbn. intros [H|[H|[H|[]]]]; discriminate H.
Defined.

(** X12. When [query_from_grib] is left by an exception, the directory holds
    at most one file that was not there before, the index file of the GRIB
    file at which the run stopped; the index files of the files before it
    are gone. *)
Theorem query_from_grib_leaves_one_index
        (Dataset : Type) (open_datasets : string -> bool * result (list Dataset))
        (frame_of_datasets : list Dataset -> result DataFrame)
        (getrandbits : nat -> N) (junk : npfloat)
        (list_grib_files : list string) (fs fs' : FileSystem) (e : exn) :
  query_from_grib Dataset open_datasets frame_of_datasets getrandbits junk
                  list_grib_files fs = (fs', Raise e) ->
  exists j fn,
    nth_error list_grib_files j = Some fn /\
    forall q, In q fs' ->
              q = index_path fn (getrandbits j) \/
              (In q fs /\
               forall j' fn', (j' < j)%nat -> nth_error list_grib_files j' = Some fn' ->
                              q <> index_path fn' (getrandbits j')).
Proof.
  unfold query_from_grib. intros Hrun.
  exact (load_from_raises Dataset open_datasets frame_of_datasets getrandbits junk
                          list_grib_files 0 [] fs fs' e Hrun).
Qed.

Lemma query_from_grib_leaves_one_index_witness :
  exists fs' e j fn,
    query_from_grib unit
                    (fun fn => if String.eqb fn "a.grib" then (true, Ok [tt])
                               else (true, Raise (ValueError "unreadable GRIB message")))
                    (fun _ => Ok three_hours) (fun _ => 7%N) NaN
                    ["a.grib"; "b.grib"] ["a.grib"; "b.grib"] = (fs', Raise e) /\
    nth_error ["a.grib"; "b.grib"] j = Some fn /\
    forall q, In q fs' -> q = index_path fn 7%N \/ In q ["a.grib"; "b.grib"].
Proof.
  eexists. eexists.
  destruct (query_from_grib_leaves_one_index
              unit
              (fun fn => if String.eqb fn "a.grib" then (true, Ok [tt])
                         else (true, Raise (ValueError "unreadable GRIB message")))
              (fun _ => Ok three_hours) (fun _ => 7%N) NaN
              ["a.grib"; "b.grib"] ["a.grib"; "b.grib"] _ _ eq_refl)
    as (j & fn & Hnth & Hq).
  exists j, fn. split; [reflexivity|]. split; [exact Hnth|].
  intros q Hin. destruct (Hq q Hin) as [->|[H _]]; [now left | now right].
Defined.
End GribProperties.

(** ** MeteoGalicia: the daily fetch, further *)

Section DailyFetchMore.
Import MeteoGalicia.
Local Open Scope string_scope.
Local Open Scope Z_scope.

Lemma all_some_length {A : Type} (l : list (option A)) (r : list A) :
  all_some l = Some r -> List.length r = List.length l.
Proof.
  revert r; induction l as [|[a|] l IH]; intros r; simpl.
  - intros [= <-]. reflexivity.
  - destruct (all_some l) as [r'|]; [|discriminate]. simpl.
    intros [= <-]. simpl. f_equal. now apply IH.
  - discriminate.
Qed.

Lemma map2_solar_rows (stamps : list Z) (cells : list value) :
  List.length stamps = List.length cells -> cells <> [] ->
  map2 solar_row stamps cells <> [] /\
  Forall (fun r => latitude r = None /\ longitude r = None /\
                   forecasting_timestamp r = None)
         (map2 solar_row stamps cells).
Proof.
  intros Hlen Hne. split.
  - destruct stamps, cells; simpl in *; congruence.
  - clear Hne. revert cells Hlen.
    induction stamps as [|t stamps IH]; intros [|g cells] Hlen; simpl; constructor.
    + cbn. auto.
    + apply IH. simpl in Hlen. lia.
Qed.

(** The rows that an answer turns into are never none. *)
Lemma read_solar_data_rows (resolution : Z * Z) (r : Response) (solar_data : list Row) :
  read_solar_data resolution r = Ok solar_data ->
  solar_data <> [] /\
  Forall (fun r => latitude r = None /\ longitude r = None /\
                   forecasting_timestamp r = None) solar_data.
Proof.
  unfold read_solar_data. destruct r as [e|header body]; [discriminate|].
  destruct (Nat.eqb_spec (List.length body) 0) as [|Hlen]; [discriminate|].
  match goal with
  | |- context [if negb ?c then _ else _] => destruct c; cbn [negb]; [|discriminate]
  end.
  destruct (all_some (map line_ts body)) as [stamps|] eqn:Estamps; [|discriminate].
  match goal with
  | |- context [if negb ?c then _ else _] => destruct c; cbn [negb]; [|discriminate]
  end.
  intros [= <-]. apply map2_solar_rows.
  - apply all_some_length in Estamps. now rewrite Estamps, !length_map.
  - destruct body; [contradiction | discriminate].
Qed.

Variable env : Env.
Variables latitude_ longitude_ : Q.
Variable day : Datetime.
Variable local_tz : TimeZone.

(** The two endings of the daily fetch, with the count of requests and of
    logged errors. *)
Lemma day_frame_shape (w : World) :
  let run := _get_historic_data_day env latitude_ longitude_ day local_tz w in
  (fst run = empty_frame /\
   List.length (log (snd run)) = (List.length (log w) + 5)%nat /\
   List.length (requests (snd run)) = (List.length (requests w) + 5)%nat) \/
  (columns (fst run) = ["ts"; "GHI"] /\
   rows (fst run) <> [] /\
   Forall (fun r => latitude r = None /\ longitude r = None /\
                    forecasting_timestamp r = None) (rows (fst run)) /\
   List.length (requests (snd run))
   = (List.length (requests w)
      + S (List.length (log (snd run)) - List.length (log w)))%nat).
Proof.
  intros run. subst run. unfold _get_historic_data_day.
  destruct (try_resolutions_rounds env latitude_ longitude_ day local_tz resolutions w)
    as (n & errors & Hn & Hreq & Hlog & Herr & Hend).
  rewrite Hreq, Hlog, !length_app, length_map, length_seq.
  destruct Hend as [(solar_data & -> & Hok & ->)|(-> & Hlen & ->)].
  - right. cbn [columns rows].
    destruct (read_solar_data_rows _ _ _ Hok) as [Hne Hall].
    split; [reflexivity|]. split; [exact Hne|]. split; [exact Hall|]. lia.
  - left. change (List.length resolutions) with 5%nat in *.
    split; [reflexivity|]. split; lia.
Qed.

(** The URLs of an archive day. *)
Lemma archive_urls (w : World) :
  (forall n, 14 < days_between (astimezone (utcnow env n) local_tz)
                               (astimezone day local_tz)) ->
  exists new,
    requests (snd (_get_historic_data_day env latitude_ longitude_ day local_tz w))
    = (requests w ++ new)%list /\
    forall r, In r new ->
              r = Historical 2 day longitude_ latitude_ \/
              r = Historical 1 day longitude_ latitude_.
Proof.
  intros Hold. unfold _get_historic_data_day.
  destruct (try_resolutions_rounds env latitude_ longitude_ day local_tz resolutions w)
    as (n & errors & Hn & Hreq & _).
  eexists. split; [exact Hreq|].
  intros r Hin. apply in_map_iff in Hin as (j & <- & Hj).
  apply in_seq in Hj. change (List.length resolutions) with 5%nat in Hn.
  unfold attempt, url_mg. cbn [fst].
  replace (_ <=? 14) with false by (symmetry; apply Z.leb_gt; apply Hold).
  destruct j as [|[|[|[|[|j]]]]]; cbn; auto; lia.
Qed.
End DailyFetchMore.

Section DeadProvider.
Import MeteoGalicia.
Local Open Scope string_scope.
Local Open Scope Z_scope.

Variable env : Env.
Variables latitude_ longitude_ : Q.
Variable local_tz : TimeZone.
Hypothesis Hdead :
  forall n r resolution, exists e, read_solar_data resolution (http_get env n r) = Raise e.

Lemma try_resolutions_dead (day : Datetime) (todo : list (Z * Z)) :
  forall w, fst (try_resolutions env latitude_ longitude_ day local_tz todo w) = empty_frame.
Proof.
  induction todo as [|resolution rest IH]; intros w; cbn [try_resolutions].
  - reflexivity.
  - match goal with
    | |- context [read_solar_data resolution (http_get env ?n ?r)] =>
        destruct (Hdead n r resolution) as [e ->]
    end.
    apply IH.
Qed.

Lemma download_days_dead (days : list Datetime) :
  forall w,
    fst (download_days env latitude_ longitude_ local_tz days empty_frame w) = empty_frame.
Proof.
  induction days as [|day rest IH]; intros w; cbn [download_days].
  - reflexivity.
  - pose proof (try_resolutions_dead day resolutions w) as Hday.
    unfold _get_historic_data_day.
    destruct (try_resolutions env latitude_ longitude_ day local_tz resolutions w)
      as [daily_data w1].
    cbn [fst] in Hday. subst daily_data. apply IH.
Qed.

Lemma download_gap_dead (gap : Datetime * Datetime) (w : World) :
  fst (download_gap env latitude_ longitude_ local_tz gap w) = Raise (KeyError "ts").
Proof.
  unfold download_gap. cbn [gap_bounds].
  match goal with
  | |- context [download_days _ _ _ _ ?days empty_frame w] =>
      pose proof (download_days_dead days w) as Hdays;
      destruct (download_days env latitude_ longitude_ local_tz days empty_frame w)
        as [data_period w1]
  end.
  cbn [fst] in Hdays. subst data_period. reflexivity.
Qed.

Lemma historical_dead (gaps : list (Datetime * Datetime)) (w : World) :
  fst (_get_historical_data_source env latitude_ longitude_ gaps local_tz w)
  = Raise (KeyError "ts").
Proof.
  unfold _get_historical_data_source.
  destruct gaps as [|gap rest]; cbn [download_gaps]; [reflexivity|].
  pose proof (download_gap_dead gap w) as Hgap.
  destruct (download_gap env latitude_ longitude_ local_tz gap w) as [[f|e] w1];
    cbn [fst] in Hgap; [discriminate Hgap|].
  injection Hgap as ->. reflexivity.
Qed.
End DeadProvider.

Section DailyFetchProperties.
Import MeteoGalicia.
Local Open Scope string_scope.
Local Open Scope Z_scope.

(** X13. For a day that lies more than 14 days back, every request of
    [_get_historic_data_day] goes to the archive, whose URL does not contain
    the kilometres of the resolution: the up to five requests are made of
    two URLs only, the one of domain d02 (rounds 1, 2 and 4) and the one of
    domain d01 (rounds 3 and 5). *)
Theorem archive_day_two_urls
        (env : Env) (latitude_ longitude_ : Q) (day : Datetime)
        (local_tz : TimeZone) (w : World) :
  (forall n, 14 < days_between (astimezone (utcnow env n) local_tz)
                               (astimezone day local_tz)) ->
  exists new,
    requests (snd (_get_historic_data_day env latitude_ longitude_ day local_tz w))
    = (requests w ++ new)%list /\
    forall r, In r new ->
              r = Historical 2 day longitude_ latitude_ \/
              r = Historical 1 day longitude_ latitude_.
Proof. apply archive_urls. Qed.

Lemma archive_day_two_urls_witness :
  exists new,
    requests (snd (_get_historic_data_day sample_env (4129 # 100) (219 # 100)
                                          (at_second 1690840800) summer_time fresh))
    = new /\
    List.length new = 5%nat /\
    forall r, In r new ->
              r = Historical 2 (at_second 1690840800) (219 # 100) (4129 # 100) \/
              r = Historical 1 (at_second 1690840800) (219 # 100) (4129 # 100).
Proof.
  destruct (archive_day_two_urls sample_env (4129 # 100) (219 # 100)
                                 (at_second 1690840800) summer_time fresh)
    as (new & Hreq & Hall); [intros n; vm_compute; reflexivity|].
  exists new. split; [exact Hreq|]. split; [|exact Hall].
  cbn [requests fresh app] in Hreq. rewrite <- Hreq. vm_compute. reflexivity.
Defined.

(** X14. [_get_historic_data_day] ends in one of two ways. Either all five
    rounds failed: it returns the frame without columns, having sent five
    requests and logged five errors. Or a round gave rows: the frame has the
    columns ts and GHI and at least one row, never columns without rows, and
    one request more was sent than errors were logged. *)
Theorem daily_fetch_two_endings
        (env : Env) (latitude_ longitude_ : Q) (day : Datetime)
        (local_tz : TimeZone) (w : World) :
  let run := _get_historic_data_day env latitude_ longitude_ day local_tz w in
  (fst run = empty_frame /\
   List.length (log (snd run)) = (List.length (log w) + 5)%nat /\
   List.length (requests (snd run)) = (List.length (requests w) + 5)%nat) \/
  (columns (fst run) = ["ts"; "GHI"] /\
   rows (fst run) <> [] /\
   Forall (fun r => latitude r = None /\ longitude r = None /\
                    forecasting_timestamp r = None) (rows (fst run)) /\
   List.length (requests (snd run))
   = (List.length (requests w)
      + S (List.length (log (snd run)) - List.length (log w)))%nat).
Proof. apply day_frame_shape. Qed.

(** X15. [_collect_forecasting] sends no request of its own. When the daily
    fetch comes back without data it does not return an empty table: the
    query on the column timestamp, which the empty frame does not have,
    raises. Otherwise it returns a table with the columns timestamp, GHI,
    latitude, longitude, forecasting_timestamp, in this order. *)
Theorem forecast_needs_data
        (env : Env) (latitude_ longitude_ : Q) (now : Datetime)
        (local_tz : TimeZone) (w : World) :
  let day_run := _get_historic_data_day env latitude_ longitude_ now local_tz w in
  let run := _collect_forecasting env latitude_ longitude_ now local_tz w in
  snd run = snd day_run /\
  (fst day_run = empty_frame ->
   fst run = Raise (UndefinedVariableError "timestamp")) /\
  (fst day_run <> empty_frame ->
   exists frame,
     fst run = Ok frame /\
     columns frame
     = ["timestamp"; "GHI"; "latitude"; "longitude"; "forecasting_timestamp"]).
Proof.
  intros day_run run. subst day_run run. unfold _collect_forecasting.
  pose proof (day_frame_shape env latitude_ longitude_ now local_tz w) as Hshape.
  cbv zeta in Hshape.
  destruct (_get_historic_data_day env latitude_ longitude_ now local_tz w)
    as [forecasted_data w1].
  cbn [fst snd] in *. split; [reflexivity|]. split.
  - intros ->. reflexivity.
  - intros Hne. destruct Hshape as [[Hempty _]|(Hcols & _)]; [contradiction|].
    destruct forecasted_data as [cols found]. cbn [columns] in Hcols. subst cols.
    eexists. split; reflexivity.
Qed.

(** X16. With a provider that gives no rows for any request,
    [_get_historical_data_source] does not return an empty table: for every
    list of gaps, the empty list too, it raises KeyError 'ts', from sorting a
    frame that has no column ts. *)
Theorem historical_needs_data
        (env : Env) (latitude_ longitude_ : Q) (gaps : list (Datetime * Datetime))
        (local_tz : TimeZone) (w : World) :
  (forall n r resolution,
      exists e, read_solar_data resolution (http_get env n r) = Raise e) ->
  fst (_get_historical_data_source env latitude_ longitude_ gaps local_tz w)
  = Raise (KeyError "ts").
Proof. intros Hdead. now apply historical_dead. Qed.

Lemma historical_needs_data_witness :
  fst (_get_historical_data_source
         {| utcnow := fun _ => at_second 1695191400;
            http_get := fun _ _ => Failure (ProviderError "HTTP 503");
            raster_get := fun _ _ => Raise (ProviderError "HTTP 503") |}
         (4129 # 100) (219 # 100)
         [(at_second 1694851200, at_second 1694869200)] summer_time fresh)
  = Raise (KeyError "ts").
Proof.
  apply historical_needs_data.
  intros n r resolution. exists (ProviderError "HTTP 503"). reflexivity.
Defined.
End DailyFetchProperties.

(** ** MeteoGalicia: the days of a gap *)

Section GapDays.
Import MeteoGalicia.
Local Open Scope string_scope.
Local Open Scope Z_scope.

(** The days of a gap, counted from the day of its first end. *)
Lemma gap_days_closed_form (local_tz : TimeZone) (gap : Datetime * Datetime) :
  let d1 := date (fst gap) in
  let d2 := date (snd gap) in
  let early := if -3600 <? local_tz then 1 else 0 in
  gap_days local_tz gap
  = map (fun k => localize local_tz (d1 - early + Z.of_nat k) 0)
        (seq 0 (Z.to_nat (d2 - d1 + early + 1))).
Proof.
  intros d1 d2 early.
  unfold gap_days. cbn [gap_bounds fst snd]. fold d1 d2.
  assert (Hdate : date (localize local_tz d1 0) = d1).
  { unfold date, localize. cbn [instant zone].
    replace (d1 * day_us + 0 * hour_us - local_tz * second_us + local_tz * second_us)
      with (d1 * day_us) by ring.
    apply Z.div_mul. unfold day_us, hour_us, second_us. lia. }
  rewrite Hdate.
  assert (Hstart :
            (if instant (localize local_tz d1 0)
                <? instant (astimezone (localize UTC d1 1) local_tz)
             then plus_us (localize local_tz d1 0) (- day_us)
             else localize local_tz d1 0)
            = localize local_tz (d1 - early) 0).
  { unfold localize, astimezone, plus_us, UTC, early. cbn [instant zone].
    destruct (Z.ltb_spec (-3600) local_tz) as [Heast|Hwest].
    - replace (_ <? _) with true
        by (symmetry; apply Z.ltb_lt; unfold day_us, hour_us, second_us; lia).
      f_equal. ring.
    - replace (_ <? _) with false
        by (symmetry; apply Z.ltb_ge; unfold day_us, hour_us, second_us; lia).
      f_equal. ring. }
  rewrite Hstart. unfold date_range.
  assert (Hspan : instant (localize local_tz d2 0) - instant (localize local_tz (d1 - early) 0)
                  = (d2 - d1 + early) * day_us)
    by (unfold localize; cbn [instant]; ring).
  assert (Hday : 0 < day_us) by (unfold day_us, hour_us, second_us; lia).
  destruct (Z.ltb_spec (instant (localize local_tz d2 0))
                       (instant (localize local_tz (d1 - early) 0))) as [Hlt|Hge].
  - replace (Z.to_nat (d2 - d1 + early + 1)) with 0%nat by nia. reflexivity.
  - rewrite Hspan, Z.div_mul by lia.
    replace (Z.to_nat (d2 - d1 + early + 1)) with (S (Z.to_nat (d2 - d1 + early))) by nia.
    apply map_ext. intros k. unfold plus_us, localize. cbn [instant zone].
    f_equal. ring.
Qed.

(** The requests of one day: at least one, and all for that day. *)
Lemma day_requests (env : Env) (latitude_ longitude_ : Q) (day : Datetime)
      (local_tz : TimeZone) (w : World) :
  exists group,
    requests (snd (_get_historic_data_day env latitude_ longitude_ day local_tz w))
    = (requests w ++ group)%list /\
    group <> [] /\
    Forall (fun r => request_day r = day) group.
Proof.
  destruct (try_resolutions_rounds env latitude_ longitude_ day local_tz resolutions w)
    as (n & errors & Hn & Hreq & _ & _ & Hend).
  unfold _get_historic_data_day. eexists. split; [exact Hreq|]. split.
  - assert (Hpos : (1 <= n)%nat).
    { destruct Hend as [(rows & -> & _)|(-> & _)]; [lia|].
      change (List.length resolutions) with 5%nat. lia. }
    destruct n as [|n]; [lia|]. discriminate.
  - apply Forall_map, Forall_forall. intros j _.
    unfold attempt, url_mg. cbn [fst].
    now destruct (_ <=? _).
Qed.

Lemma download_days_requests (env : Env) (latitude_ longitude_ : Q)
      (local_tz : TimeZone) (days : list Datetime) :
  forall data_period w,
    exists groups,
      requests (snd (download_days env latitude_ longitude_ local_tz days data_period w))
      = (requests w ++ List.concat groups)%list /\
      Forall2 (fun day group =>
                 group <> [] /\ Forall (fun r => request_day r = day) group)
              days groups.
Proof.
  induction days as [|day rest IH]; intros data_period w; cbn [download_days].
  - exists []. cbn [List.concat]. rewrite app_nil_r. split; [reflexivity | constructor].
  - destruct (day_requests env latitude_ longitude_ day local_tz w)
      as (group & Hreq & Hne & Hall).
    destruct (_get_historic_data_day env latitude_ longitude_ day local_tz w)
      as [daily_data w1].
    cbn [snd] in Hreq.
    destruct (IH (MeteoGalicia.concat data_period daily_data) w1) as (groups & Hrest & Hgroups).
    exists (group :: groups). split.
    + rewrite Hrest, Hreq. cbn [List.concat]. now rewrite app_assoc.
    + constructor; [split; assumption | exact Hgroups].
Qed.

(** X17. For a zone with a fixed offset from UTC, which is what a zone is
    in this model (a zone with daylight saving time is outside it), and a
    gap whose two ends have the dates d1 and d2: the requests that
    [_get_historical_data_source] sends for the gap are, day after day,
    those for the local midnights of d1, ..., d2, at least one request for
    each of them, and in every zone east of UTC-1 those for the day before
    d1 come first, because the files of MeteoGalicia begin at 01:00 UTC.
    When d2 lies before the first of these days no request is sent. *)
Theorem gap_days_start_early
        (env : Env) (latitude_ longitude_ : Q) (local_tz : TimeZone)
        (gap : Datetime * Datetime) (w : World) :
  let d1 := date (fst gap) in
  let d2 := date (snd gap) in
  let early := if -3600 <? local_tz then 1 else 0 in
  let days := map (fun k => localize local_tz (d1 - early + Z.of_nat k) 0)
                  (seq 0 (Z.to_nat (d2 - d1 + early + 1))) in
  exists groups : list (list Request),
    requests (snd (download_gap env latitude_ longitude_ local_tz gap w))
    = (requests w ++ List.concat groups)%list /\
    Forall2 (fun day group =>
               group <> [] /\ Forall (fun r => request_day r = day) group)
            days groups.
Proof.
  intros d1 d2 early days.
  pose proof (gap_days_closed_form local_tz gap) as Hdays. cbv zeta in Hdays.
  fold d1 d2 early days in Hdays.
  destruct (download_days_requests env latitude_ longitude_ local_tz
                                   (gap_days local_tz gap) empty_frame w)
    as (groups & Hreq & Hgroups).
  exists groups. rewrite <- Hdays. split; [|exact Hgroups].
  rewrite <- Hreq. unfold download_gap, gap_days, gap_bounds.
  cbv beta iota zeta.
  destruct (download_days _ _ _ _ _ _ _) as [data_period w0]. reflexivity.
Qed.

Lemma gap_days_start_early_witness :
  exists groups : list (list Request),
    requests (snd (download_gap sample_env (4129 # 100) (219 # 100) summer_time
                                (at_second 1694851200, at_second 1694869200) fresh))
    = List.concat groups /\
    List.length groups = 2%nat /\
    Forall2 (fun day group =>
               group <> [] /\ Forall (fun r => request_day r = day) group)
            [at_second 1694728800; at_second 1694815200] groups.
Proof.
  destruct (gap_days_start_early sample_env (4129 # 100) (219 # 100) summer_time
                                 (at_second 1694851200, at_second 1694869200) fresh)
    as (groups & Hreq & Hgroups).
  exists groups. split; [exact Hreq|].
  split; [|exact Hgroups].
  apply Forall2_length in Hgroups. now rewrite <- Hgroups.
Defined.
End GapDays.

(** ** Insertion sort: the same elements, in order *)

Section SortOrder.
Context {A : Type}.
Variable leb : A -> A -> bool.

Lemma insert_sorted_perm (x : A) (l : list A) :
  Permutation (insert_sorted leb x l) (x :: l).
Proof.
  induction l as [|y l IH]; simpl; [reflexivity|].
  destruct (leb x y); [reflexivity|].
  rewrite IH. apply perm_swap.
Qed.

Lemma sort_with_perm (l : list A) : Permutation (sort_with leb l) l.
Proof.
  induction l as [|x l IH]; simpl; [reflexivity|].
  rewrite insert_sorted_perm. now constructor.
Qed.

Hypothesis leb_total : forall a b, leb a b = false -> leb b a = true.
Hypothesis leb_trans : forall a b c, leb a b = true -> leb b c = true -> leb a c = true.

Lemma insert_sorted_sorted (x : A) (l : list A) :
  StronglySorted (fun a b => leb a b = true) l ->
  StronglySorted (fun a b => leb a b = true) (insert_sorted leb x l).
Proof.
  induction 1 as [|y l Hs IH Hall]; simpl.
  - constructor; constructor.
  - destruct (leb x y) eqn:E.
    + constructor; [now constructor|].
      constructor; [exact E|].
      eapply Forall_impl; [|exact Hall]. intros z Hz. cbn in Hz. eauto.
    + constructor; [exact IH|].
      apply Forall_forall. intros z Hz.
      apply (Permutation_in _ (insert_sorted_perm x l)) in Hz as [<-|Hz].
      * now apply leb_total.
      * rewrite Forall_forall in Hall. now apply Hall.
Qed.

Lemma sort_with_sorted (l : list A) :
  StronglySorted (fun a b => leb a b = true) (sort_with leb l).
Proof.
  induction l as [|x l IH]; simpl; [constructor|].
  now apply insert_sorted_sorted.
Qed.
End SortOrder.

(** ** MeteoGalicia: the order of the raster keys *)

Section RasterOrder.
Import MeteoGalicia.
Local Open Scope Z_scope.

Lemma string_compare_trans (a b c : string) :
  String.compare a b = Lt -> String.compare b c = Lt -> String.compare a c = Lt.
Proof.
  intros Hab Hbc.
  apply OrderedTypeEx.String_as_OT.cmp_lt.
  eapply OrderedTypeEx.String_as_OT.lt_trans;
    apply OrderedTypeEx.String_as_OT.cmp_lt; eassumption.
Qed.

(** One step of a lexicographic comparison. *)
Lemma then_compare_trans {T : Type} (cmp : T -> T -> comparison) (x y z : T)
      (r1 r2 r3 : comparison) :
  (forall a b, cmp a b = Eq -> a = b) ->
  (forall a, cmp a a = Eq) ->
  (forall a b c, cmp a b = Lt -> cmp b c = Lt -> cmp a c = Lt) ->
  then_compare (cmp x y) r1 = Lt ->
  then_compare (cmp y z) r2 = Lt ->
  (r1 = Lt -> r2 = Lt -> r3 = Lt) ->
  then_compare (cmp x z) r3 = Lt.
Proof.
  intros Heq Hrefl Htrans H1 H2 Hrest. unfold then_compare in *.
  destruct (cmp x y) eqn:Exy; try discriminate;
    destruct (cmp y z) eqn:Eyz; try discriminate.
  - apply Heq in Exy, Eyz. subst. rewrite Hrefl. auto.
  - apply Heq in Exy. subst. now rewrite Eyz.
  - apply Heq in Eyz. subst. now rewrite Exy.
  - now rewrite (Htrans _ _ _ Exy Eyz).
Qed.

Lemma key_compare_trans (a b c : RasterKey) :
  key_compare a b = Lt -> key_compare b c = Lt -> key_compare a c = Lt.
Proof.
  destruct a as [[[f t] la] lo], b as [[[f' t'] la'] lo'], c as [[[f'' t''] la''] lo''].
  unfold key_compare. intros H1 H2.
  assert (Hz_eq : forall a b, (a ?= b) = Eq -> a = b) by (intros; now apply Z.compare_eq).
  assert (Hz_trans : forall a b c, (a ?= b) = Lt -> (b ?= c) = Lt -> (a ?= c) = Lt)
    by (intros a0 b0 c0; rewrite !Z.compare_lt_iff; lia).
  assert (Hs_eq : forall a b, String.compare a b = Eq -> a = b)
    by (intros; now apply String.compare_eq_iff).
  apply (then_compare_trans Z.compare f f' f'' _ _ _ Hz_eq Z.compare_refl Hz_trans H1 H2).
  intros H1' H2'.
  apply (then_compare_trans Z.compare t t' t'' _ _ _ Hz_eq Z.compare_refl Hz_trans H1' H2').
  intros H1'' H2''.
  apply (then_compare_trans String.compare la la' la'' _ _ _
                            Hs_eq string_compare_refl string_compare_trans H1'' H2'').
  apply string_compare_trans.
Qed.

Lemma key_compare_antisym (a b : RasterKey) :
  key_compare b a = CompOpp (key_compare a b).
Proof.
  destruct a as [[[f t] la] lo], b as [[[f' t'] la'] lo']. unfold key_compare.
  rewrite (Z.compare_antisym f f'), (Z.compare_antisym t t'),
    (String.compare_antisym la' la), (String.compare_antisym lo' lo).
  unfold then_compare.
  destruct (f ?= f'), (t ?= t'), (String.compare la la'), (String.compare lo lo');
    reflexivity.
Qed.

Lemma raster_key_leb_total (a b : RasterKey) :
  raster_key_leb a b = false -> raster_key_leb b a = true.
Proof.
  unfold raster_key_leb. rewrite (key_compare_antisym a b).
  destruct (key_compare a b); cbn; congruence.
Qed.

Lemma raster_key_leb_trans (a b c : RasterKey) :
  raster_key_leb a b = true -> raster_key_leb b c = true -> raster_key_leb a c = true.
Proof.
  unfold raster_key_leb.
  destruct (key_compare a b) eqn:Eab; try discriminate;
    destruct (key_compare b c) eqn:Ebc; try discriminate; intros _ _.
  - apply key_compare_eq in Eab, Ebc. subst.
    now rewrite (proj2 (key_compare_eq c c) eq_refl).
  - apply key_compare_eq in Eab. subst. now rewrite Ebc.
  - apply key_compare_eq in Ebc. subst. now rewrite Eab.
  - now rewrite (key_compare_trans _ _ _ Eab Ebc).
Qed.
End RasterOrder.

(** ** MeteoGalicia: the rows of the raster table *)

Section RasterRows.
Import MeteoGalicia.
Local Open Scope string_scope.
Local Open Scope Z_scope.

Lemma add_to_groups_length (k : RasterKey) (c : string -> value) (groups : list Group) :
  (List.length (add_to_groups k c groups) <= S (List.length groups))%nat.
Proof.
  induction groups as [|[k0 cs0] groups IH]; cbn [add_to_groups List.length]; [lia|].
  destruct (raster_key_eqb k k0); cbn [List.length]; lia.
Qed.

Lemma collect_groups_length (cells : list RawCell) :
  (List.length (collect_groups cells) <= List.length cells)%nat.
Proof.
  unfold collect_groups.
  assert (H : forall groups,
             (List.length (fold_left (fun groups c =>
                                        add_to_groups (raster_key c) (raw_cells c) groups)
                                     cells groups)
              <= List.length groups + List.length cells)%nat).
  { induction cells as [|c cells IH]; intros groups; cbn [fold_left List.length]; [lia|].
    specialize (IH (add_to_groups (raster_key c) (raw_cells c) groups)).
    pose proof (add_to_groups_length (raster_key c) (raw_cells c) groups). lia. }
  apply (H []).
Qed.

Lemma groupby_perm (cells : list RawCell) :
  Permutation (groupby cells) (collect_groups cells).
Proof. apply sort_with_perm. Qed.

Lemma agg_keys (groups : list Group) : map group_key (map agg groups) = map fst groups.
Proof. rewrite map_map. now apply map_ext. Qed.

Lemma groupby_keys_nodup (cells : list RawCell) :
  NoDup (map group_key (map agg (groupby cells))).
Proof.
  rewrite agg_keys.
  eapply Permutation_NoDup; [|apply collect_groups_nodup].
  apply Permutation_map. symmetry. apply groupby_perm.
Qed.

Lemma groupby_sorted (cells : list RawCell) :
  StronglySorted (fun g g' => raster_key_leb (fst g) (fst g') = true) (groupby cells).
Proof.
  apply (sort_with_sorted (fun g g' : Group => raster_key_leb (fst g) (fst g'))).
  - intros a b. apply raster_key_leb_total.
  - intros a b c. apply raster_key_leb_trans.
Qed.

Lemma agg_sorted (groups : list Group) :
  StronglySorted (fun g g' => raster_key_leb (fst g) (fst g') = true) groups ->
  StronglySorted (fun r r' => raster_key_leb (group_key r) (group_key r') = true)
                 (map agg groups).
Proof.
  induction 1 as [|g l Hs IH Hall]; cbn [map]; constructor; [exact IH|].
  rewrite Forall_map. exact Hall.
Qed.

(** The rows in ascending order of their keys, no key twice. *)
Lemma raster_rows_ascending (cells : list RawCell) (i j : nat) (a b : RasterRow) :
  (i < j)%nat ->
  nth_error (map agg (groupby cells)) i = Some a ->
  nth_error (map agg (groupby cells)) j = Some b ->
  key_compare (group_key a) (group_key b) = Lt.
Proof.
  intros Hlt Ha Hb.
  pose proof (agg_sorted _ (groupby_sorted cells)) as Hsorted.
  pose proof (strongly_sorted_nth _ _ Hsorted i j a b Hlt Ha Hb) as Hle.
  unfold raster_key_leb in Hle.
  destruct (key_compare (group_key a) (group_key b)) eqn:E;
    [|reflexivity|discriminate Hle].
  apply key_compare_eq in E. exfalso.
  pose proof (groupby_keys_nodup cells) as Hnd.
  rewrite NoDup_nth_error in Hnd.
  assert (Hi : (i < List.length (map group_key (map agg (groupby cells))))%nat).
  { rewrite length_map. apply nth_error_Some. congruence. }
  specialize (Hnd i j Hi).
  rewrite !(nth_error_map group_key), Ha, Hb in Hnd. cbn in Hnd.
  specialize (Hnd ltac:(congruence)). lia.
Qed.

(** The rows of the table come from the cells of the raster. *)
Lemma raster_row_origin (cells : list RawCell) (row : RasterRow) :
  In row (map agg (groupby cells)) ->
  exists c, In c cells /\ group_key row = raster_key c /\
            means row
            = map (fun k => (k, mean (map (fun c => raw_cells c k)
                                          (grouped (raster_key c) cells))))
                  cols_mean.
Proof.
  intros Hin. apply in_map_iff in Hin as ([k cs] & <- & Hin).
  apply In_groupby in Hin as [Hne Hcs]. cbn [fst snd] in *.
  destruct (grouped k cells) as [|c found] eqn:Eg; [contradiction|].
  assert (Hc : In c (grouped k cells)) by (rewrite Eg; now left).
  apply filter_In in Hc as [Hc Hk]. apply raster_key_eqb_eq in Hk.
  exists c. split; [exact Hc|]. split; [now rewrite Hk|].
  unfold agg. cbn [means snd]. rewrite Hk, Eg. subst cs.
  apply map_ext. intros col. now rewrite map_map.
Qed.
End RasterRows.

Section MeanCells.
Import MeteoGalicia.
Local Open Scope Q_scope.

Lemma numbers_In (q : Q) (l : list value) : In q (numbers l) <-> In (Num q) l.
Proof.
  unfold numbers. rewrite in_flat_map. split.
  - intros ([|q'] & Hin & Hq); cbn in Hq; [contradiction|].
    destruct Hq as [<-|[]]. exact Hin.
  - intros Hin. exists (Num q). split; [exact Hin | now left].
Qed.
End MeanCells.

(** ** MeteoGalicia: what [_collect_raster] returns *)

Section RasterRuns.
Import MeteoGalicia.
Local Open Scope string_scope.
Local Open Scope Z_scope.

Lemma collect_raster_inv
      (env : Env) (min_lat max_lat min_lon max_lon : Q) (day : Datetime)
      (w w' : World) (out : list RasterRow) :
  _collect_raster env min_lat max_lat min_lon max_lon day w = (Ok out, w') ->
  exists df,
    raster_get env (List.length (requests w)) (Raster day max_lat min_lon max_lon min_lat)
    = Ok df /\
    out = map agg (groupby (map (with_forecast_day
                                   (instant (localize (zone day) (date day) 0) * 1000))
                                df)) /\
    w' = sent w (Raster day max_lat min_lon max_lon min_lat).
Proof.
  unfold _collect_raster, _get_historic_forecasting_raster.
  destruct (raster_get env (List.length (requests w))
                       (Raster day max_lat min_lon max_lon min_lat)) as [df|e];
    [|discriminate].
  intros [= <- <-]. now exists df.
Qed.

Lemma midnight_seconds (day : Datetime) :
  seconds_of_ns (instant (localize (zone day) (date day) 0) * 1000)
  = date day * 86400 - zone day.
Proof.
  unfold seconds_of_ns, localize, day_us, hour_us, second_us. cbn [instant].
  replace ((date day * (24 * (3600 * 1000000)) + 0 * (3600 * 1000000)
            - zone day * 1000000) * 1000)
    with ((date day * 86400 - zone day) * 1000000000) by ring.
  now apply Z.div_mul.
Qed.

Lemma midnight_before (day : Datetime) :
  (date day * 86400 - zone day) * second_us <= instant day
  < (date day * 86400 - zone day + 86400) * second_us.
Proof.
  unfold date, day_us, hour_us, second_us.
  set (x := instant day + zone day * 1000000).
  pose proof (Z.mul_div_le x (24 * (3600 * 1000000)) ltac:(lia)).
  pose proof (Z.mul_succ_div_gt x (24 * (3600 * 1000000)) ltac:(lia)).
  subst x. lia.
Qed.

Lemma column_mean_map (f : string -> value) (col : string) (l : list string) (v : value) :
  column_mean col (map (fun k => (k, f k)) l) = Some v -> In col l /\ v = f col.
Proof.
  induction l as [|k l IH]; cbn [map column_mean In]; [discriminate|].
  destruct (String.eqb k col) eqn:E.
  - apply String.eqb_eq in E. subst k. intros [= <-]. auto.
  - intros H. destruct (IH H). auto.
Qed.

Lemma column_mean_none (f : string -> value) (col : string) (l : list string) :
  column_mean col (map (fun k => (k, f k)) l) = None <-> ~ In col l.
Proof.
  induction l as [|k l IH]; cbn [map column_mean In]; [tauto|].
  destruct (String.eqb k col) eqn:E.
  - apply String.eqb_eq in E. split; [discriminate | tauto].
  - apply String.eqb_neq in E. tauto.
Qed.

Lemma mean_missing (l : list value) :
  mean l = Missing <-> forall v, In v l -> v = Missing.
Proof.
  unfold mean. split.
  - destruct (numbers l) as [|q qs] eqn:E; [|discriminate].
    intros _ [|q] Hin; [reflexivity|].
    apply numbers_In in Hin. rewrite E in Hin. contradiction.
  - intros Hall. destruct (numbers l) as [|q qs] eqn:E; [reflexivity|].
    assert (Hin : In q (numbers l)) by (rewrite E; now left).
    apply numbers_In in Hin. apply Hall in Hin. discriminate.
Qed.

Lemma groupby_nil (cells : list RawCell) : groupby cells = [] -> cells = [].
Proof.
  destruct cells as [|c cells]; [reflexivity|]. intros Hnil.
  assert (Hin : In (raster_key c, map raw_cells (grouped (raster_key c) (c :: cells)))
                   (groupby (c :: cells))).
  { apply In_groupby. cbn [fst snd]. split; [|reflexivity].
    intros Hg. pose proof (grouped_own_key c (c :: cells) (or_introl eq_refl)) as Hc.
    rewrite Hg in Hc. contradiction. }
  rewrite Hnil in Hin. contradiction.
Qed.

Lemma round_half_even_zero (y : Q) :
  (- (1 # 2) <= y <= 1 # 2)%Q -> round_half_even y = 0.
Proof.
  intros [Hlo Hhi]. unfold round_half_even.
  pose proof (Qfloor_le y) as Hf. pose proof (Qlt_floor y) as Hf'.
  assert (Hcases : Qfloor y = -1 \/ Qfloor y = 0).
  { assert (H1 : (inject_Z (Qfloor y) <= 1 # 2)%Q) by (eapply Qle_trans; eassumption).
    assert (H2 : (- (1 # 2) < inject_Z (Qfloor y + 1))%Q)
      by (eapply Qle_lt_trans; eassumption).
    unfold Qle, Qlt in H1, H2. cbn in H1, H2. lia. }
  destruct Hcases as [E|E]; rewrite E in *; cbn [Z.even Z.add].
  - destruct (Qcompare (y - inject_Z (-1)) (1 # 2)) eqn:C; try reflexivity.
    apply Qlt_alt in C. exfalso. change (inject_Z (-1)) with (-1)%Q in C.
    Lqa.lra.
  - destruct (Qcompare (y - inject_Z 0) (1 # 2)) eqn:C; try reflexivity.
    apply Qgt_alt in C. exfalso. change (inject_Z 0) with 0%Q in C.
    Lqa.lra.
Qed.
End RasterRuns.

Section RasterProperties.
Import MeteoGalicia.
Local Open Scope string_scope.
Local Open Scope Z_scope.

(** X18. When the provider answers the raster request, [_collect_raster]
    returns: it has sent that one request (north = max_lat, west = min_lon,
    east = max_lon, south = min_lat) and logged nothing. The table has at
    most as many rows as the raster has cells, and it is empty exactly when
    the raster is: an empty raster is no error. *)
Theorem raster_table_size
        (env : Env) (min_lat max_lat min_lon max_lon : Q) (day : Datetime)
        (w : World) (df : list RawCell) :
  raster_get env (List.length (requests w)) (Raster day max_lat min_lon max_lon min_lat)
  = Ok df ->
  exists out,
    _collect_raster env min_lat max_lat min_lon max_lon day w
    = (Ok out, sent w (Raster day max_lat min_lon max_lon min_lat)) /\
    (List.length out <= List.length df)%nat /\
    (out = [] <-> df = []).
Proof.
  intros Hget. unfold _collect_raster, _get_historic_forecasting_raster.
  rewrite Hget. eexists. split; [reflexivity|].
  set (cells := map _ df).
  split.
  - rewrite length_map, (Permutation_length (groupby_perm cells)).
    etransitivity; [apply collect_groups_length|].
    unfold cells. now rewrite length_map.
  - split.
    + intros Hnil. apply map_eq_nil in Hnil. apply groupby_nil in Hnil.
      unfold cells in Hnil. now apply map_eq_nil in Hnil.
    + intros ->. reflexivity.
Qed.

Lemma raster_table_size_witness :
  exists out,
    _collect_raster sample_env 42 43 (-9) (-7) (at_second 1694851200) fresh
    = (Ok out, sent fresh (Raster (at_second 1694851200) 43 (-9) (-7) 42)) /\
    (List.length out <= List.length sample_grid)%nat /\
    (out = [] <-> sample_grid = []).
Proof.
  apply (raster_table_size sample_env 42 43 (-9) (-7) (at_second 1694851200) fresh
                           sample_grid).
  reflexivity.
Defined.

(** X19. When the raster request fails, the exception of the provider does
    not reach the caller of [_collect_raster]:
    [_get_historic_forecasting_raster] logs it and hands back a frame
    without columns, and the [drop] that follows raises a KeyError about
    the three columns it was to remove. The one request has been sent. *)
Theorem raster_failure_is_masked
        (env : Env) (min_lat max_lat min_lon max_lon : Q) (day : Datetime)
        (w : World) (e : exn) :
  raster_get env (List.length (requests w)) (Raster day max_lat min_lon max_lon min_lat)
  = Raise e ->
  _collect_raster env min_lat max_lat min_lon max_lon day w
  = (Raise (KeyError
              "['Lambert_Conformal', 'windSpeed', 'windDirection'] not found in axis"),
     {| requests := requests w ++ [Raster day max_lat min_lon max_lon min_lat];
        log := log w ++ [e] |}).
Proof.
  intros Hget. unfold _collect_raster, _get_historic_forecasting_raster.
  now rewrite Hget.
Qed.

Lemma raster_failure_is_masked_witness :
  _collect_raster
    {| utcnow := fun _ => at_second 1695191400;
       http_get := fun _ _ => Failure (ProviderError "HTTP 503");
       raster_get := fun _ _ => Raise (ProviderError "HTTP 503") |}
    42 43 (-9) (-7) (at_second 1694851200) fresh
  = (Raise (KeyError
              "['Lambert_Conformal', 'windSpeed', 'windDirection'] not found in axis"),
     {| requests := [Raster (at_second 1694851200) 43 (-9) (-7) 42];
        log := [ProviderError "HTTP 503"] |}).
Proof.
  apply (raster_failure_is_masked
           {| utcnow := fun _ => at_second 1695191400;
              http_get := fun _ _ => Failure (ProviderError "HTTP 503");
              raster_get := fun _ _ => Raise (ProviderError "HTTP 503") |}
           42 43 (-9) (-7) (at_second 1694851200) fresh (ProviderError "HTTP 503")).
  reflexivity.
Defined.

(** X20. The rows that [_collect_raster] returns are in strictly ascending
    order of their keys: by forecasting_timestamp, then timestamp, then
    latitude, then longitude, the two coordinates compared as the strings
    that they have become. So no key comes twice. *)
Theorem raster_rows_ascend
        (env : Env) (min_lat max_lat min_lon max_lon : Q) (day : Datetime)
        (w w' : World) (out : list RasterRow) (i j : nat) (a b : RasterRow) :
  _collect_raster env min_lat max_lat min_lon max_lon day w = (Ok out, w') ->
  (i < j)%nat -> nth_error out i = Some a -> nth_error out j = Some b ->
  key_compare (group_key a) (group_key b) = Lt /\ group_key a <> group_key b.
Proof.
  intros Hrun Hlt Ha Hb.
  destruct (collect_raster_inv _ _ _ _ _ _ _ _ _ Hrun) as (df & _ & -> & _).
  pose proof (raster_rows_ascending _ i j a b Hlt Ha Hb) as Hcmp.
  split; [exact Hcmp|].
  intros Heq. apply key_compare_eq in Heq. congruence.
Qed.

Lemma raster_rows_ascend_witness :
  exists out w' a b,
    _collect_raster sample_env 42 43 (-9) (-7) (at_second 1694851200) fresh
    = (Ok out, w') /\
    nth_error out 0 = Some a /\ nth_error out 1 = Some b /\
    group_key a = (1694815200, 1694858400, "42.3", "-7.8") /\
    group_key b = (1694815200, 1694858400, "42.3", "-8.0") /\
    key_compare (group_key a) (group_key b) = Lt /\ group_key a <> group_key b.
Proof.
  destruct (_collect_raster sample_env 42 43 (-9) (-7) (at_second 1694851200) fresh)
    as [[out|e] w'] eqn:Hrun; [|vm_compute in Hrun; discriminate Hrun].
  assert (Hout : exists a b, out = [a; b] /\
                             group_key a = (1694815200, 1694858400, "42.3", "-7.8") /\
                             group_key b = (1694815200, 1694858400, "42.3", "-8.0")).
  { vm_compute in Hrun. injection Hrun as <- _. eexists _, _.
    split; [reflexivity|]. split; reflexivity. }
  destruct Hout as (a & b & Hout & Hka & Hkb).
  exists out, w', a, b.
  split; [reflexivity|].
  split; [now rewrite Hout|]. split; [now rewrite Hout|].
  split; [exact Hka|]. split; [exact Hkb|].
  apply (raster_rows_ascend sample_env 42 43 (-9) (-7) (at_second 1694851200)
                            fresh w' out 0 1 a b Hrun).
  - lia.
  - now rewrite Hout.
  - now rewrite Hout.
Defined.

(** X21. Every row that [_collect_raster] returns carries the same
    forecasting_timestamp: the epoch second of the midnight, in the zone of
    [day], of the date of [day]. It is not after [day] and less than a day
    before it. *)
Theorem raster_rows_forecast_day
        (env : Env) (min_lat max_lat min_lon max_lon : Q) (day : Datetime)
        (w w' : World) (out : list RasterRow) (row : RasterRow) :
  _collect_raster env min_lat max_lat min_lon max_lon day w = (Ok out, w') ->
  In row out ->
  fst (fst (fst (group_key row))) = date day * 86400 - zone day /\
  fst (fst (fst (group_key row))) * second_us <= instant day
  < (fst (fst (fst (group_key row))) + 86400) * second_us.
Proof.
  intros Hrun Hin.
  destruct (collect_raster_inv _ _ _ _ _ _ _ _ _ Hrun) as (df & _ & -> & _).
  destruct (raster_row_origin _ _ Hin) as (c & Hc & -> & _).
  apply in_map_iff in Hc as (c0 & <- & _).
  unfold raster_key. cbn [with_forecast_day raw_forecasting_timestamp fst].
  rewrite midnight_seconds. split; [reflexivity | apply midnight_before].
Qed.

Lemma raster_rows_forecast_day_witness :
  exists out w',
    _collect_raster sample_env 42 43 (-9) (-7) (at_second 1694851200) fresh
    = (Ok out, w') /\
    forall row,
      In row out ->
      fst (fst (fst (group_key row))) = 1694815200 /\
      fst (fst (fst (group_key row))) * second_us <= 1694851200 * second_us
      < (fst (fst (fst (group_key row))) + 86400) * second_us.
Proof.
  destruct (_collect_raster sample_env 42 43 (-9) (-7) (at_second 1694851200) fresh)
    as [[out|e] w'] eqn:Hrun; [|vm_compute in Hrun; discriminate Hrun].
  exists out, w'. split; [reflexivity|]. intros row Hin.
  exact (raster_rows_forecast_day sample_env 42 43 (-9) (-7) (at_second 1694851200)
                                  fresh w' out row Hrun Hin).
Defined.

(** X23. Every row that [_collect_raster] returns has the eleven columns of
    cols_mean, in that order, beside its key, and no other: windSpeed and
    windDirection of the raster are not in the table. A cell of the table
    is missing exactly when no cell of the raster with the key of the row
    has a number in that column. *)
Theorem raster_table_columns
        (env : Env) (min_lat max_lat min_lon max_lon : Q) (day : Datetime)
        (w w' : World) (df : list RawCell) (out : list RasterRow) (row : RasterRow) :
  raster_get env (List.length (requests w)) (Raster day max_lat min_lon max_lon min_lat)
  = Ok df ->
  _collect_raster env min_lat max_lat min_lon max_lon day w = (Ok out, w') ->
  In row out ->
  map fst (means row) = cols_mean /\
  column_mean "windSpeed" (means row) = None /\
  column_mean "windDirection" (means row) = None /\
  forall col,
    (column_mean col (means row) = None <-> ~ In col cols_mean) /\
    (column_mean col (means row) = Some Missing <->
     In col cols_mean /\
     forall c, In c df ->
               raster_key (with_forecast_day
                             (instant (localize (zone day) (date day) 0) * 1000) c)
               = group_key row ->
               raw_cells c col = Missing).
Proof.
  intros Hget Hrun Hin.
  destruct (collect_raster_inv _ _ _ _ _ _ _ _ _ Hrun) as (df' & Hget' & -> & _).
  rewrite Hget in Hget'. injection Hget' as <-.
  destruct (raster_row_origin _ _ Hin) as (c & _ & Hkey & Hmeans).
  rewrite Hmeans, Hkey. clear Hmeans Hkey Hin Hrun.
  set (cells := map _ df).
  set (f := fun k => mean (map (fun c0 => raw_cells c0 k) (grouped (raster_key c) cells))).
  change (map (fun k => (k, mean (map (fun c0 => raw_cells c0 k)
                                      (grouped (raster_key c) cells)))) cols_mean)
    with (map (fun k => (k, f k)) cols_mean).
  split; [|split; [|split]].
  - rewrite map_map. cbn [fst]. apply map_id.
  - apply column_mean_none. unfold cols_mean. cbn [In].
    intros H; repeat (destruct H as [H|H]; [discriminate H|]); contradiction.
  - apply column_mean_none. unfold cols_mean. cbn [In].
    intros H; repeat (destruct H as [H|H]; [discriminate H|]); contradiction.
  - intros col. split; [apply column_mean_none|].
    split.
    + intros Hm. apply column_mean_map in Hm as [Hcol Hm].
      split; [exact Hcol|]. symmetry in Hm. unfold f in Hm.
      intros c0 Hc0 Hk. rewrite mean_missing in Hm.
      apply (Hm (raw_cells c0 col)).
      apply in_map_iff.
      exists (with_forecast_day (instant (localize (zone day) (date day) 0) * 1000) c0).
      split; [reflexivity|].
      apply filter_In. split.
      * unfold cells. now apply in_map.
      * now apply raster_key_eqb_eq.
    + intros [Hcol Hall].
      assert (Hf : f col = Missing).
      { unfold f. apply mean_missing. intros v Hv.
        apply in_map_iff in Hv as (c1 & <- & Hc1).
        apply filter_In in Hc1 as [Hc1 Hk]. apply raster_key_eqb_eq in Hk.
        unfold cells in Hc1. apply in_map_iff in Hc1 as (c0 & <- & Hc0).
        cbn [with_forecast_day raw_cells]. apply Hall; assumption. }
      rewrite <- Hf. clear Hf Hall.
      induction cols_mean as [|k l IH]; [contradiction|].
      cbn [map column_mean]. destruct (String.eqb k col) eqn:E.
      * apply String.eqb_eq in E. now subst k.
      * apply String.eqb_neq in E. destruct Hcol as [Hcol|Hcol]; [contradiction|].
        now apply IH.
Qed.

Lemma raster_table_columns_witness :
  exists out w',
    _collect_raster sample_env 42 43 (-9) (-7) (at_second 1694851200) fresh
    = (Ok out, w') /\
    forall row,
      In row out ->
      map fst (means row) = cols_mean /\
      column_mean "windSpeed" (means row) = None.
Proof.
  destruct (_collect_raster sample_env 42 43 (-9) (-7) (at_second 1694851200) fresh)
    as [[out|e] w'] eqn:Hrun; [|vm_compute in Hrun; discriminate Hrun].
  exists out, w'. split; [reflexivity|]. intros row Hin.
  destruct (raster_table_columns sample_env 42 43 (-9) (-7) (at_second 1694851200)
                                 fresh w' sample_grid out row eq_refl Hrun Hin)
    as (Hcols & Hspeed & _).
  split; assumption.
Defined.

(** X24. A coordinate of at most a twentieth of a degree on either side of
    zero is written 0.0 in the key: what rounds to the float -0.0 is
    renamed, so that the cells on the two sides of the equator or of the
    prime meridian fall into one group. No coordinate is written -0.0. *)
Theorem coordinates_near_zero (x : Q) :
  rounded_coordinate x <> "-0.0" /\
  ((- (1 # 20) <= x <= 1 # 20)%Q -> rounded_coordinate x = "0.0").
Proof.
  split.
  - unfold rounded_coordinate.
    destruct (String.eqb _ "-0.0") eqn:E; [discriminate|].
    now apply String.eqb_neq in E.
  - intros [Hlo Hhi]. unfold rounded_coordinate.
    rewrite round_half_even_zero.
    + destruct (Qle_bool 0 x); reflexivity.
    + unfold precision. split; Lqa.lra.
Qed.

Lemma coordinates_near_zero_witness :
  rounded_coordinate (- (4 # 100)) = "0.0" /\ rounded_coordinate (5 # 100) = "0.0".
Proof.
  split.
  - apply (proj2 (coordinates_near_zero (- (4 # 100)))). split; discriminate.
  - apply (proj2 (coordinates_near_zero (5 # 100))). split; discriminate.
Defined.
End RasterProperties.

(** ** era5/utils.py: the download of the GRIB files *)

(** ** The decimal strings of the download loop *)

Section StringFacts.
Local Open Scope string_scope.

Lemma append_assoc (a b c : string) : (a ++ b) ++ c = a ++ (b ++ c).
Proof. induction a as [|x a IH]; cbn; [reflexivity | now rewrite IH]. Qed.

Lemma append_nil_r (a : string) : a ++ "" = a.
Proof. induction a as [|x a IH]; cbn; [reflexivity | now rewrite IH]. Qed.

Lemma append_length (a b : string) :
  String.length (a ++ b) = (String.length a + String.length b)%nat.
Proof. induction a as [|x a IH]; cbn; [reflexivity | now rewrite IH]. Qed.

Lemma substring_all (a : string) : substring 0 (String.length a) a = a.
Proof. induction a as [|x a IH]; cbn; [reflexivity | now rewrite IH]. Qed.

Lemma substring_append_l (a b : string) :
  substring 0 (String.length a) (a ++ b) = a.
Proof.
  induction a as [|x a IH]; cbn.
  - now destruct b.
  - now rewrite IH.
Qed.

Lemma substring_append_r (a b : string) (n : nat) :
  substring (String.length a) n (a ++ b) = substring 0 n b.
Proof. induction a as [|x a IH]; cbn; [reflexivity | exact IH]. Qed.

Lemma substring_short (a : string) (n m : nat) :
  (String.length a <= n)%nat -> substring n m a = "".
Proof.
  revert n. induction a as [|x a IH]; intros n Hn; cbn in *.
  - destruct n, m; reflexivity.
  - destruct n as [|n]; [lia|]. apply IH. lia.
Qed.

Lemma substring_whole (a : string) (n : nat) :
  (String.length a <= n)%nat -> substring 0 n a = a.
Proof.
  revert n. induction a as [|x a IH]; intros n Hn; cbn in *.
  - now destruct n.
  - destruct n as [|n]; [lia|]. rewrite IH; [reflexivity | lia].
Qed.
End StringFacts.

Section DecimalStrings.
Import Era5.
Local Open Scope string_scope.
Local Open Scope Z_scope.

Lemma int_str (n : Z) : int (str n) = Ok n.
Proof.
  unfold int, str. rewrite NilZero.isi.
  - now rewrite DecimalZ.of_to.
  - destruct n as [|p|p]; cbn; try discriminate.
    intros [= E]. now apply DecimalPos.Unsigned.to_uint_nonnil in E.
  - destruct n as [|p|p]; cbn; try discriminate.
    intros [= E]. now apply DecimalPos.Unsigned.to_uint_nonnil in E.
Qed.

Lemma string_of_revapp (d acc : Decimal.uint) :
  NilEmpty.string_of_uint (Decimal.revapp d acc)
  = NilEmpty.string_of_uint (Decimal.rev d) ++ NilEmpty.string_of_uint acc.
Proof.
  unfold Decimal.rev.
  enough (H : forall d a t,
             NilEmpty.string_of_uint (Decimal.revapp d a) ++ t
             = NilEmpty.string_of_uint (Decimal.revapp d Decimal.Nil)
                 ++ NilEmpty.string_of_uint a ++ t).
  { specialize (H d acc ""). now rewrite !append_nil_r in H. }
  clear d acc.
  induction d as [|d IH|d IH|d IH|d IH|d IH|d IH|d IH|d IH|d IH|d IH]; intros a t;
    cbn [Decimal.revapp]; [reflexivity|..];
      rewrite IH; symmetry; rewrite IH; reflexivity.
Qed.

Lemma positive_str (p : positive) :
  str (Z.pos p) = NilEmpty.string_of_uint (Pos.to_uint p).
Proof.
  unfold str. cbn [Z.to_int NilZero.string_of_int NilZero.string_of_uint].
  pose proof (DecimalPos.Unsigned.to_uint_nonnil p) as H.
  now destruct (Pos.to_uint p).
Qed.

Lemma to_lu_plus (n : N) (k : nat) :
  DecimalPos.Unsigned.to_lu (n + N.of_nat k)
  = Nat.iter k Decimal.Little.succ (DecimalPos.Unsigned.to_lu n).
Proof.
  induction k as [|k IH].
  - cbn. now rewrite N.add_0_r.
  - replace (n + N.of_nat (S k))%N with (N.succ (n + N.of_nat k)) by lia.
    now rewrite DecimalPos.Unsigned.to_lu_succ, IH.
Qed.

(** The digits of ten times [n] plus a digit are the digits of [n] and that
    digit. *)
Lemma str_tenfold (n k : Z) :
  1 <= n -> 0 <= k <= 9 -> str (10 * n + k) = str n ++ str k.
Proof.
  intros Hn Hk.
  destruct n as [|p|p]; try lia.
  assert (Hq : exists q, 10 * Z.pos p + k = Z.pos q /\
                         N.pos q = (10 * N.pos p + N.of_nat (Z.to_nat k))%N).
  { destruct (10 * Z.pos p + k) as [|q|q] eqn:E; try lia.
    exists q. split; [reflexivity|]. lia. }
  destruct Hq as (q & -> & Hq).
  rewrite !positive_str. unfold Pos.to_uint.
  change (Pos.to_little_uint q) with (DecimalPos.Unsigned.to_lu (N.pos q)).
  rewrite Hq, to_lu_plus, DecimalPos.Unsigned.to_ldec_tenfold.
  cbn [DecimalPos.Unsigned.to_lu].
  assert (Hcases : k = 0 \/ k = 1 \/ k = 2 \/ k = 3 \/ k = 4 \/ k = 5 \/ k = 6 \/
                   k = 7 \/ k = 8 \/ k = 9) by lia.
  repeat (destruct Hcases as [->|Hcases]); try subst k;
    match goal with
    | |- context [Z.to_nat ?z] =>
        let n := eval compute in (Z.to_nat z) in change (Z.to_nat z) with n
    end;
    cbn [Nat.iter nat_rect Decimal.Little.succ];
    unfold Decimal.rev; cbn [Decimal.revapp];
    rewrite string_of_revapp; reflexivity.
Qed.

Lemma digit_cases (k : Z) :
  0 <= k <= 9 ->
  k = 0 \/ k = 1 \/ k = 2 \/ k = 3 \/ k = 4 \/ k = 5 \/ k = 6 \/ k = 7 \/ k = 8 \/ k = 9.
Proof. lia. Qed.

Lemma digit_length (k : Z) : 0 <= k <= 9 -> String.length (str k) = 1%nat.
Proof.
  intros Hk. apply digit_cases in Hk.
  repeat (destruct Hk as [->|Hk]); try subst k; reflexivity.
Qed.

Lemma str_length (k : nat) (n : Z) :
  10 ^ Z.of_nat k <= n < 10 ^ Z.of_nat (S k) -> String.length (str n) = S k.
Proof.
  revert n. induction k as [|k IH]; intros n Hn.
  - apply digit_length. change (10 ^ Z.of_nat 0) with 1 in Hn.
    change (10 ^ Z.of_nat 1) with 10 in Hn. lia.
  - rewrite !Nat2Z.inj_succ, !Z.pow_succ_r in * by lia.
    pose proof (Z.pow_pos_nonneg 10 (Z.of_nat k) ltac:(lia) ltac:(lia)) as Hpos.
    rewrite (Z.div_mod n 10) by lia.
    pose proof (Z.mod_pos_bound n 10 ltac:(lia)) as Hmod.
    assert (Hdiv : 10 ^ Z.of_nat k <= n / 10 < 10 * 10 ^ Z.of_nat k).
    { split.
      - apply Z.div_le_lower_bound; lia.
      - apply Z.div_lt_upper_bound; lia. }
    rewrite str_tenfold, append_length, (digit_length (n mod 10)) by lia.
    rewrite IH; [lia | exact Hdiv].
Qed.

Lemma str_length_le (k : nat) (n : Z) :
  0 <= n < 10 ^ Z.of_nat (S k) -> (String.length (str n) <= S k)%nat.
Proof.
  revert n. induction k as [|k IH]; intros n Hn.
  - rewrite digit_length; [lia|]. change (10 ^ Z.of_nat 1) with 10 in Hn. lia.
  - destruct (Z.lt_ge_cases n (10 ^ Z.of_nat (S k))) as [Hlt|Hge].
    + specialize (IH n ltac:(lia)). lia.
    + rewrite (str_length (S k) n); [lia|]. lia.
Qed.

Lemma pad2_digits (a b : Z) :
  0 <= a <= 9 -> 0 <= b <= 9 -> pad2 (10 * a + b) = str a ++ str b.
Proof.
  intros Ha Hb. unfold pad2.
  destruct (Z.eq_dec a 0) as [->|Hnz].
  - rewrite Z.mul_0_r, Z.add_0_l, digit_length by exact Hb. reflexivity.
  - rewrite str_tenfold, append_length, !digit_length by lia. reflexivity.
Qed.

Lemma pad2_length (m : Z) : 0 <= m <= 99 -> String.length (pad2 m) = 2%nat.
Proof.
  intros Hm. rewrite (Z.div_mod m 10) by lia.
  pose proof (Z.mod_pos_bound m 10 ltac:(lia)) as Hmod.
  assert (Hdiv : 0 <= m / 10 <= 9).
  { split; [apply Z.div_pos; lia|]. apply Z.lt_succ_r, Z.div_lt_upper_bound; lia. }
  rewrite pad2_digits, append_length, !digit_length by lia. reflexivity.
Qed.

Lemma int_pad2 (m : Z) : 0 <= m <= 99 -> int (pad2 m) = Ok m.
Proof.
  intros Hm. unfold pad2.
  destruct (Z.lt_ge_cases m 10) as [Hlt|Hge].
  - rewrite digit_length by lia.
    assert (Hcases : 0 <= m <= 9) by lia. apply digit_cases in Hcases.
    repeat (destruct Hcases as [->|Hcases]); try subst m; reflexivity.
  - rewrite (str_length 1 m); [apply int_str|].
    change (10 ^ Z.of_nat 1) with 10. change (10 ^ Z.of_nat 2) with 100. lia.
Qed.

(** [yyyy] and [mm] written one behind the other are the digits of
    [yyyymm]. *)
Lemma str_hundredfold (y m : Z) :
  1 <= y -> 0 <= m <= 99 -> str (100 * y + m) = str y ++ pad2 m.
Proof.
  intros Hy Hm.
  pose proof (Z.mod_pos_bound m 10 ltac:(lia)) as Hmod.
  assert (Hdiv : 0 <= m / 10 <= 9).
  { split; [apply Z.div_pos; lia|]. apply Z.lt_succ_r, Z.div_lt_upper_bound; lia. }
  rewrite (Z.div_mod m 10) at 2 by lia.
  rewrite pad2_digits by lia.
  replace (100 * y + m) with (10 * (10 * y + m / 10) + m mod 10)
    by (rewrite (Z.div_mod m 10) at 3 by lia; ring).
  rewrite !str_tenfold by lia. now rewrite append_assoc.
Qed.

Lemma int_year_month (y m : Z) :
  1 <= y -> 0 <= m <= 99 -> int (year_month y m) = Ok (100 * y + m).
Proof.
  intros Hy Hm. unfold year_month.
  rewrite <- str_hundredfold by assumption. apply int_str.
Qed.

(** What the loop reads out of a [ym] of six digits. *)
Lemma read_ym (ym : Z) :
  1000 <= ym / 100 <= 9999 ->
  int (substring 0 4 (str ym)) = Ok (ym / 100) /\
  int (substring 4 2 (str ym)) = Ok (ym mod 100).
Proof.
  intros Hy.
  pose proof (Z.mod_pos_bound ym 100 ltac:(lia)) as Hm.
  rewrite (Z.div_mod ym 100) at 1 3 by lia.
  rewrite str_hundredfold by lia.
  assert (Hlen : String.length (str (ym / 100)) = 4%nat).
  { apply (str_length 3). change (10 ^ Z.of_nat 3) with 1000.
    change (10 ^ Z.of_nat 4) with 10000. lia. }
  split.
  - rewrite <- Hlen, substring_append_l. apply int_str.
  - rewrite <- Hlen, substring_append_r.
    rewrite <- (pad2_length (ym mod 100)) by lia.
    rewrite substring_all. apply int_pad2. lia.
Qed.

(** A [ym] of at most four digits has no month to read. *)
Lemma read_short_ym (ym : Z) :
  0 <= ym <= 9999 ->
  int (substring 0 4 (str ym)) = Ok ym /\
  int (substring 4 2 (str ym))
  = Raise (ValueError "invalid literal for int() with base 10: ''").
Proof.
  intros Hym.
  assert (Hlen : (String.length (str ym) <= 4)%nat).
  { apply (str_length_le 3). change (10 ^ Z.of_nat 4) with 10000. lia. }
  split.
  - rewrite substring_whole by exact Hlen. apply int_str.
  - now rewrite substring_short by exact Hlen.
Qed.
End DecimalStrings.

(** ** The months of the download loop *)

Section CalendarMonths.
Import Era5.
Local Open Scope Z_scope.

Lemma ym_of_number_parts (k : Z) :
  ym_of_number k / 100 = k / 12 /\ ym_of_number k mod 100 = k mod 12 + 1.
Proof. unfold ym_of_number. split; Z.to_euclidean_division_equations; lia. Qed.

Lemma ym_of_month_number (ym : Z) :
  1 <= ym mod 100 <= 12 -> ym_of_number (month_number ym) = ym.
Proof.
  unfold ym_of_number, month_number. intros H.
  Z.to_euclidean_division_equations; lia.
Qed.

Lemma month_number_of_ym (k : Z) : month_number (ym_of_number k) = k.
Proof.
  unfold ym_of_number, month_number. Z.to_euclidean_division_equations; lia.
Qed.

Lemma ym_of_number_lt (k k' : Z) : k < k' -> ym_of_number k < ym_of_number k'.
Proof.
  unfold ym_of_number. intros H. Z.to_euclidean_division_equations; lia.
Qed.

Lemma ym_of_number_inj (k k' : Z) : ym_of_number k = ym_of_number k' -> k = k'.
Proof.
  intros H. destruct (Z.lt_trichotomy k k') as [Hlt|[Heq|Hgt]]; [|exact Heq|].
  - apply ym_of_number_lt in Hlt. lia.
  - apply ym_of_number_lt in Hgt. lia.
Qed.

Lemma month_number_bounds (ym : Z) :
  calendar_month ym -> 12000 <= month_number ym <= 119999.
Proof.
  unfold calendar_month, month_number. intros H.
  Z.to_euclidean_division_equations; lia.
Qed.

(** The round at [ym] goes on to the month after [ym]. *)
Lemma next_month (k : Z) :
  let month := k mod 12 + 1 + 1 in
  (if month >? 12 then 100 * (k / 12 + 1) + 1 else 100 * (k / 12) + month)
  = ym_of_number (k + 1).
Proof.
  cbv zeta. unfold ym_of_number.
  destruct (k mod 12 + 1 + 1 >? 12) eqn:E.
  - apply Z.gtb_lt in E. Z.to_euclidean_division_equations; lia.
  - rewrite Z.gtb_ltb in E. apply Z.ltb_ge in E.
    Z.to_euclidean_division_equations; lia.
Qed.

Lemma months_between_cons (k K : Z) :
  k <= K ->
  map (fun i => ym_of_number (k + Z.of_nat i)) (seq 0 (Z.to_nat (K - k + 1)))
  = ym_of_number k
      :: map (fun i => ym_of_number (k + 1 + Z.of_nat i)) (seq 0 (Z.to_nat (K - (k + 1) + 1))).
Proof.
  intros H.
  replace (Z.to_nat (K - k + 1)) with (S (Z.to_nat (K - (k + 1) + 1))) by lia.
  cbn [seq map]. rewrite Z.add_0_r. f_equal.
  rewrite <- seq_shift, map_map. apply map_ext. intros i. f_equal. lia.
Qed.
End CalendarMonths.

Section StringCancel.
Local Open Scope string_scope.

Lemma append_inj_l (a x y : string) : a ++ x = a ++ y -> x = y.
Proof. induction a as [|c a IH]; cbn; [auto|]. intros [= H]. auto. Qed.

Lemma append_inj_length (a a' t t' : string) :
  String.length a = String.length a' -> a ++ t = a' ++ t' -> a = a'.
Proof.
  revert a'. induction a as [|c a IH]; intros [|c' a'] Hlen; cbn in *;
    try discriminate; [reflexivity|].
  intros [= -> H]. f_equal. apply IH; [lia | exact H].
Qed.
End StringCancel.

Section DownloadFuel.
Import Era5.
Local Open Scope string_scope.
Local Open Scope Z_scope.

Variable Number : Type.
Variable number_ltb : Number -> Number -> bool.
Variable number_str : Number -> string.
Variable retrieve : nat -> Retrieval Number -> bool * result unit.
Variable data_dir : string.
Variable ym_range : list Z.
Variables lat_range lon_range : list Number.

Local Abbreviation step :=
  (one_month Number number_ltb number_str retrieve data_dir lat_range lon_range).
Local Abbreviation loop :=
  (months_from Number number_ltb number_str retrieve data_dir ym_range lat_range
               lon_range).

Lemma months_from_S (fuel : nat) (ym : Z) (w : Store Number) :
  loop (S fuel) ym w
  = match py_max Z.ltb ym_range with
    | Raise e => Some (Raise e, w)
    | Ok last =>
        if ym <=? last
        then match step ym w with
             | (Raise e, w) => Some (Raise e, w)
             | (Ok ym, w) => loop fuel ym w
             end
        else Some (Ok tt, w)
    end.
Proof. reflexivity. Qed.

Lemma months_from_more (fuel : nat) :
  forall fuel' ym w r,
    (fuel <= fuel')%nat -> loop fuel ym w = Some r -> loop fuel' ym w = Some r.
Proof.
  induction fuel as [|fuel IH]; intros fuel' ym w r Hle Hrun; [discriminate|].
  destruct fuel' as [|fuel']; [lia|].
  rewrite months_from_S in Hrun |- *.
  destruct (py_max Z.ltb ym_range) as [l|e]; [|exact Hrun].
  destruct (ym <=? l); [|exact Hrun].
  destruct (step ym w) as [[ym'|e] w1]; [|exact Hrun].
  apply IH; [lia | exact Hrun].
Qed.

End DownloadFuel.

Section DownloadRuns.
Import Era5.
Local Open Scope string_scope.
Local Open Scope Z_scope.

Variable Number : Type.
Variable number_ltb : Number -> Number -> bool.
Variable number_str : Number -> string.
Variable retrieve : nat -> Retrieval Number -> bool * result unit.
Variable data_dir : string.
Variable ym_range : list Z.
Variables lat_range lon_range : list Number.
Variables north west south east : Number.
Variable K : Z.
Hypothesis Hnorth : py_max number_ltb lat_range = Ok north.
Hypothesis Hwest : py_min number_ltb lon_range = Ok west.
Hypothesis Hsouth : py_min number_ltb lat_range = Ok south.
Hypothesis Heast : py_max number_ltb lon_range = Ok east.
Hypothesis Hlast : py_max Z.ltb ym_range = Ok (ym_of_number K).
Hypothesis HK : K <= 119999.

Local Abbreviation file_of :=
  (fun ym => grib_file Number number_str data_dir (ym / 100) (ym mod 100)
                       north west south east).
Local Abbreviation request_of :=
  (fun ym => request Number (ym / 100) (ym mod 100) north west south east (file_of ym)).
Local Abbreviation lines_of :=
  (fun ym => [obtaining Number number_str (ym / 100) (ym mod 100) north west south east;
              done_line]).
Local Abbreviation step :=
  (one_month Number number_ltb number_str retrieve data_dir lat_range lon_range).
Local Abbreviation loop :=
  (months_from Number number_ltb number_str retrieve data_dir ym_range lat_range
               lon_range).

Lemma str_inj (a b : Z) : str a = str b -> a = b.
Proof.
  intros H. pose proof (int_str a) as Ha. rewrite H, int_str in Ha. now injection Ha.
Qed.

(** Different months have different files. *)
Lemma file_of_inj (k k' : Z) :
  12000 <= k <= 119999 -> 12000 <= k' <= 119999 ->
  file_of (ym_of_number k) = file_of (ym_of_number k') -> k = k'.
Proof.
  intros Hk Hk' H. unfold grib_file, year_month in H.
  apply append_inj_l in H. apply (append_inj_l "/") in H.
  destruct (ym_of_number_parts k) as [Ey Em].
  destruct (ym_of_number_parts k') as [Ey' Em'].
  pose proof (Z.mod_pos_bound k 12 ltac:(lia)) as Hm.
  pose proof (Z.mod_pos_bound k' 12 ltac:(lia)) as Hm'.
  assert (Hy : 1000 <= k / 12 <= 9999) by (Z.to_euclidean_division_equations; lia).
  assert (Hy' : 1000 <= k' / 12 <= 9999) by (Z.to_euclidean_division_equations; lia).
  rewrite <- !str_hundredfold in H by lia.
  apply append_inj_length in H.
  - apply str_inj in H. apply ym_of_number_inj.
    rewrite (Z.div_mod (ym_of_number k) 100), (Z.div_mod (ym_of_number k') 100) by lia.
    exact H.
  - rewrite !(str_length 5); [reflexivity| |];
      change (10 ^ Z.of_nat 5) with 100000; change (10 ^ Z.of_nat 6) with 1000000; lia.
Qed.

(** One round at a month of a year of four digits. *)
Lemma one_month_at (k : Z) (w : Store Number) :
  12000 <= k <= 119999 ->
  step (ym_of_number k) w
  = let ym := ym_of_number k in
    let w1 := stderr_write Number w
                (obtaining Number number_str (ym / 100) (ym mod 100)
                           north west south east) in
    let (outcome, w2) :=
      if negb (exists_path (disk Number w1) (file_of ym))
      then c_retrieve Number retrieve w1 (request_of ym)
      else (Ok tt, w1) in
    match outcome with
    | Raise e => (Raise e, w2)
    | Ok _ => (Ok (ym_of_number (k + 1)), stderr_write Number w2 done_line)
    end.
Proof.
  intros Hk. cbv zeta. unfold one_month.
  destruct (ym_of_number_parts k) as [Ey Em].
  pose proof (Z.mod_pos_bound k 12 ltac:(lia)) as Hm.
  assert (Hy : 1000 <= k / 12 <= 9999) by (Z.to_euclidean_division_equations; lia).
  destruct (read_ym (ym_of_number k)) as [-> ->]; [lia|].
  rewrite Hnorth, Hwest, Hsouth, Heast. cbn [bind].
  assert (Hnext :
            forall w' : Store Number,
              (let (year, month) :=
                 if ym_of_number k mod 100 + 1 >? 12
                 then (ym_of_number k / 100 + 1, 1)
                 else (ym_of_number k / 100, ym_of_number k mod 100 + 1) in
               (int (year_month year month), w'))
              = (Ok (ym_of_number (k + 1)), w')).
  { intros w'. rewrite <- (next_month k). cbv zeta. rewrite Ey, Em.
    destruct (k mod 12 + 1 + 1 >? 12) eqn:E.
    - rewrite int_year_month; [reflexivity|lia|lia].
    - rewrite Z.gtb_ltb in E. apply Z.ltb_ge in E.
      rewrite int_year_month; [reflexivity|lia|lia]. }
  destruct (negb _).
  - destruct (c_retrieve _ _ _ _) as [[u|e] w2]; [|reflexivity].
    apply Hnext.
  - apply Hnext.
Qed.

(** The loop when every file is there: nothing but the two lines per month
    on stderr. *)
Lemma months_from_present (n : nat) :
  forall k w,
    12000 <= k -> Z.to_nat (K + 1 - k) = n ->
    (forall i, (i < n)%nat ->
               exists_path (disk Number w) (file_of (ym_of_number (k + Z.of_nat i))) = true) ->
    loop (S n) (ym_of_number k) w
    = Some (Ok tt,
            {| directories := directories Number w;
               disk := disk Number w;
               retrievals := retrievals Number w;
               stderr := (stderr Number w
                            ++ flat_map lines_of
                                 (map (fun i => ym_of_number (k + Z.of_nat i))
                                      (seq 0 n)))%list |}).
Proof.
  induction n as [|n IH]; intros k w Hk Hn Hall; rewrite months_from_S, Hlast.
  - assert (Hgt : ym_of_number K < ym_of_number k) by (apply ym_of_number_lt; lia).
    apply Z.leb_gt in Hgt. rewrite Hgt. cbn. rewrite app_nil_r. now destruct w.
  - assert (Hle : ym_of_number k <= ym_of_number K).
    { destruct (Z.eq_dec k K) as [->|Hne]; [lia|].
      apply Z.lt_le_incl, ym_of_number_lt. lia. }
    apply Z.leb_le in Hle. rewrite Hle.
    rewrite one_month_at by lia. cbv zeta.
    cbn [stderr_write disk].
    pose proof (Hall 0%nat ltac:(lia)) as H0. cbn [Z.of_nat] in H0.
    rewrite Z.add_0_r in H0. rewrite H0. cbn [negb].
    rewrite IH; [|lia|lia|].
    + cbn [stderr_write disk retrievals stderr]. do 2 f_equal.
      f_equal. rewrite <- !app_assoc. f_equal.
      cbn [seq map flat_map]. rewrite Z.add_0_r. cbn [app]. do 2 f_equal.
      rewrite <- seq_shift, map_map. f_equal. apply map_ext. intros i. f_equal. lia.
    + intros i Hi. cbn [stderr_write disk].
      specialize (Hall (S i) ltac:(lia)).
      replace (k + 1 + Z.of_nat i) with (k + Z.of_nat (S i)) by lia. exact Hall.
Qed.

Hypothesis Hretrieve : forall n r, retrieve n r = (true, Ok tt).

(** The loop with a store that delivers: it asks for the months whose file
    is not there, in their order. *)
Lemma months_from_run (n : nat) :
  forall k w,
    12000 <= k -> Z.to_nat (K + 1 - k) = n ->
    let months := map (fun i => ym_of_number (k + Z.of_nat i)) (seq 0 n) in
    let missing :=
      filter (fun ym => negb (exists_path (disk Number w) (file_of ym))) months in
    loop (S n) (ym_of_number k) w
    = Some (Ok tt,
            {| directories := directories Number w;
               disk := (rev (map file_of missing) ++ disk Number w)%list;
               retrievals := (retrievals Number w ++ map request_of missing)%list;
               stderr := (stderr Number w ++ flat_map lines_of months)%list |}).
Proof.
  induction n as [|n IH]; intros k w Hk Hn; cbv zeta; rewrite months_from_S, Hlast.
  - assert (Hgt : ym_of_number K < ym_of_number k) by (apply ym_of_number_lt; lia).
    apply Z.leb_gt in Hgt. rewrite Hgt. cbn. rewrite !app_nil_r. now destruct w.
  - assert (Hle : ym_of_number k <= ym_of_number K).
    { destruct (Z.eq_dec k K) as [->|Hne]; [lia|].
      apply Z.lt_le_incl, ym_of_number_lt. lia. }
    apply Z.leb_le in Hle. rewrite Hle.
    rewrite one_month_at by lia. cbv zeta.
    cbn [stderr_write disk].
    assert (Hmonths :
              map (fun i => ym_of_number (k + Z.of_nat i)) (seq 0 (S n))
              = ym_of_number k
                  :: map (fun i => ym_of_number (k + 1 + Z.of_nat i)) (seq 0 n)).
    { cbn [seq map]. rewrite Z.add_0_r. f_equal.
      rewrite <- seq_shift, map_map. apply map_ext. intros i. f_equal. lia. }
    rewrite Hmonths. cbn [filter flat_map].
    destruct (exists_path (disk Number w) (file_of (ym_of_number k))) eqn:E;
      cbn [negb].
    + rewrite IH by lia. cbv zeta.
      cbn [stderr_write disk retrievals stderr]. do 3 f_equal.
      now rewrite <- !app_assoc.
    + unfold c_retrieve. rewrite Hretrieve.
      cbn [stderr_write disk retrievals stderr request req_target].
      unfold write_path at 1. rewrite E.
      rewrite IH by lia. cbv zeta.
      cbn [stderr_write disk retrievals stderr].
      assert (Hfilter :
                filter (fun ym => negb (exists_path
                                          (file_of (ym_of_number k) :: disk Number w)
                                          (file_of ym)))
                       (map (fun i => ym_of_number (k + 1 + Z.of_nat i)) (seq 0 n))
                = filter (fun ym => negb (exists_path (disk Number w) (file_of ym)))
                         (map (fun i => ym_of_number (k + 1 + Z.of_nat i)) (seq 0 n))).
      { apply filter_ext_in. intros ym Hin.
        apply in_map_iff in Hin as (i & <- & Hi). apply in_seq in Hi.
        unfold exists_path. cbn [existsb].
        destruct (String.eqb _ _) eqn:Eq; [|reflexivity].
        apply String.eqb_eq in Eq. apply file_of_inj in Eq; lia. }
      rewrite Hfilter. cbn [map rev]. do 3 f_equal.
      * now rewrite <- app_assoc.
      * now rewrite <- app_assoc.
      * now rewrite <- !app_assoc.
Qed.
End DownloadRuns.

Section ExtremesFacts.
Import Era5.
Local Open Scope Z_scope.

Lemma fold_min_le (l : list Z) (x : Z) :
  fold_left (fun best y => if y <? best then y else best) l x <= x.
Proof.
  revert x. induction l as [|y l IH]; intros x; cbn [fold_left]; [lia|].
  destruct (y <? x) eqn:E.
  - apply Z.ltb_lt in E. specialize (IH y). lia.
  - apply IH.
Qed.

Lemma fold_max_ge (l : list Z) (x : Z) :
  x <= fold_left (fun best y => if best <? y then y else best) l x.
Proof.
  revert x. induction l as [|y l IH]; intros x; cbn [fold_left]; [lia|].
  destruct (x <? y) eqn:E.
  - apply Z.ltb_lt in E. specialize (IH y). lia.
  - apply IH.
Qed.

Lemma py_min_le_max (l : list Z) (a b : Z) :
  py_min Z.ltb l = Ok a -> py_max Z.ltb l = Ok b -> a <= b.
Proof.
  destruct l as [|x l]; [discriminate|]. cbn [py_min py_max].
  intros [= <-] [= <-].
  pose proof (fold_min_le l x). pose proof (fold_max_ge l x). lia.
Qed.
End ExtremesFacts.

Section DownloadOutcomes.
Import Era5.
Local Open Scope string_scope.
Local Open Scope Z_scope.

Variable Number : Type.
Variable number_ltb : Number -> Number -> bool.
Variable number_str : Number -> string.
Variable data_dir : string.
Variable ym_range : list Z.
Variables lat_range lon_range : list Number.
Variables north west south east : Number.
Variables first last : Z.
Hypothesis Hfirst : py_min Z.ltb ym_range = Ok first.
Hypothesis Hlast : py_max Z.ltb ym_range = Ok last.
Hypothesis Cfirst : calendar_month first.
Hypothesis Clast : calendar_month last.
Hypothesis Hnorth : py_max number_ltb lat_range = Ok north.
Hypothesis Hwest : py_min number_ltb lon_range = Ok west.
Hypothesis Hsouth : py_min number_ltb lat_range = Ok south.
Hypothesis Heast : py_max number_ltb lon_range = Ok east.

Local Abbreviation file_of :=
  (fun ym => grib_file Number number_str data_dir (ym / 100) (ym mod 100)
                       north west south east).
Local Abbreviation request_of :=
  (fun ym => request Number (ym / 100) (ym mod 100) north west south east (file_of ym)).
Local Abbreviation lines_of :=
  (fun ym => [obtaining Number number_str (ym / 100) (ym mod 100) north west south east;
              done_line]).
Local Abbreviation rounds :=
  (Z.to_nat (month_number last - month_number first + 1)).

Lemma last_of_number : py_max Z.ltb ym_range = Ok (ym_of_number (month_number last)).
Proof. rewrite ym_of_month_number; [exact Hlast | apply Clast]. Qed.

Lemma download_all (retrieve : nat -> Retrieval Number -> bool * result unit)
      (w : Store Number) (fuel : nat) :
  (forall n r, retrieve n r = (true, Ok tt)) ->
  (S rounds <= fuel)%nat ->
  let missing :=
    filter (fun ym => negb (exists_path (disk Number w) (file_of ym)))
           (months_between first last) in
  get_hourly_historical_weather_from_ERA5Land
    Number number_ltb number_str true retrieve data_dir ym_range lat_range lon_range
    fuel w
  = Some (Ok 39,
          {| directories := write_path (directories Number w) data_dir;
             disk := (rev (map file_of missing) ++ disk Number w)%list;
             retrievals := (retrievals Number w ++ map request_of missing)%list;
             stderr := ((stderr Number w
                         ++ flat_map lines_of (months_between first last))
                          ++ [success])%list |}).
Proof.
  intros Hretrieve Hfuel. cbv zeta.
  unfold get_hourly_historical_weather_from_ERA5Land. rewrite Hfirst.
  pose proof (month_number_bounds first Cfirst) as Bfirst.
  pose proof (month_number_bounds last Clast) as Blast.
  pose proof (months_from_run Number number_ltb number_str retrieve data_dir ym_range
                              lat_range lon_range north west south east
                              (month_number last) Hnorth Hwest Hsouth Heast
                              last_of_number ltac:(lia) Hretrieve rounds
                              (month_number first) (os_makedirs Number data_dir w)
                              ltac:(lia) ltac:(lia)) as Hrun.
  cbv zeta in Hrun. rewrite ym_of_month_number in Hrun by apply Cfirst.
  rewrite (months_from_more _ _ _ _ _ _ _ _ _ _ _ _ _ Hfuel Hrun).
  reflexivity.
Qed.

Lemma download_present (retrieve : nat -> Retrieval Number -> bool * result unit)
      (w : Store Number) (fuel : nat) :
  (forall ym, In ym (months_between first last) ->
              exists_path (disk Number w) (file_of ym) = true) ->
  (S rounds <= fuel)%nat ->
  get_hourly_historical_weather_from_ERA5Land
    Number number_ltb number_str true retrieve data_dir ym_range lat_range lon_range
    fuel w
  = Some (Ok 39,
          {| directories := write_path (directories Number w) data_dir;
             disk := disk Number w;
             retrievals := retrievals Number w;
             stderr := ((stderr Number w
                         ++ flat_map lines_of (months_between first last))
                          ++ [success])%list |}).
Proof.
  intros Hall Hfuel.
  unfold get_hourly_historical_weather_from_ERA5Land. rewrite Hfirst.
  pose proof (month_number_bounds first Cfirst) as Bfirst.
  pose proof (month_number_bounds last Clast) as Blast.
  assert (Hthere : forall i, (i < rounds)%nat ->
                             exists_path (disk Number w)
                                         (file_of (ym_of_number
                                                     (month_number first + Z.of_nat i)))
                             = true).
  { intros i Hi. apply Hall. unfold months_between.
    apply in_map_iff. exists i. split; [reflexivity|]. apply in_seq. lia. }
  pose proof (months_from_present Number number_ltb number_str retrieve data_dir
                                  ym_range lat_range lon_range north west south east
                                  (month_number last) Hnorth Hwest Hsouth Heast
                                  last_of_number ltac:(lia) rounds
                                  (month_number first) (os_makedirs Number data_dir w)
                                  ltac:(lia) ltac:(lia) Hthere)
    as Hrun.
  rewrite ym_of_month_number in Hrun by apply Cfirst.
  rewrite (months_from_more _ _ _ _ _ _ _ _ _ _ _ _ _ Hfuel Hrun).
  reflexivity.
Qed.
End DownloadOutcomes.

Section DownloadStops.
Import Era5.
Local Open Scope string_scope.
Local Open Scope Z_scope.

Variable Number : Type.
Variable number_ltb : Number -> Number -> bool.
Variable number_str : Number -> string.
Variable retrieve : nat -> Retrieval Number -> bool * result unit.
Variable data_dir : string.
Variable ym_range : list Z.
Variables lat_range lon_range : list Number.
Variables north west south east : Number.
Variable last : Z.
Hypothesis Hnorth : py_max number_ltb lat_range = Ok north.
Hypothesis Hwest : py_min number_ltb lon_range = Ok west.
Hypothesis Hsouth : py_min number_ltb lat_range = Ok south.
Hypothesis Heast : py_max number_ltb lon_range = Ok east.
Hypothesis Hlast : py_max Z.ltb ym_range = Ok last.

Local Abbreviation file_of :=
  (fun ym => grib_file Number number_str data_dir (ym / 100) (ym mod 100)
                       north west south east).
Local Abbreviation request_of :=
  (fun ym => request Number (ym / 100) (ym mod 100) north west south east (file_of ym)).
Local Abbreviation lines_of :=
  (fun ym => [obtaining Number number_str (ym / 100) (ym mod 100) north west south east;
              done_line]).
Local Abbreviation step :=
  (one_month Number number_ltb number_str retrieve data_dir lat_range lon_range).
Local Abbreviation loop :=
  (months_from Number number_ltb number_str retrieve data_dir ym_range lat_range
               lon_range).

(** The loop up to the first retrieval that raises, when the files of the
    months before it are there. *)
Lemma months_from_fails (j : nat) :
  forall k w written e fuel,
    12000 <= k -> k + Z.of_nat j <= 119999 ->
    ym_of_number (k + Z.of_nat j) <= last ->
    (forall i, (i < j)%nat ->
               exists_path (disk Number w) (file_of (ym_of_number (k + Z.of_nat i))) = true) ->
    exists_path (disk Number w) (file_of (ym_of_number (k + Z.of_nat j))) = false ->
    retrieve (List.length (retrievals Number w)) (request_of (ym_of_number (k + Z.of_nat j)))
    = (written, Raise e) ->
    loop (S (j + fuel)) (ym_of_number k) w
    = Some (Raise e,
            {| directories := directories Number w;
               disk := if written
                       then file_of (ym_of_number (k + Z.of_nat j)) :: disk Number w
                       else disk Number w;
               retrievals := (retrievals Number w
                              ++ [request_of (ym_of_number (k + Z.of_nat j))])%list;
               stderr := ((stderr Number w
                           ++ flat_map lines_of
                                (map (fun i => ym_of_number (k + Z.of_nat i)) (seq 0 j)))
                            ++ [obtaining Number number_str
                                          (ym_of_number (k + Z.of_nat j) / 100)
                                          (ym_of_number (k + Z.of_nat j) mod 100)
                                          north west south east])%list |}).
Proof.
  induction j as [|j IH]; intros k w written e fuel Hk Hj Hle Hall Hmiss Hget;
    rewrite months_from_S, Hlast.
  - cbn [Z.of_nat] in *. rewrite Z.add_0_r in *.
    apply Z.leb_le in Hle. rewrite Hle.
    rewrite (one_month_at Number number_ltb number_str retrieve data_dir lat_range
                          lon_range north west south east Hnorth Hwest Hsouth Heast)
      by lia.
    cbv zeta. cbn [stderr_write disk]. rewrite Hmiss. cbn [negb].
    unfold c_retrieve. cbn [stderr_write retrievals]. rewrite Hget.
    cbn [stderr_write disk retrievals stderr request req_target seq map flat_map].
    unfold write_path. rewrite Hmiss. now rewrite app_nil_r.
  - assert (Hlt : ym_of_number k < ym_of_number (k + Z.of_nat (S j)))
      by (apply ym_of_number_lt; lia).
    assert (Hle' : ym_of_number k <= last) by lia.
    apply Z.leb_le in Hle'. rewrite Hle'.
    rewrite (one_month_at Number number_ltb number_str retrieve data_dir lat_range
                          lon_range north west south east Hnorth Hwest Hsouth Heast)
      by lia.
    cbv zeta. cbn [stderr_write disk].
    pose proof (Hall 0%nat ltac:(lia)) as H0. cbn [Z.of_nat] in H0.
    rewrite Z.add_0_r in H0. rewrite H0. cbn [negb]. cbv beta iota.
    replace (k + Z.of_nat (S j)) with (k + 1 + Z.of_nat j) in * by lia.
    cbn [Nat.add].
    rewrite (IH (k + 1) _ written e fuel); cbn [stderr_write disk retrievals stderr];
      try lia; try assumption.
    + do 3 f_equal. rewrite <- !app_assoc. f_equal.
      cbn [seq map flat_map]. rewrite Z.add_0_r. cbn [app]. do 2 f_equal.
      f_equal.
      rewrite <- seq_shift, map_map. f_equal. apply map_ext. intros i. f_equal. lia.
    + intros i Hi. specialize (Hall (S i) ltac:(lia)).
      replace (k + 1 + Z.of_nat i) with (k + Z.of_nat (S i)) by lia. exact Hall.
Qed.

Hypothesis Hbeyond : 1000001 <= last.
Hypothesis Hreturns : forall n r, snd (retrieve n r) = Ok tt.




End DownloadStops.

Section DownloadProperties.
Import Era5.
Local Open Scope string_scope.
Local Open Scope Z_scope.

Lemma lines_length {A : Type} (f : A -> string * string) (l : list A) :
  List.length (flat_map (fun a => [fst (f a); snd (f a)]) l) = (2 * List.length l)%nat.
Proof. induction l as [|a l IH]; cbn [flat_map List.length app]; lia. Qed.

Lemma months_between_nth (first last : Z) (j : nat) (ym : Z) :
  nth_error (months_between first last) j = Some ym ->
  ym = ym_of_number (month_number first + Z.of_nat j) /\
  (j < Z.to_nat (month_number last - month_number first + 1))%nat.
Proof.
  unfold months_between. intros H.
  assert (Hj : (j < Z.to_nat (month_number last - month_number first + 1))%nat).
  { assert (Hsome : nth_error (map (fun i => ym_of_number (month_number first + Z.of_nat i))
                                   (seq 0 (Z.to_nat (month_number last
                                                     - month_number first + 1)))) j
                    <> None) by congruence.
    apply nth_error_Some in Hsome. now rewrite length_map, length_seq in Hsome. }
  rewrite nth_error_map, nth_error_seq in H.
  destruct (j <? _)%nat eqn:E; [|apply Nat.ltb_ge in E; lia].
  cbn in H. injection H as <-. split; [reflexivity | exact Hj].
Qed.

(** X25. [get_hourly_historical_weather_from_ERA5Land] can fail before it
    has done anything, in two ways. Without credentials it raises a
    TypeError, because [raise print(...)] raises the [None] that [print]
    returns; the advice goes to stderr. With credentials and an empty
    [ym_range] it raises the ValueError of [min]. Both happen before
    [os.makedirs]: the directory has not been created, no request has been
    sent and no file written. *)
Theorem download_fails_early
        (Number : Type) (number_ltb : Number -> Number -> bool)
        (number_str : Number -> string) (credentials : bool)
        (retrieve : nat -> Retrieval Number -> bool * result unit)
        (data_dir : string) (ym_range : list Z) (lat_range lon_range : list Number)
        (fuel : nat) (w : Store Number) :
  let run := get_hourly_historical_weather_from_ERA5Land
               Number number_ltb number_str credentials retrieve data_dir ym_range
               lat_range lon_range in
  (credentials = false ->
   run fuel w
   = Some (Raise (TypeError "exceptions must derive from BaseException"),
           {| directories := directories Number w;
              disk := disk Number w;
              retrievals := retrievals Number w;
              stderr := (stderr Number w ++ [(no_credentials ++ newline)%string])%list |})) /\
  (credentials = true -> ym_range = [] ->
   run fuel w = Some (Raise (ValueError "min() arg is an empty sequence"), w)).
Proof.
  cbv zeta. unfold get_hourly_historical_weather_from_ERA5Land.
  split.
  - intros ->. reflexivity.
  - intros -> ->. reflexivity.
Qed.

Lemma download_fails_early_witness :
  sample_download false delivers [202311; 202402] 5 sample_store
  = Some (Raise (TypeError "exceptions must derive from BaseException"),
          {| directories := directories Z sample_store;
             disk := disk Z sample_store;
             retrievals := [];
             stderr := [no_credentials ++ newline] |}) /\
  sample_download true delivers [] 5 sample_store
  = Some (Raise (ValueError "min() arg is an empty sequence"), sample_store).
Proof.
  split.
  - apply (proj1 (download_fails_early Z Z.ltb str false delivers "data"
                                       [202311; 202402] [40; 42] [0; 3] 5 sample_store)).
    reflexivity.
  - apply (proj2 (download_fails_early Z Z.ltb str true delivers "data"
                                       [] [40; 42] [0; 3] 5 sample_store));
      reflexivity.
Defined.

(** X31. When the least entry of [ym_range] has at most four digits, the
    download fails in its first round: [str(ym)[4:6]] is empty and
    [int('')] raises a ValueError. By then [os.makedirs] has run, so the
    directory [data_dir] is there, created if it was not (that
    [os.makedirs] itself fails is outside the model); no request has been
    sent, no file written and nothing said on stderr. *)
Theorem download_short_ym
        (Number : Type) (number_ltb : Number -> Number -> bool)
        (number_str : Number -> string)
        (retrieve : nat -> Retrieval Number -> bool * result unit)
        (data_dir : string) (ym_range : list Z) (lat_range lon_range : list Number)
        (first : Z) (fuel : nat) (w : Store Number) :
  py_min Z.ltb ym_range = Ok first ->
  0 <= first <= 9999 ->
  get_hourly_historical_weather_from_ERA5Land
    Number number_ltb number_str true retrieve data_dir ym_range lat_range lon_range
    (S fuel) w
  = Some (Raise (ValueError "invalid literal for int() with base 10: ''"),
          {| directories := write_path (directories Number w) data_dir;
             disk := disk Number w;
             retrievals := retrievals Number w;
             stderr := stderr Number w |}).
Proof.
  intros Hfirst Hshort.
  unfold get_hourly_historical_weather_from_ERA5Land.
  rewrite Hfirst, months_from_S.
  destruct (py_max Z.ltb ym_range) as [last|e] eqn:Hlast;
    [|destruct ym_range; discriminate].
  pose proof (py_min_le_max _ _ _ Hfirst Hlast) as Hle.
  apply Z.leb_le in Hle. rewrite Hle.
  unfold one_month.
  destruct (read_short_ym first Hshort) as [-> ->]. reflexivity.
Qed.

Lemma download_short_ym_witness :
  sample_download true delivers [2023; 202402] 5 sample_store
  = Some (Raise (ValueError "invalid literal for int() with base 10: ''"),
          sample_store) /\
  get_hourly_historical_weather_from_ERA5Land
    Z Z.ltb str true delivers "era5" [2023; 202402] [40; 42] [0; 3] 5 sample_store
  = Some (Raise (ValueError "invalid literal for int() with base 10: ''"),
          {| directories := ["era5"; "data"];
             disk := disk Z sample_store;
             retrievals := [];
             stderr := [] |}).
Proof.
  split.
  - apply (download_short_ym Z Z.ltb str delivers "data" [2023; 202402]
                             [40; 42] [0; 3] 2023 4 sample_store).
    + reflexivity.
    + lia.
  - apply (download_short_ym Z Z.ltb str delivers "era5" [2023; 202402]
                             [40; 42] [0; 3] 2023 4 sample_store).
    + reflexivity.
    + lia.
Defined.

(** X26. With credentials, a range from one month of a four-digit year to
    another, and a service that delivers, the download returns (39, the
    number of characters of its last line on stderr). It has gone through
    the months from the least to the greatest entry of [ym_range] in
    calendar order, and asked for exactly those whose file was not in the
    directory, each once and in that order, with the year and the
    two-digit month of the file. Afterwards the file of every month is
    there, and nothing else has been added. *)
Theorem download_fetches_missing_months
        (Number : Type) (number_ltb : Number -> Number -> bool)
        (number_str : Number -> string)
        (retrieve : nat -> Retrieval Number -> bool * result unit)
        (data_dir : string) (ym_range : list Z) (lat_range lon_range : list Number)
        (north west south east : Number) (first last : Z) (w : Store Number) :
  py_min Z.ltb ym_range = Ok first ->
  py_max Z.ltb ym_range = Ok last ->
  calendar_month first ->
  calendar_month last ->
  py_max number_ltb lat_range = Ok north ->
  py_min number_ltb lon_range = Ok west ->
  py_min number_ltb lat_range = Ok south ->
  py_max number_ltb lon_range = Ok east ->
  (forall n r, retrieve n r = (true, Ok tt)) ->
  let file_of := fun ym => grib_file Number number_str data_dir (ym / 100) (ym mod 100)
                                     north west south east in
  let months := months_between first last in
  let missing :=
    filter (fun ym => negb (exists_path (disk Number w) (file_of ym))) months in
  exists fuel w',
    (forall fuel',
        (fuel <= fuel')%nat ->
        get_hourly_historical_weather_from_ERA5Land
          Number number_ltb number_str true retrieve data_dir ym_range lat_range
          lon_range fuel' w
        = Some (Ok 39, w')) /\
    retrievals Number w'
    = (retrievals Number w
       ++ map (fun ym => {| req_variable := map CDSLongName ERA5Land_variables;
                            req_year := str (ym / 100);
                            req_month := pad2 (ym mod 100);
                            req_area := [north; west; south; east];
                            req_target := file_of ym |}) missing)%list /\
    (forall ym, In ym months -> exists_path (disk Number w') (file_of ym) = true) /\
    (forall p, In p (disk Number w') <->
               In p (disk Number w) \/ exists ym, In ym months /\ p = file_of ym) /\
    List.length (stderr Number w')
    = (List.length (stderr Number w) + 2 * List.length months + 1)%nat.
Proof.
  intros Hfirst Hlast Cfirst Clast Hnorth Hwest Hsouth Heast Hretrieve.
  cbv zeta.
  eexists (S (Z.to_nat (month_number last - month_number first + 1))), _.
  split.
  { intros fuel' Hfuel.
    exact (download_all Number number_ltb number_str data_dir ym_range lat_range
                        lon_range north west south east first last Hfirst Hlast
                        Cfirst Clast Hnorth Hwest Hsouth Heast retrieve w fuel'
                        Hretrieve Hfuel). }
  cbn [disk retrievals stderr].
  assert (Hdisk : forall p,
             In p (rev (map (fun ym => grib_file Number number_str data_dir (ym / 100)
                                                 (ym mod 100) north west south east)
                            (filter (fun ym => negb (exists_path
                                                       (disk Number w)
                                                       (grib_file Number number_str data_dir
                                                                  (ym / 100) (ym mod 100)
                                                                  north west south east)))
                                    (months_between first last)))
                     ++ disk Number w)%list <->
             In p (disk Number w) \/
             exists ym, In ym (months_between first last) /\
                        p = grib_file Number number_str data_dir (ym / 100) (ym mod 100)
                                      north west south east).
  { intros p. rewrite in_app_iff, <- in_rev, in_map_iff. split.
    - intros [(ym & <- & Hin)|Hin]; [|now left].
      apply filter_In in Hin as [Hin _]. right. eauto.
    - intros [Hin|(ym & Hin & ->)]; [now right|].
      destruct (exists_path (disk Number w)
                            (grib_file Number number_str data_dir (ym / 100) (ym mod 100)
                                       north west south east)) eqn:E.
      + right. now apply exists_path_In.
      + left. exists ym. split; [reflexivity|].
        apply filter_In. split; [exact Hin | now rewrite E]. }
  split; [reflexivity|]. split; [|split].
  - intros ym Hin. apply exists_path_In, Hdisk. right. eauto.
  - exact Hdisk.
  - rewrite !length_app.
    rewrite (lines_length
               (fun ym => (obtaining Number number_str (ym / 100) (ym mod 100)
                                     north west south east, done_line))).
    reflexivity.
Qed.

Lemma download_fetches_missing_months_witness :
  exists fuel w',
    (forall fuel',
        (fuel <= fuel')%nat ->
        sample_download true delivers [202311; 202402] fuel' sample_store
        = Some (Ok 39, w')) /\
    map (req_target Z) (retrievals Z w')
    = ["data/202311_42_0_40_3.grib"; "data/202401_42_0_40_3.grib";
       "data/202402_42_0_40_3.grib"] /\
    map (req_month Z) (retrievals Z w') = ["11"; "01"; "02"] /\
    exists_path (disk Z w') "data/202312_42_0_40_3.grib" = true.
Proof.
  destruct (download_fetches_missing_months
              Z Z.ltb str delivers "data" [202311; 202402] [40; 42] [0; 3]
              42 0 40 3 202311 202402 sample_store)
    as (fuel & w' & Hrun & Hret & Hthere & _);
    try reflexivity; try (unfold calendar_month; cbn; lia).
  exists fuel, w'. split; [exact Hrun|].
  rewrite Hret. split; [reflexivity|]. split; [reflexivity|].
  apply (Hthere 202312). vm_compute. tauto.
Defined.

(** X27. When the files of all months of the range are in the directory,
    the download asks the service for nothing, whatever the service would
    have answered, and leaves the directory as it is. *)
Theorem download_skips_present_files
        (Number : Type) (number_ltb : Number -> Number -> bool)
        (number_str : Number -> string)
        (retrieve : nat -> Retrieval Number -> bool * result unit)
        (data_dir : string) (ym_range : list Z) (lat_range lon_range : list Number)
        (north west south east : Number) (first last : Z) (w : Store Number) :
  py_min Z.ltb ym_range = Ok first ->
  py_max Z.ltb ym_range = Ok last ->
  calendar_month first ->
  calendar_month last ->
  py_max number_ltb lat_range = Ok north ->
  py_min number_ltb lon_range = Ok west ->
  py_min number_ltb lat_range = Ok south ->
  py_max number_ltb lon_range = Ok east ->
  (forall ym, In ym (months_between first last) ->
              exists_path (disk Number w)
                          (grib_file Number number_str data_dir (ym / 100) (ym mod 100)
                                     north west south east) = true) ->
  exists fuel w',
    (forall fuel',
        (fuel <= fuel')%nat ->
        get_hourly_historical_weather_from_ERA5Land
          Number number_ltb number_str true retrieve data_dir ym_range lat_range
          lon_range fuel' w
        = Some (Ok 39, w')) /\
    disk Number w' = disk Number w /\
    retrievals Number w' = retrievals Number w.
Proof.
  intros Hfirst Hlast Cfirst Clast Hnorth Hwest Hsouth Heast Hall.
  eexists (S (Z.to_nat (month_number last - month_number first + 1))), _.
  split.
  { intros fuel' Hfuel.
    exact (download_present Number number_ltb number_str data_dir ym_range lat_range
                            lon_range north west south east first last Hfirst Hlast
                            Cfirst Clast Hnorth Hwest Hsouth Heast retrieve w fuel'
                            Hall Hfuel). }
  split; reflexivity.
Qed.

Lemma download_skips_present_files_witness :
  exists fuel w',
    (forall fuel',
        (fuel <= fuel')%nat ->
        sample_download true is_down [202312] fuel' sample_store = Some (Ok 39, w')) /\
    disk Z w' = disk Z sample_store /\
    retrievals Z w' = [].
Proof.
  apply (download_skips_present_files
           Z Z.ltb str is_down "data" [202312] [40; 42] [0; 3]
           42 0 40 3 202312 202312 sample_store);
    try reflexivity; try (unfold calendar_month; cbn; lia).
  intros ym [<-|[]]. reflexivity.
Defined.

(** X28. The download can be repeated: after a run with a service that
    delivers, a second run over the same range asks for nothing, also
    when the service is down by then, and leaves the directory as the
    first run left it. *)
Theorem download_twice
        (Number : Type) (number_ltb : Number -> Number -> bool)
        (number_str : Number -> string)
        (retrieve retrieve' : nat -> Retrieval Number -> bool * result unit)
        (data_dir : string) (ym_range : list Z) (lat_range lon_range : list Number)
        (north west south east : Number) (first last : Z) (w : Store Number) :
  py_min Z.ltb ym_range = Ok first ->
  py_max Z.ltb ym_range = Ok last ->
  calendar_month first ->
  calendar_month last ->
  py_max number_ltb lat_range = Ok north ->
  py_min number_ltb lon_range = Ok west ->
  py_min number_ltb lat_range = Ok south ->
  py_max number_ltb lon_range = Ok east ->
  (forall n r, retrieve n r = (true, Ok tt)) ->
  exists fuel w' w'',
    (forall fuel',
        (fuel <= fuel')%nat ->
        get_hourly_historical_weather_from_ERA5Land
          Number number_ltb number_str true retrieve data_dir ym_range lat_range
          lon_range fuel' w
        = Some (Ok 39, w') /\
        get_hourly_historical_weather_from_ERA5Land
          Number number_ltb number_str true retrieve' data_dir ym_range lat_range
          lon_range fuel' w'
        = Some (Ok 39, w'')) /\
    disk Number w'' = disk Number w' /\
    retrievals Number w'' = retrievals Number w'.
Proof.
  intros Hfirst Hlast Cfirst Clast Hnorth Hwest Hsouth Heast Hretrieve.
  eexists (S (Z.to_nat (month_number last - month_number first + 1))), _, _.
  split.
  { intros fuel' Hfuel. split.
    - exact (download_all Number number_ltb number_str data_dir ym_range lat_range
                          lon_range north west south east first last Hfirst Hlast
                          Cfirst Clast Hnorth Hwest Hsouth Heast retrieve w fuel'
                          Hretrieve Hfuel).
    - apply (download_present Number number_ltb number_str data_dir ym_range lat_range
                              lon_range north west south east first last Hfirst Hlast
                              Cfirst Clast Hnorth Hwest Hsouth Heast retrieve');
        [|exact Hfuel].
      intros ym Hin. cbn [disk]. apply exists_path_In, in_app_iff.
      destruct (exists_path (disk Number w)
                            (grib_file Number number_str data_dir (ym / 100) (ym mod 100)
                                       north west south east)) eqn:E.
      + right. now apply exists_path_In.
      + left. rewrite <- in_rev. apply in_map_iff. exists ym. split; [reflexivity|].
        apply filter_In. split; [exact Hin | now rewrite E]. }
  split; reflexivity.
Qed.

Lemma download_twice_witness :
  exists fuel w' w'',
    (forall fuel',
        (fuel <= fuel')%nat ->
        sample_download true delivers [202311; 202402] fuel' sample_store
        = Some (Ok 39, w') /\
        sample_download true is_down [202311; 202402] fuel' w' = Some (Ok 39, w'')) /\
    disk Z w'' = disk Z w' /\
    retrievals Z w'' = retrievals Z w'.
Proof.
  apply (download_twice Z Z.ltb str delivers is_down "data" [202311; 202402]
                        [40; 42] [0; 3] 42 0 40 3 202311 202402 sample_store);
    try reflexivity; unfold calendar_month; cbn; lia.
Defined.

(** X29. A retrieval that raises ends the download with its exception.
    When the files of the months before month [ym] of the range are there,
    the file of [ym] is not, and the service raises for it, then the
    request for [ym] is the only one sent, no later month is asked for,
    the files that were there stay, and the line Done! of [ym] is not
    written. *)
Theorem download_stops_at_failed_retrieval
        (Number : Type) (number_ltb : Number -> Number -> bool)
        (number_str : Number -> string)
        (retrieve : nat -> Retrieval Number -> bool * result unit)
        (data_dir : string) (ym_range : list Z) (lat_range lon_range : list Number)
        (north west south east : Number) (first last : Z) (w : Store Number)
        (j : nat) (ym : Z) (written : bool) (e : exn) :
  py_min Z.ltb ym_range = Ok first ->
  py_max Z.ltb ym_range = Ok last ->
  calendar_month first ->
  calendar_month last ->
  py_max number_ltb lat_range = Ok north ->
  py_min number_ltb lon_range = Ok west ->
  py_min number_ltb lat_range = Ok south ->
  py_max number_ltb lon_range = Ok east ->
  let file_of := fun ym => grib_file Number number_str data_dir (ym / 100) (ym mod 100)
                                     north west south east in
  let request_of := fun ym => request Number (ym / 100) (ym mod 100)
                                      north west south east (file_of ym) in
  nth_error (months_between first last) j = Some ym ->
  (forall i ym', (i < j)%nat -> nth_error (months_between first last) i = Some ym' ->
                 exists_path (disk Number w) (file_of ym') = true) ->
  exists_path (disk Number w) (file_of ym) = false ->
  retrieve (List.length (retrievals Number w)) (request_of ym) = (written, Raise e) ->
  exists fuel w',
    (forall fuel',
        (fuel <= fuel')%nat ->
        get_hourly_historical_weather_from_ERA5Land
          Number number_ltb number_str true retrieve data_dir ym_range lat_range
          lon_range fuel' w
        = Some (Raise e, w')) /\
    retrievals Number w' = (retrievals Number w ++ [request_of ym])%list /\
    (forall p, In p (disk Number w') <->
               In p (disk Number w) \/ (written = true /\ p = file_of ym)) /\
    List.last (stderr Number w') ""
    = obtaining Number number_str (ym / 100) (ym mod 100) north west south east.
Proof.
  intros Hfirst Hlast Cfirst Clast Hnorth Hwest Hsouth Heast.
  cbv zeta. intros Hnth Hbefore Hmiss Hget.
  apply months_between_nth in Hnth as [-> Hj].
  pose proof (month_number_bounds first Cfirst) as Bfirst.
  pose proof (month_number_bounds last Clast) as Blast.
  set (k := month_number first) in *.
  assert (Hle : ym_of_number (k + Z.of_nat j) <= last).
  { rewrite <- (ym_of_month_number last) by apply Clast.
    destruct (Z.eq_dec (k + Z.of_nat j) (month_number last)) as [->|Hne]; [lia|].
    apply Z.lt_le_incl, ym_of_number_lt. lia. }
  assert (Hthere : forall i, (i < j)%nat ->
                             exists_path (disk Number w)
                                         (grib_file Number number_str data_dir
                                                    (ym_of_number (k + Z.of_nat i) / 100)
                                                    (ym_of_number (k + Z.of_nat i) mod 100)
                                                    north west south east) = true).
  { intros i Hi. apply (Hbefore i); [exact Hi|].
    unfold months_between. rewrite nth_error_map, nth_error_seq.
    fold k. destruct (i <? _)%nat eqn:E; [reflexivity|].
    apply Nat.ltb_ge in E. lia. }
  pose proof (fun fuel =>
                months_from_fails Number number_ltb number_str retrieve data_dir
                                  ym_range lat_range lon_range north west south east
                                  last Hnorth Hwest Hsouth Heast Hlast j k
                                  (os_makedirs Number data_dir w) written e
                                  fuel ltac:(lia) ltac:(lia) Hle Hthere Hmiss Hget)
    as Hrun.
  eexists (S j), _. split.
  { intros fuel' Hfuel.
    unfold get_hourly_historical_weather_from_ERA5Land. rewrite Hfirst.
    rewrite <- (ym_of_month_number first) by apply Cfirst. fold k.
    replace fuel' with (S (j + (fuel' - S j)))%nat by lia.
    rewrite Hrun. reflexivity. }
  cbn [disk retrievals stderr]. split; [reflexivity|]. split.
  - intros p. destruct written; cbn [In]; intuition congruence.
  - apply last_last.
Qed.

Lemma download_stops_at_failed_retrieval_witness :
  exists fuel w',
    (forall fuel',
        (fuel <= fuel')%nat ->
        sample_download true is_down [202312; 202402] fuel' sample_store
        = Some (Raise (ProviderError "HTTP 503"), w')) /\
    map (req_target Z) (retrievals Z w') = ["data/202401_42_0_40_3.grib"] /\
    (forall p, In p (disk Z w') <-> In p (disk Z sample_store)).
Proof.
  destruct (download_stops_at_failed_retrieval
              Z Z.ltb str is_down "data" [202312; 202402] [40; 42] [0; 3]
              42 0 40 3 202312 202402 sample_store 1 202401 false
              (ProviderError "HTTP 503"))
    as (fuel & w' & Hrun & Hret & Hdisk & _);
    try reflexivity; try (unfold calendar_month; cbn; lia).
  { intros [|i] ym' Hi; [|lia]. intros [= <-]. reflexivity. }
  exists fuel, w'. split; [exact Hrun|]. rewrite Hret. split; [reflexivity|].
  intros p. rewrite Hdisk. split; [|tauto].
  intros [H|[H _]]; [exact H | discriminate H].
Defined.


End DownloadProperties.
